(** * Big Ten IPEDS completions builder: a shallow embedding

    This development embeds [scripts/build_research_bigten_completions.py]
    and proves properties of its four functions:

    - [load_bigten_unitids]      the institution allow-list loader,
    - [format_cipcode]           the classification-code normalizer,
    - [clean_excel_text_wrapper] the text de-wrapping utility,
    - [build]                    the pipeline orchestrator.

    Conventions of the embedding.

    - A Python [str] is a [string]; each character is read as the code
      point of the same number, so the strings covered are those of code
      points below 256.  On that range the decimal digits are [0-9] and the
      white space of [str.strip] is 9-13, 28-32, 133 and 160.
    - A Python [float] is a binary64 value [pyfloat]; [float(s)], the format
      [.4f] and [repr] are correctly rounded, as in CPython.
    - Exceptions are the [Raise] results of the type [result]; file effects
      are threaded through a state of type [fs].
    - A frame is the list of its rows, a series the list of its cells.  A
      missing cell ([None], [NaN], [pd.NA]) of a string or nullable integer
      column is [None] of an [option].  The three inputs are read with the
      columns and dtypes that the script expects of them; the allow-list
      file is read as a table of any columns.
    - Of pandas: [merge(how="left")] keeps the order of the left rows and
      gives each of them its partners in the order of the right rows;
      [drop_duplicates] keeps the first row of equal ones; the [.str]
      methods act on each cell as the [str] method of the same name and keep
      a missing cell missing; [sort_values] is taken to be stable. *)

From Stdlib Require Import String Ascii ZArith List Bool Lia.
Import ListNotations.
Local Open Scope string_scope.
Local Open Scope Z_scope.

(** ** Python strings *)

Module Py.

Definition dquote : ascii := "034"%char.
Definition squote : ascii := "039"%char.
Definition newline : ascii := "010"%char.

(** [str.isspace] on one character. *)
Definition isspace (c : ascii) : bool :=
  let n := N_of_ascii c in
  ((9 <=? n) && (n <=? 13) || (28 <=? n) && (n <=? 32) || (n =? 133) || (n =? 160))%N.

(** [\d] of [re] and the digits of [float]. *)
Definition isdigit (c : ascii) : bool :=
  let n := N_of_ascii c in ((48 <=? n) && (n <=? 57))%N.

Fixpoint lstrip (s : string) : string :=
  match s with
  | String c t => if isspace c then lstrip t else s
  | EmptyString => EmptyString
  end.

Fixpoint rstrip (s : string) : string :=
  match s with
  | String c t =>
      match rstrip t with
      | EmptyString => if isspace c then EmptyString else String c EmptyString
      | r => String c r
      end
  | EmptyString => EmptyString
  end.

(** [s.strip()] *)
Definition strip (s : string) : string := rstrip (lstrip s).

(** [str.lower] on one character: [A-Z], and the capital letters 192-222
    of the Latin-1 block (215 is the multiplication sign). *)
Definition lower_char (c : ascii) : ascii :=
  let n := N_of_ascii c in
  if ((65 <=? n) && (n <=? 90) || (192 <=? n) && (n <=? 222) && negb (n =? 215))%N
  then ascii_of_N (n + 32) else c.

Fixpoint lower (s : string) : string :=
  match s with
  | String c t => String (lower_char c) (lower t)
  | EmptyString => EmptyString
  end.

Fixpoint repeat_char (c : ascii) (n : nat) : string :=
  match n with
  | O => EmptyString
  | S k => String c (repeat_char c k)
  end.

(** [s.zfill(width)]: zeros are inserted after a leading sign. *)
Definition zfill (width : nat) (s : string) : string :=
  let pad := repeat_char "0" (width - String.length s) in
  match s with
  | String c t =>
      if (Ascii.eqb c "+" || Ascii.eqb c "-")%bool then String c (pad ++ t) else pad ++ s
  | EmptyString => pad
  end.

(** [s.split(".", 1)]: the text before the first dot, and the text after it
    when there is a dot. *)
Fixpoint split_dot (s : string) : string * option string :=
  match s with
  | EmptyString => (EmptyString, None)
  | String c t =>
      if Ascii.eqb c "."
      then (EmptyString, Some t)
      else let '(l, r) := split_dot t in (String c l, r)
  end.

(** [s[:n]] *)
Fixpoint take (n : nat) (s : string) : string :=
  match n, s with
  | S k, String c t => String c (take k t)
  | _, _ => EmptyString
  end.

Fixpoint contains_char (c : ascii) (s : string) : bool :=
  match s with
  | String a t => Ascii.eqb a c || contains_char c t
  | EmptyString => false
  end.

End Py.

(** ** Regular expressions of [re], as far as the script uses them *)

Module Re.

Inductive regex : Type :=
| Lit (c : ascii)            (* one literal character *)
| Digit                      (* \d *)
| Bol                        (* ^ *)
| Eol                        (* $ *)
| Cat (r1 r2 : regex)        (* r1 r2 *)
| Alt (r1 r2 : regex)        (* r1|r2 *)
| Opt (r : regex)            (* r? *)
| Rep (n : nat) (r : regex). (* r{n} *)

(** [$] without [re.MULTILINE]: at the end, or before a newline that ends
    the string. *)
Definition at_eol (s : string) : bool :=
  match s with
  | EmptyString => true
  | String c EmptyString => Ascii.eqb c Py.newline
  | _ => false
  end.

(** The backtracking matcher: all the ways [r] matches at offset [pos],
    where [s] is the text from [pos] on, in the order [re] tries them.  A
    way is the offset and the text after the match. *)
Fixpoint matches (r : regex) (pos : nat) (s : string) : list (nat * string) :=
  match r with
  | Lit c =>
      match s with
      | String a t => if Ascii.eqb a c then [(S pos, t)] else []
      | EmptyString => []
      end
  | Digit =>
      match s with
      | String a t => if Py.isdigit a then [(S pos, t)] else []
      | EmptyString => []
      end
  | Bol => if Nat.eqb pos 0 then [(pos, s)] else []
  | Eol => if at_eol s then [(pos, s)] else []
  | Cat r1 r2 => flat_map (fun w => matches r2 (fst w) (snd w)) (matches r1 pos s)
  | Alt r1 r2 => matches r1 pos s ++ matches r2 pos s
  | Opt r1 => matches r1 pos s ++ [(pos, s)]
  | Rep n r1 =>
      (fix rep (k : nat) (ws : list (nat * string)) : list (nat * string) :=
         match k with
         | O => ws
         | S k' => rep k' (flat_map (fun w => matches r1 (fst w) (snd w)) ws)
         end) n [(pos, s)]
  end.

(** [re.fullmatch(r, s) is not None] *)
Definition fullmatch (r : regex) (s : string) : bool :=
  existsb (fun w => match snd w with EmptyString => true | _ => false end)
          (matches r 0 s).

(** [re.sub(r, repl, s)], scanning from offset [pos]; the fuel bounds the
    number of offsets visited.  A match that consumes no text is replaced
    and the scan moves on by one character. *)
Fixpoint sub_from (r : regex) (repl : string) (fuel : nat) (pos : nat) (s : string) : string :=
  match fuel with
  | O => s
  | S fuel' =>
      let skip :=
        match s with
        | String c t => String c (sub_from r repl fuel' (S pos) t)
        | EmptyString => EmptyString
        end in
      match matches r pos s with
      | (p, t) :: _ =>
          if Nat.ltb pos p then repl ++ sub_from r repl fuel' p t else repl ++ skip
      | [] => skip
      end
  end.

Definition sub (r : regex) (repl : string) (s : string) : string :=
  sub_from r repl (S (String.length s)) 0 s.

End Re.

(** ** The text de-wrapping utility *)

(** The pattern [^="?|"$]. *)
Definition wrapper_pattern : Re.regex :=
  Re.Alt (Re.Cat Re.Bol (Re.Cat (Re.Lit "=") (Re.Opt (Re.Lit Py.dquote))))
         (Re.Cat (Re.Lit Py.dquote) Re.Eol).

(** One element of the series: [.str.strip().str.replace(..).str.strip()];
    the [.str] methods keep a missing value missing. *)
Definition dewrap (s : string) : string :=
  Py.strip (Re.sub wrapper_pattern "" (Py.strip s)).

Definition clean_excel_text_wrapper (series : list (option string)) : list (option string) :=
  map (option_map dewrap) series.

(** ** Exceptions *)

Inductive exn : Type :=
| ValueError (msg : string)
| TypeError (msg : string)
| KeyError (msg : string)
| IntCastingNaNError (msg : string)
| FileNotFoundError (msg : string)
| IsADirectoryError (msg : string)
| NotADirectoryError (msg : string)
| FileExistsError (msg : string).

Inductive result (A : Type) : Type :=
| Ok (a : A)
| Raise (e : exn).
Arguments Ok {A} a.
Arguments Raise {A} e.

Definition rbind {A B : Type} (c : result A) (k : A -> result B) : result B :=
  match c with
  | Ok a => k a
  | Raise e => Raise e
  end.

(** [for x in xs: f(x)], collecting the results; the first exception
    stops the loop. *)
Fixpoint rmap {A B : Type} (f : A -> result B) (xs : list A) : result (list B) :=
  match xs with
  | [] => Ok []
  | x :: t => rbind (f x) (fun y => rbind (rmap f t) (fun ys => Ok (y :: ys)))
  end.

(** ** Decimal text of integers, and [repr] of strings *)

Module Repr.

Definition digit_char (d : Z) : ascii := ascii_of_N (48 + Z.to_N d).

Fixpoint digits_acc (fuel : nat) (n : Z) (acc : string) : string :=
  match fuel with
  | O => acc
  | S k =>
      let acc' := String (digit_char (n mod 10)) acc in
      if n <? 10 then acc' else digits_acc k (n / 10) acc'
  end.

(** The decimal digits of [n >= 0]. *)
Definition digits (n : Z) : string :=
  digits_acc (S (Z.to_nat (Z.log2 n))) n EmptyString.

(** [str(z)] of an [int]. *)
Definition int (z : Z) : string :=
  if z <? 0 then String "-" (digits (- z)) else digits z.

Definition hex_char (d : N) : ascii :=
  if (d <? 10)%N then ascii_of_N (48 + d) else ascii_of_N (87 + d).

(** [str.isprintable] on one character. *)
Definition isprintable (c : ascii) : bool :=
  let n := N_of_ascii c in
  ((32 <=? n) && (n <=? 126) || (161 <=? n) && negb (n =? 173))%N.

Definition escape_char (quote : ascii) (c : ascii) : string :=
  let n := N_of_ascii c in
  if (Ascii.eqb c quote || Ascii.eqb c "\")%bool then String "\" (String c EmptyString)
  else if (n =? 9)%N then "\t"
  else if (n =? 10)%N then "\n"
  else if (n =? 13)%N then "\r"
  else if isprintable c then String c EmptyString
  else String "\" (String "x" (String (hex_char (n / 16)) (String (hex_char (n mod 16)) EmptyString))).

Fixpoint escape (quote : ascii) (s : string) : string :=
  match s with
  | String c t => escape_char quote c ++ escape quote t
  | EmptyString => EmptyString
  end.

(** [repr(s)] of a [str]. *)
Definition repr (s : string) : string :=
  let quote :=
    if (Py.contains_char Py.squote s && negb (Py.contains_char Py.dquote s))%bool
    then Py.dquote else Py.squote in
  String quote (escape quote s ++ String quote EmptyString).

Fixpoint join (sep : string) (xs : list string) : string :=
  match xs with
  | [] => EmptyString
  | [x] => x
  | x :: t => x ++ sep ++ join sep t
  end.

(** [repr(xs)] of a list of [str]. *)
Definition repr_list (xs : list string) : string :=
  "[" ++ join ", " (map repr xs) ++ "]".

End Repr.

(** ** Python floats *)

Module Float.

(** A binary64 value: not a number, an infinity, or [(-1)^neg * m * 2^e]
    with [0 <= m < 2^53] and [-1074 <= e <= 971]; [m < 2^52] only when
    [e = -1074]. *)
Inductive pyfloat : Type :=
| FNan
| FInf (neg : bool)
| FFin (neg : bool) (m e : Z).

Definition isnan (f : pyfloat) : bool :=
  match f with FNan => true | _ => false end.

Definition isfinite (f : pyfloat) : bool :=
  match f with FFin _ _ _ => true | _ => false end.

Definition eqb (f g : pyfloat) : bool :=
  match f, g with
  | FInf a, FInf b => Bool.eqb a b
  | FFin a m e, FFin b n k => Bool.eqb a b && (m =? n) && (e =? k)
  | _, _ => false
  end.

(** [n / d] rounded to the nearest integer, ties to even ([n >= 0], [d > 0]). *)
Definition round_half_even (n d : Z) : Z :=
  let q := n / d in
  match 2 * (n mod d) ?= d with
  | Lt => q
  | Gt => q + 1
  | Eq => if Z.even q then q else q + 1
  end.

(** The ratio [n / (d * 2^e)] as a pair of integers. *)
Definition scale2 (n d e : Z) : Z * Z :=
  if 0 <=? e then (n, d * 2 ^ e) else (n * 2 ^ (- e), d).

(** The binary64 value nearest to [n / d] ([n >= 0], [d > 0]), ties to
    even, overflow to infinity, gradual underflow. *)
Definition of_ratio (neg : bool) (n d : Z) : pyfloat :=
  if n =? 0 then FFin neg 0 (-1074) else
  let e0 := Z.log2 n - Z.log2 d - 52 in
  let e1 := if fst (scale2 n d e0) <? snd (scale2 n d e0) * 2 ^ 52 then e0 - 1 else e0 in
  let e2 := Z.max e1 (-1074) in
  let m := round_half_even (fst (scale2 n d e2)) (snd (scale2 n d e2)) in
  let m' := if m =? 2 ^ 53 then 2 ^ 52 else m in
  let e' := if m =? 2 ^ 53 then e2 + 1 else e2 in
  if 971 <? e' then FInf neg else FFin neg m' e'.

(** [digits * 10^e10] as a binary64 value. *)
Definition of_decimal (neg : bool) (digits e10 : Z) : pyfloat :=
  if 0 <=? e10 then of_ratio neg (digits * 10 ^ e10) 1
  else of_ratio neg digits (10 ^ (- e10)).

(** *** [float(s)] *)

Fixpoint span_digits (s : string) : string * string :=
  match s with
  | String c t =>
      if Py.isdigit c then let '(d, r) := span_digits t in (String c d, r)
      else (EmptyString, s)
  | EmptyString => (EmptyString, EmptyString)
  end.

Fixpoint Z_of_digits (acc : Z) (s : string) : Z :=
  match s with
  | String c t => Z_of_digits (10 * acc + (Z.of_N (N_of_ascii c) - 48)) t
  | EmptyString => acc
  end.

(** Underscores may stand between two digits only; they are removed. *)
Fixpoint remove_underscores (prev : ascii) (s : string) : option string :=
  match s with
  | EmptyString => if Ascii.eqb prev "_" then None else Some EmptyString
  | String c t =>
      if Ascii.eqb c "_" then
        if Py.isdigit prev then remove_underscores c t else None
      else if (Ascii.eqb prev "_" && negb (Py.isdigit c))%bool then None
      else option_map (String c) (remove_underscores c t)
  end.

Definition split_sign (s : string) : bool * string :=
  match s with
  | String c t =>
      if Ascii.eqb c "-" then (true, t)
      else if Ascii.eqb c "+" then (false, t)
      else (false, s)
  | EmptyString => (false, s)
  end.

(** The grammar of [float]: a sign, then [inf], [infinity] or [nan] in any
    letter case, or digits with an optional point and an optional
    exponent; at least one digit before the exponent. *)
Definition parse_number (s : string) : option pyfloat :=
  let '(neg, t) := split_sign s in
  let low := Py.lower t in
  if (String.eqb low "inf" || String.eqb low "infinity")%bool then Some (FInf neg)
  else if String.eqb low "nan" then Some FNan
  else
    let '(ip, r1) := span_digits t in
    let '(fp, r2) :=
      match r1 with
      | String c r => if Ascii.eqb c "." then span_digits r else (EmptyString, r1)
      | EmptyString => (EmptyString, r1)
      end in
    if (String.eqb ip "" && String.eqb fp "")%bool then None
    else
      let mant := Z_of_digits 0 (ip ++ fp) in
      let shift := Z.of_nat (String.length fp) in
      match r2 with
      | EmptyString => Some (of_decimal neg mant (- shift))
      | String c r3 =>
          if (Ascii.eqb c "e" || Ascii.eqb c "E")%bool then
            let '(eneg, r4) := split_sign r3 in
            let '(ed, r5) := span_digits r4 in
            if String.eqb ed "" then None
            else
              match r5 with
              | EmptyString =>
                  let ex := Z_of_digits 0 ed in
                  Some (of_decimal neg mant ((if eneg then - ex else ex) - shift))
              | _ => None
              end
          else None
      end.

(** The white space that [float] trims: the six ASCII spaces, and the
    spaces above the ASCII range, which it first turns into blanks. *)
Definition isspace (c : ascii) : bool :=
  let n := N_of_ascii c in
  ((9 <=? n) && (n <=? 13) || (n =? 32) || (n =? 133) || (n =? 160))%N.

Fixpoint lstrip (s : string) : string :=
  match s with
  | String c t => if isspace c then lstrip t else s
  | EmptyString => EmptyString
  end.

Fixpoint rstrip (s : string) : string :=
  match s with
  | String c t =>
      match rstrip t with
      | EmptyString => if isspace c then EmptyString else String c EmptyString
      | r => String c r
      end
  | EmptyString => EmptyString
  end.

Definition of_string (s : string) : option pyfloat :=
  match remove_underscores "000" s with
  | Some t => parse_number (rstrip (lstrip t))
  | None => None
  end.

(** [float(s)] for a [str]: the value, or [ValueError]. *)
Definition float (s : string) : result pyfloat :=
  match of_string s with
  | Some f => Ok f
  | None => Raise (ValueError ("could not convert string to float: " ++ Repr.repr s))
  end.

(** *** The format [.4f] *)

(** [m * 2^e * 10^4], rounded to an integer. *)
Definition ten_thousandths (m e : Z) : Z :=
  if 0 <=? e then m * 2 ^ e * 10000 else round_half_even (m * 10000) (2 ^ (- e)).

Definition four_digits (n : Z) : string :=
  String (Repr.digit_char (n / 1000 mod 10))
    (String (Repr.digit_char (n / 100 mod 10))
       (String (Repr.digit_char (n / 10 mod 10))
          (String (Repr.digit_char (n mod 10)) EmptyString))).

Definition sign_text (neg : bool) : string := if neg then "-" else "".

(** [f"{f:.4f}"] *)
Definition format_4f (f : pyfloat) : string :=
  match f with
  | FNan => "nan"
  | FInf neg => sign_text neg ++ "inf"
  | FFin neg m e =>
      let n := ten_thousandths m e in
      sign_text neg ++ Repr.digits (n / 10000) ++ "." ++ four_digits (n mod 10000)
  end.

End Float.

(** *** [repr(f)], which is also [str(f)] *)

Module FloatRepr.
Import Float.

(** [10^k <= n / d] *)
Definition pow10_le (k n d : Z) : bool :=
  if 0 <=? k then 10 ^ k * d <=? n else d <=? n * 10 ^ (- k).

(** The least [k] from [k0] on with [n / d < 10^k]. *)
Fixpoint decimal_point (fuel : nat) (k0 n d : Z) : Z :=
  match fuel with
  | O => k0
  | S fuel' => if pow10_le k0 n d then decimal_point fuel' (k0 + 1) n d else k0
  end.

(** [n / (d * 10^s)] as a pair of integers. *)
Definition scale10 (n d s : Z) : Z * Z :=
  if 0 <=? s then (n, d * 10 ^ s) else (n * 10 ^ (- s), d).

(** Does the decimal [c * 10^s] read back as the float [f]? *)
Definition reads_back (f : pyfloat) (c s : Z) : bool :=
  Float.eqb (of_decimal false c s) f.

(** The shortest decimal [c * 10^s] that reads back as [m * 2^e], with
    1 to 17 digits; of two such decimals of the same length, the one
    nearer to the value. *)
Fixpoint shortest (fuel : nat) (p : Z) (m e k : Z) : Z * Z :=
  let n := fst (scale2 m 1 (- e)) in
  let d := snd (scale2 m 1 (- e)) in
  let s := k - p in
  let a := fst (scale10 n d s) in
  let b := snd (scale10 n d s) in
  let lo := a / b in
  let hi := lo + 1 in
  let f := FFin false m e in
  match fuel with
  | O => (round_half_even a b, s)
  | S fuel' =>
      match reads_back f lo s, reads_back f hi s with
      | true, true => (round_half_even a b, s)
      | true, false => (lo, s)
      | false, true => (hi, s)
      | false, false => shortest fuel' (p + 1) m e k
      end
  end.

Fixpoint drop_zeros (fuel : nat) (c s : Z) : Z * Z :=
  match fuel with
  | O => (c, s)
  | S fuel' => if (c mod 10 =? 0) && negb (c =? 0) then drop_zeros fuel' (c / 10) (s + 1) else (c, s)
  end.

Fixpoint drop (n : nat) (s : string) : string :=
  match n, s with
  | S k, String _ t => drop k t
  | _, _ => s
  end.

(** The digits [ds] with the decimal point after [decpt] of them, in the
    layout of [repr]: an exponent when [decpt] is above 16 or below -3. *)
Definition layout (ds : string) (decpt : Z) : string :=
  let n := Z.of_nat (String.length ds) in
  if (16 <? decpt) || (decpt <? -3) then
    let ex := decpt - 1 in
    let mant :=
      match ds with
      | String c EmptyString => ds
      | String c t => String c (String "." t)
      | EmptyString => ds
      end in
    mant ++ "e" ++ (if ex <? 0 then "-" else "+") ++ Py.zfill 2 (Repr.digits (Z.abs ex))
  else if decpt <=? 0 then
    "0." ++ Py.repeat_char "0" (Z.to_nat (- decpt)) ++ ds
  else if decpt <? n then
    Py.take (Z.to_nat decpt) ds ++ "." ++ drop (Z.to_nat decpt) ds
  else
    ds ++ Py.repeat_char "0" (Z.to_nat (decpt - n)) ++ ".0".

Definition repr (f : pyfloat) : string :=
  match f with
  | FNan => "nan"
  | FInf neg => sign_text neg ++ "inf"
  | FFin neg m e =>
      if m =? 0 then sign_text neg ++ "0.0"
      else
        let n := fst (scale2 m 1 (- e)) in
        let d := snd (scale2 m 1 (- e)) in
        let k0 := (Z.log2 m + e) * 30103 / 100000 - 1 in
        let k := decimal_point 4 k0 n d in
        let '(c0, s0) := shortest 16 1 m e k in
        let '(c, s) := drop_zeros 17 c0 s0 in
        let ds := Repr.digits c in
        sign_text neg ++ layout ds (Z.of_nat (String.length ds) + s)
  end.

End FloatRepr.

(** ** Cell values *)

(** What a cell of a frame read by [pd.read_csv] holds, and what
    [format_cipcode] is applied to: [None], a [bool], an [int], a [float]
    (a missing cell is the float [nan]) or a [str].  The integers of a frame
    have 64 bits; [str] is given for every integer. *)
Inductive value : Type :=
| VNone
| VBool (b : bool)
| VInt (z : Z)
| VFloat (f : Float.pyfloat)
| VStr (s : string).

(** [pd.isna(val)] *)
Definition isna (val : value) : bool :=
  match val with
  | VNone => true
  | VFloat f => Float.isnan f
  | _ => false
  end.

(** [str(val)] *)
Definition str (val : value) : string :=
  match val with
  | VNone => "None"
  | VBool b => if b then "True" else "False"
  | VInt z => Repr.int z
  | VFloat f => FloatRepr.repr f
  | VStr s => s
  end.

(** [try: body / except (ValueError, TypeError): handler] *)
Definition try_except_value_type {A : Type} (body : result A) (handler : result A) : result A :=
  match body with
  | Ok a => Ok a
  | Raise (ValueError _) | Raise (TypeError _) => handler
  | Raise e => Raise e
  end.

(** ** The classification-code normalizer *)

Definition format_cipcode (val : value) : result (option string) :=
  if isna val then Ok None
  else
    let s := Py.strip (str val) in
    if (String.eqb s "" || String.eqb (Py.lower s) "nan")%bool then Ok None
    else
      rbind
        (try_except_value_type
           (rbind (Float.float s) (fun f => Ok (Float.format_4f f)))
           (Ok s))
        (fun s =>
           let '(left_, rest) := Py.split_dot s in
           let left_ := Py.zfill 2 left_ in
           match rest with
           | Some r =>
               let right_ := Py.take 4 (r ++ "0000") in
               Ok (Some (left_ ++ "." ++ right_))
           | None => Ok (Some left_)
           end).

(** ** Tables and files *)

(** A path is the list of its components; the empty list is the current
    directory. *)
Definition path : Type := list string.

Definition path_eqb (p q : path) : bool :=
  if list_eq_dec String.string_dec p q then true else false.

(** The completions table, with the columns the script uses.  [UNITID] is an
    integer column; [MAJORNUM], [AWLEVEL] and [CTOTALT] are integer columns
    that may have missing cells. *)
Record completion : Type := {
  UNITID : Z;
  CIPCODE : value;
  MAJORNUM : option Z;
  AWLEVEL : option Z;
  CTOTALT : option Z
}.

(** The directory table (HD). *)
Record directory_entry : Type := {
  hd_UNITID : Z;
  INSTNM : option string
}.

(** The taxonomy table. *)
Record taxonomy_entry : Type := {
  CIPCode : option string;
  CIPTitle : option string;
  CIPFamily : option string
}.

(** A row of the research table, in the order of [final_cols]. *)
Record research_row : Type := {
  unitid : Z;
  institution : option string;
  cip2 : option string;
  cip2_title : option string;
  cipcode : option string;
  cip6_title : option string;
  is_cip6 : bool;
  major_number : option Z;
  award_level_code : option Z;
  award_level_name : option string;
  degree_group : option string;
  award_count_total : option Z
}.

(** A CSV file: one of the three input layouts, the research layout that
    [build] writes, or any other table given by its named columns. *)
Inductive file : Type :=
| CompletionsCsv (rows : list completion)
| DirectoryCsv (rows : list directory_entry)
| TaxonomyCsv (rows : list taxonomy_entry)
| ResearchCsv (rows : list research_row)
| TableCsv (columns : list (string * list value)).

Definition nan : value := VFloat Float.FNan.
Definition int_cell (z : option Z) : value :=
  match z with Some n => VInt n | None => nan end.
Definition str_cell (s : option string) : value :=
  match s with Some t => VStr t | None => nan end.

(** The columns of a file, as [pd.read_csv] gives them without a schema. *)
Definition frame_of (f : file) : list (string * list value) :=
  match f with
  | CompletionsCsv rows =>
      [("UNITID", map (fun r => VInt (UNITID r)) rows);
       ("CIPCODE", map CIPCODE rows);
       ("MAJORNUM", map (fun r => int_cell (MAJORNUM r)) rows);
       ("AWLEVEL", map (fun r => int_cell (AWLEVEL r)) rows);
       ("CTOTALT", map (fun r => int_cell (CTOTALT r)) rows)]
  | DirectoryCsv rows =>
      [("UNITID", map (fun r => VInt (hd_UNITID r)) rows);
       ("INSTNM", map (fun r => str_cell (INSTNM r)) rows)]
  | TaxonomyCsv rows =>
      [("CIPCode", map (fun r => str_cell (CIPCode r)) rows);
       ("CIPTitle", map (fun r => str_cell (CIPTitle r)) rows);
       ("CIPFamily", map (fun r => str_cell (CIPFamily r)) rows)]
  | ResearchCsv rows =>
      [("unitid", map (fun r => VInt (unitid r)) rows);
       ("institution", map (fun r => str_cell (institution r)) rows);
       ("cip2", map (fun r => str_cell (cip2 r)) rows);
       ("cip2_title", map (fun r => str_cell (cip2_title r)) rows);
       ("cipcode", map (fun r => str_cell (cipcode r)) rows);
       ("cip6_title", map (fun r => str_cell (cip6_title r)) rows);
       ("is_cip6", map (fun r => VBool (is_cip6 r)) rows);
       ("major_number", map (fun r => int_cell (major_number r)) rows);
       ("award_level_code", map (fun r => int_cell (award_level_code r)) rows);
       ("award_level_name", map (fun r => str_cell (award_level_name r)) rows);
       ("degree_group", map (fun r => str_cell (degree_group r)) rows);
       ("award_count_total", map (fun r => int_cell (award_count_total r)) rows)]
  | TableCsv columns => columns
  end.

(** The file system: the files and the directories that exist. *)
Record fs : Type := {
  files : list (path * file);
  dirs : list path
}.

Fixpoint lookup {A : Type} (p : path) (xs : list (path * A)) : option A :=
  match xs with
  | [] => None
  | (q, a) :: t => if path_eqb p q then Some a else lookup p t
  end.

Definition is_dir (w : fs) (p : path) : bool :=
  match p with
  | [] => true
  | _ => existsb (path_eqb p) (dirs w)
  end.

(** ** Computations with file effects and exceptions *)

Definition M (A : Type) : Type := fs -> result A * fs.

Definition ret {A : Type} (a : A) : M A := fun w => (Ok a, w).
Definition raise {A : Type} (e : exn) : M A := fun w => (Raise e, w).
Definition bind {A B : Type} (c : M A) (k : A -> M B) : M B :=
  fun w =>
    match c w with
    | (Ok a, w') => k a w'
    | (Raise e, w') => (Raise e, w')
    end.
Definition lift {A : Type} (r : result A) : M A := fun w => (r, w).

Declare Scope m_scope.
Delimit Scope m_scope with m.
Notation "x <- c ;; k" := (bind c (fun x => k))
  (at level 61, c at next level, right associativity) : m_scope.
Notation "c ;;; k" := (bind c (fun _ => k))
  (at level 61, right associativity) : m_scope.
Local Open Scope m_scope.

(** [Path(p).exists()] *)
Definition path_exists (p : path) : M bool :=
  fun w => (Ok (match lookup p (files w) with Some _ => true | None => is_dir w p end), w).

Definition open_file (p : path) : M file :=
  fun w =>
    match lookup p (files w) with
    | Some f => (Ok f, w)
    | None =>
        if is_dir w p
        then (Raise (IsADirectoryError (Repr.join "/" p)), w)
        else (Raise (FileNotFoundError (Repr.join "/" p)), w)
    end.

(** [pd.read_csv(p)], for a table of any layout. *)
Definition read_csv (p : path) : M (list (string * list value)) :=
  f <- open_file p ;; ret (frame_of f).

(** [pd.read_csv(p)] for each of the three inputs.  A file of another
    layout lacks the columns that [build] selects by name; the [KeyError]
    of that selection is raised here. *)
Definition read_completions (p : path) : M (list completion) :=
  f <- open_file p ;;
  match f with
  | CompletionsCsv rows => ret rows
  | _ => raise (KeyError "UNITID, CIPCODE, MAJORNUM, AWLEVEL, CTOTALT")
  end.

Definition read_directory (p : path) : M (list directory_entry) :=
  f <- open_file p ;;
  match f with
  | DirectoryCsv rows => ret rows
  | _ => raise (KeyError "UNITID, INSTNM")
  end.

Definition read_taxonomy (p : path) : M (list taxonomy_entry) :=
  f <- open_file p ;;
  match f with
  | TaxonomyCsv rows => ret rows
  | _ => raise (KeyError "CIPCode, CIPTitle, CIPFamily")
  end.

(** [p.parent] *)
Definition parent (p : path) : path := removelast p.

(** The directory [d] and the directories above it. *)
Fixpoint ancestors (d : path) : list path :=
  match d with
  | [] => []
  | c :: t => [c] :: map (cons c) (ancestors t)
  end.

(** [d.mkdir(parents=True, exist_ok=True)] *)
Definition mkdir_parents (d : path) : M unit :=
  fun w =>
    let is_file a := match lookup a (files w) with Some _ => true | None => false end in
    if is_file d then (Raise (FileExistsError (Repr.join "/" d)), w)
    else if existsb is_file (ancestors d)
    then (Raise (NotADirectoryError (Repr.join "/" d)), w)
    else
      (Ok tt,
       {| files := files w;
          dirs := dirs w ++ filter (fun a => negb (is_dir w a)) (ancestors d) |}).

Fixpoint store {A : Type} (p : path) (a : A) (xs : list (path * A)) : list (path * A) :=
  match xs with
  | [] => [(p, a)]
  | (q, b) :: t => if path_eqb p q then (p, a) :: t else (q, b) :: store p a t
  end.

(** [research_final.to_csv(p, index=False)] *)
Definition to_csv (rows : list research_row) (p : path) : M unit :=
  fun w =>
    if is_dir w p then (Raise (IsADirectoryError (Repr.join "/" p)), w)
    else if negb (is_dir w (parent p)) then (Raise (FileNotFoundError (Repr.join "/" p)), w)
    else (Ok tt, {| files := store p (ResearchCsv rows) (files w); dirs := dirs w |}).

(** ** The institution allow-list loader *)

(** Big Ten flagship campuses (UNITID). *)
Definition BIGTEN_UNITIDS : list Z :=
  [ 151351  (* Indiana University-Bloomington *)
  ; 171100  (* Michigan State University *)
  ; 147767  (* Northwestern University *)
  ; 204796  (* Ohio State University-Main Campus *)
  ; 214777  (* Pennsylvania State University-Main Campus *)
  ; 243780  (* Purdue University-Main Campus *)
  ; 186380  (* Rutgers University-New Brunswick *)
  ; 110662  (* University of California-Los Angeles *)
  ; 145637  (* University of Illinois Urbana-Champaign *)
  ; 153658  (* University of Iowa *)
  ; 163286  (* University of Maryland-College Park *)
  ; 170976  (* University of Michigan-Ann Arbor *)
  ; 174066  (* University of Minnesota-Twin Cities *)
  ; 181464  (* University of Nebraska-Lincoln *)
  ; 209551  (* University of Oregon *)
  ; 123961  (* University of Southern California *)
  ; 236948  (* University of Washington-Seattle Campus *)
  ; 240444  (* University of Wisconsin-Madison *)
  ].

Inductive number : Type :=
| NInt (z : Z)
| NFloat (f : Float.pyfloat).

(** One cell of [pd.to_numeric(col, errors="coerce")]; [None] is the [NaN]
    of a cell that is missing or is no number.  Text is read as [float]
    reads it. *)
Definition to_numeric (val : value) : option number :=
  match val with
  | VNone => None
  | VBool b => Some (NInt (if b then 1 else 0))
  | VInt z => Some (NInt z)
  | VFloat f => if Float.isnan f then None else Some (NFloat f)
  | VStr s =>
      match Float.of_string s with
      | Some f => if Float.isnan f then None else Some (NFloat f)
      | None => None
      end
  end.

(** [.dropna()] *)
Fixpoint dropna {A : Type} (xs : list (option A)) : list A :=
  match xs with
  | [] => []
  | Some a :: t => a :: dropna t
  | None :: t => dropna t
  end.

(** One cell of [.astype(int)]: a float is cut towards zero, an infinity
    is refused. *)
Definition astype_int (n : number) : result Z :=
  match n with
  | NInt z => Ok z
  | NFloat (Float.FFin neg m e) =>
      let a := if 0 <=? e then m * 2 ^ e else m / 2 ^ (- e) in
      Ok (if neg then - a else a)
  | NFloat _ =>
      Raise (IntCastingNaNError "Cannot convert non-finite values (NA or inf) to integer")
  end.

(** [name in df.columns] *)
Definition has_column (name : string) (df : list (string * list value)) : bool :=
  existsb (fun c => String.eqb (fst c) name) df.

(** [df[name]] *)
Definition get_column (name : string) (df : list (string * list value)) : result (list value) :=
  match find (fun c => String.eqb (fst c) name) df with
  | Some c => Ok (snd c)
  | None => Raise (KeyError name)
  end.

Definition load_bigten_unitids (path : option path) : M (list Z) :=
  match path with
  | None => ret BIGTEN_UNITIDS
  | Some p =>
      present <- path_exists p ;;
      if negb present then ret BIGTEN_UNITIDS
      else
        df_ids <- read_csv p ;;
        col <- (if has_column "UNITID" df_ids then ret "UNITID"
                else if has_column "unitid" df_ids then ret "unitid"
                else raise (ValueError ("Big Ten UNITID file missing UNITID column: "
                                          ++ Repr.repr_list (map fst df_ids)))) ;;
        cells <- lift (get_column col df_ids) ;;
        unitids <- lift (rmap astype_int (dropna (map to_numeric cells))) ;;
        ret (match unitids with [] => BIGTEN_UNITIDS | _ => unitids end)
  end.

(** ** Frame operations of the pipeline *)

(** [.drop_duplicates()]: the first row of each group of equal rows. *)
Fixpoint drop_duplicates_from {A : Type} (eqb : A -> A -> bool) (seen xs : list A) : list A :=
  match xs with
  | [] => []
  | x :: t =>
      if existsb (eqb x) seen then drop_duplicates_from eqb seen t
      else x :: drop_duplicates_from eqb (x :: seen) t
  end.

Definition drop_duplicates {A : Type} (eqb : A -> A -> bool) (xs : list A) : list A :=
  drop_duplicates_from eqb [] xs.

(** [left.merge(right, how="left")]: every left row in order, once for each
    right row of the same key, in the order of the right rows; a left row
    without a partner is kept, with missing right columns. *)
Definition merge_left {L R : Type} (same_key : L -> R -> bool)
    (lrows : list L) (rrows : list R) : list (L * option R) :=
  flat_map
    (fun l =>
       match filter (same_key l) rrows with
       | [] => [(l, None)]
       | ms => map (fun r => (l, Some r)) ms
       end)
    lrows.

Definition option_eqb {A : Type} (eqb : A -> A -> bool) (x y : option A) : bool :=
  match x, y with
  | Some a, Some b => eqb a b
  | None, None => true
  | _, _ => false
  end.

(** [.sort_values(key)], as a stable insertion sort on the text of the
    key. *)
Fixpoint insert_sorted {A : Type} (key : A -> string) (x : A) (xs : list A) : list A :=
  match xs with
  | [] => [x]
  | y :: t => if String.ltb (key x) (key y) then x :: xs else y :: insert_sorted key x t
  end.

Definition sort_values {A : Type} (key : A -> string) (xs : list A) : list A :=
  fold_left (fun acc x => insert_sorted key x acc) xs [].

(** [.nunique()] of an integer column without missing cells. *)
Definition nunique (xs : list Z) : nat :=
  List.length (drop_duplicates Z.eqb xs).

(** ** The pipeline *)

(** The pattern [\d{2}\.\d{4}]. *)
Definition cip6_pattern : Re.regex :=
  Re.Cat (Re.Rep 2 Re.Digit) (Re.Cat (Re.Lit ".") (Re.Rep 4 Re.Digit)).

(** [series.str.fullmatch(r"\d{2}\.\d{4}", na=False)] on one cell. *)
Definition fullmatch_cip6 (code : option string) : bool :=
  match code with
  | Some c => Re.fullmatch cip6_pattern c
  | None => false
  end.

(** [series.str.split(".", n=1).str[0].str.zfill(2)] on one cell. *)
Definition cip2_of (code : option string) : option string :=
  option_map (fun c => Py.zfill 2 (fst (Py.split_dot c))) code.

(** The command-line arguments. *)
Record args : Type := {
  completions_path : path;
  hd_path : path;
  cip_path : path;
  bigten_unitids_path : option path;
  out_path : path
}.

(** A row of the frame [research], before the titles are joined. *)
Record base_row : Type := {
  r_unitid : Z;
  r_institution : option string;
  r_cipcode : option string;
  r_major_number : option Z;
  r_award_level_code : option Z;
  r_award_count_total : option Z;
  r_cip2 : option string
}.

(** Select and rename to the research schema, normalize the dtypes, put the
    code in canonical form and derive [cip2].  On these typed columns the
    coercion to [Int64] changes no cell. *)
Definition research_of (row : completion * option directory_entry) : result base_row :=
  rbind (format_cipcode (CIPCODE (fst row)))
    (fun code =>
       Ok {| r_unitid := UNITID (fst row);
             r_institution :=
               match snd row with Some d => INSTNM d | None => None end;
             r_cipcode := code;
             r_major_number := MAJORNUM (fst row);
             r_award_level_code := AWLEVEL (fst row);
             r_award_count_total := CTOTALT (fst row);
             r_cip2 := cip2_of code |}).

Definition pair_of_options {A B : Type} (x : option A) (y : option B) : option (A * B) :=
  match x, y with
  | Some a, Some b => Some (a, b)
  | _, _ => None
  end.

Definition pair_eqb (x y : string * string) : bool :=
  (String.eqb (fst x) (fst y) && String.eqb (snd x) (snd y))%bool.

(** The rows [(cip2, cip2_title)] of [cip2_lookup]. *)
Definition cip2_lookup_of (cip_raw : list taxonomy_entry) : list (string * string) :=
  sort_values fst
    (drop_duplicates pair_eqb
       (dropna
          (map (fun t =>
                  pair_of_options
                    (cip2_of (option_map dewrap (CIPCode t)))
                    (option_map Py.strip (CIPFamily t)))
               cip_raw))).

(** The rows [(cipcode, cip6_title)] of [cip6_lookup]. *)
Definition cip6_lookup_of (cip_raw : list taxonomy_entry) : list (string * string) :=
  filter (fun row => fullmatch_cip6 (Some (fst row)))
    (drop_duplicates pair_eqb
       (dropna
          (map (fun t =>
                  pair_of_options
                    (option_map dewrap (CIPCode t))
                    (option_map Py.strip (CIPTitle t)))
               cip_raw))).

Definition key_matches (key : option string) (row : string * string) : bool :=
  match key with
  | Some k => String.eqb k (fst row)
  | None => false
  end.

(** [.fillna(text)] on one cell. *)
Definition fillna (text : string) (cell : option string) : option string :=
  match cell with
  | Some t => Some t
  | None => Some text
  end.

Definition award_level_labels (code : Z) : option string :=
  if code =? 5 then Some "Bachelors"
  else if code =? 7 then Some "Masters"
  else if code =? 17 then Some "Doctoral (Research/Scholarship)"
  else None.

(** The column [degree_group]: missing, then the two assignments in turn.
    A missing code satisfies neither test. *)
Definition degree_group_of (code : option Z) : option string :=
  match code with
  | Some c =>
      let g := None in
      let g := if c =? 5 then Some "Bachelors" else g in
      let g := if existsb (Z.eqb c) [7; 17] then Some "Graduate" else g in
      g
  | None => None
  end.

(** One row of [research_final] from a row of the two joins: the fills,
    the labels, the flag, and the final column order. *)
Definition final_row
    (row : base_row * option (string * string) * option (string * string)) : research_row :=
  let r := fst (fst row) in
  {| unitid := r_unitid r;
     institution := r_institution r;
     cip2 := r_cip2 r;
     cip2_title :=
       fillna "99 - Unclassified / Not in CIP taxonomy" (option_map snd (snd (fst row)));
     cipcode := r_cipcode r;
     cip6_title :=
       fillna "Not a CIP6 program (aggregate / unclassified)" (option_map snd (snd row));
     is_cip6 := fullmatch_cip6 (r_cipcode r);
     major_number := r_major_number r;
     award_level_code := r_award_level_code r;
     award_level_name :=
       match r_award_level_code r with Some c => award_level_labels c | None => None end;
     degree_group := degree_group_of (r_award_level_code r);
     award_count_total := r_award_count_total r |}.

(** Lines 122 to 231 of [build]: the frame [research_final]. *)
Definition research_final (a : args) : M (list research_row) :=
  (* Load raw data *)
  df <- read_completions (completions_path a) ;;
  hd <- read_directory (hd_path a) ;;
  cip_raw <- read_taxonomy (cip_path a) ;;
  (* Bring institution names onto completions via UNITID *)
  let hd_names :=
    drop_duplicates
      (fun x y => Z.eqb (hd_UNITID x) (hd_UNITID y)
                  && option_eqb String.eqb (INSTNM x) (INSTNM y))%bool hd in
  let df_with_names := merge_left (fun c d => Z.eqb (UNITID c) (hd_UNITID d)) df hd_names in
  (* Filter to Big Ten *)
  bigten_unitids <- load_bigten_unitids (bigten_unitids_path a) ;;
  let df_bigten :=
    filter (fun row => existsb (Z.eqb (UNITID (fst row))) bigten_unitids) df_with_names in
  (* Research schema, dtypes, canonical code and CIP2 *)
  research <- lift (rmap research_of df_bigten) ;;
  (* CIP lookups *)
  let cip2_lookup := cip2_lookup_of cip_raw in
  let cip6_lookup := cip6_lookup_of cip_raw in
  (* Join titles onto research *)
  let joined :=
    merge_left (fun l row => key_matches (r_cipcode (fst l)) row)
      (merge_left (fun r row => key_matches (r_cip2 r) row) research cip2_lookup)
      cip6_lookup in
  ret (map final_row joined).

Definition count {A : Type} (p : A -> bool) (xs : list A) : nat :=
  List.length (filter p xs).

Definition is_none {A : Type} (x : option A) : bool :=
  match x with None => true | Some _ => false end.

(** Lines 233 to 247: the guardrails. *)
Definition guardrails (research_final : list research_row) : result unit :=
  (* (1) Expect 18 institutions *)
  let n_inst := nunique (map unitid research_final) in
  if negb (Nat.eqb n_inst 18) then
    Raise (ValueError ("Expected 18 Big Ten institutions, got " ++ Repr.int (Z.of_nat n_inst)))
  else
    (* (2) No missing CIP2 titles after explicit fill *)
    let missing_cip2_titles := count (fun r => is_none (cip2_title r)) research_final in
    if negb (Nat.eqb missing_cip2_titles 0) then
      Raise (ValueError ("Unexpected missing cip2_title count: "
                           ++ Repr.int (Z.of_nat missing_cip2_titles)))
    else
      (* (3) All true CIP6 rows should have a title *)
      let missing_cip6_for_true :=
        count (fun r => is_none (cip6_title r)) (filter is_cip6 research_final) in
      if negb (Nat.eqb missing_cip6_for_true 0) then
        Raise (ValueError ("Missing cip6_title for true CIP6 codes: "
                             ++ Repr.int (Z.of_nat missing_cip6_for_true)))
      else Ok tt.

(** Lines 233 to 253: the guardrails, then the write. *)
Definition check_and_write (research_final : list research_row) (out : path) : M path :=
  lift (guardrails research_final) ;;;
  mkdir_parents (parent out) ;;;
  to_csv research_final out ;;;
  ret out.

Definition build (a : args) : M path :=
  table <- research_final a ;;
  check_and_write table (out_path a).

(** ** Predicates used in the statements *)

(** [s.startswith(c)] and [s.endswith(c)] for one character. *)
Definition starts_with (c : ascii) (s : string) : bool :=
  match s with
  | String a _ => Ascii.eqb a c
  | EmptyString => false
  end.

Fixpoint ends_with (c : ascii) (s : string) : bool :=
  match s with
  | EmptyString => false
  | String a EmptyString => Ascii.eqb a c
  | String _ t => ends_with c t
  end.

Fixpoint all_digits (s : string) : bool :=
  match s with
  | String c t => Py.isdigit c && all_digits t
  | EmptyString => true
  end.

(** Two digits, a dot, four digits. *)
Definition cip6_shape (s : string) : Prop :=
  exists a b c d e f : ascii,
    s = String a (String b (String "." (String c (String d (String e (String f EmptyString))))))
    /\ Py.isdigit a = true /\ Py.isdigit b = true /\ Py.isdigit c = true
    /\ Py.isdigit d = true /\ Py.isdigit e = true /\ Py.isdigit f = true.

(** ** The normalizer as the specification words it *)

(** Missing, empty or the literal text [nan] gives a missing value; a text
    that parses as a float is first put in the format [.4f]; the text is
    split on the first decimal point, the left part zero-padded to 2
    characters, the right part, when there is one, padded with zeros and
    cut to 4 characters. *)
Definition normalize_as_specified (val : value) : option string :=
  if (isna val || String.eqb (str val) "" || String.eqb (str val) "nan")%bool then None
  else
    let s :=
      match Float.of_string (str val) with
      | Some f => Float.format_4f f
      | None => str val
      end in
    match Py.split_dot s with
    | (l, Some r) => Some (Py.zfill 2 l ++ "." ++ Py.take 4 (r ++ "0000"))
    | (l, None) => Some (Py.zfill 2 l)
    end.

(** The text that [format_cipcode] works on: [str(val).strip()]. *)
Definition text_of (val : value) : string := Py.strip (str val).

(** A computation that leaves the file system as it found it. *)
Definition read_only {A : Type} (c : M A) : Prop :=
  forall w : fs, snd (c w) = w.

(** ** Sample runs *)

(** The default paths of [parse_args]. *)
Definition default_args : args := {|
  completions_path := [".."; "data"; "raw"; "ipeds"; "C2024_A.csv"];
  hd_path := [".."; "data"; "raw"; "ipeds"; "HD2024.csv"];
  cip_path := [".."; "data"; "raw"; "ipeds"; "CIPCode2020.csv"];
  bigten_unitids_path := Some [".."; "data"; "processed"; "ipeds"; "bigten_unitids_named.csv"];
  out_path := [".."; "data"; "processed"; "ipeds"; "research_bigten_completions_2024.csv"]
|}.

(** The float [3.0104]. *)
Definition cip_3_0104 : value := VFloat (Float.of_decimal false 30104 (-4)).

(** The taxonomy cell [="03.0104"]. *)
Definition wrapped_03_0104 : string :=
  String "=" (String Py.dquote ("03.0104" ++ String Py.dquote EmptyString)).

Definition sample_taxonomy : list taxonomy_entry :=
  [ {| CIPCode := Some wrapped_03_0104;
       CIPTitle := Some "Computer and Information Sciences, General.";
       CIPFamily := Some "Computer and Information Sciences" |} ].

Definition sample_fs (completions : list completion) (directory : list directory_entry) : fs := {|
  files :=
    [ (completions_path default_args, CompletionsCsv completions);
      (hd_path default_args, DirectoryCsv directory);
      (cip_path default_args, TaxonomyCsv sample_taxonomy) ];
  dirs := [ [".."]; [".."; "data"]; [".."; "data"; "raw"]; [".."; "data"; "raw"; "ipeds"] ]
|}.

(** The end-to-end scenario: one completion of one institution. *)
Definition scenario_fs : fs :=
  sample_fs
    [ {| UNITID := 151351; CIPCODE := cip_3_0104;
         MAJORNUM := Some 1; AWLEVEL := Some 5; CTOTALT := Some 12 |} ]
    [ {| hd_UNITID := 151351; INSTNM := Some "Indiana University-Bloomington" |} ].

Definition scenario_row : research_row := {|
  unitid := 151351;
  institution := Some "Indiana University-Bloomington";
  cip2 := Some "03";
  cip2_title := Some "Computer and Information Sciences";
  cipcode := Some "03.0104";
  cip6_title := Some "Computer and Information Sciences, General.";
  is_cip6 := true;
  major_number := Some 1;
  award_level_code := Some 5;
  award_level_name := Some "Bachelors";
  degree_group := Some "Bachelors";
  award_count_total := Some 12
|}.

(** A run over all eighteen institutions: one bachelor's completion in
    03.0104 each, and for the first institution also a master's completion
    under the unclassified code 99 and a row without a code. *)
Definition eighteen_fs : fs :=
  sample_fs
    (map (fun u => {| UNITID := u; CIPCODE := cip_3_0104;
                      MAJORNUM := Some 1; AWLEVEL := Some 5; CTOTALT := Some 12 |})
         BIGTEN_UNITIDS
     ++ [ {| UNITID := 151351; CIPCODE := VInt 99;
             MAJORNUM := Some 1; AWLEVEL := Some 7; CTOTALT := Some 3 |};
          {| UNITID := 151351; CIPCODE := nan;
             MAJORNUM := Some 2; AWLEVEL := Some 17; CTOTALT := None |};
          {| UNITID := 100654; CIPCODE := cip_3_0104;
             MAJORNUM := Some 1; AWLEVEL := Some 5; CTOTALT := Some 40 |} ])
    [ {| hd_UNITID := 151351; INSTNM := Some "Indiana University-Bloomington" |} ].

(** An allow-list file whose identifier column is spelled [Unitid], and one
    whose identifier column holds no number. *)
Definition allow_list_path : path := ["ids.csv"].

Definition misspelled_fs : fs := {|
  files := (allow_list_path, TableCsv [("Unitid", [VInt 151351]); ("name", [VStr "Indiana"])])
             :: files eighteen_fs;
  dirs := dirs eighteen_fs
|}.


Definition misspelled_args : args := {|
  completions_path := completions_path default_args;
  hd_path := hd_path default_args;
  cip_path := cip_path default_args;
  bigten_unitids_path := Some allow_list_path;
  out_path := out_path default_args
|}.

(** The file system after [build] has run on [eighteen_fs], and the table
    it has written. *)
Definition eighteen_written : fs :=
  Eval vm_compute in snd (build default_args eighteen_fs).

Definition eighteen_rows : list research_row :=
  Eval vm_compute in
    match lookup (out_path default_args) (files eighteen_written) with
    | Some (ResearchCsv rows) => rows
    | _ => []
    end.

(** The row of [eighteen_rows] that has no code. *)
Definition codeless_row : research_row := {|
  unitid := 151351;
  institution := Some "Indiana University-Bloomington";
  cip2 := None;
  cip2_title := Some "99 - Unclassified / Not in CIP taxonomy";
  cipcode := None;
  cip6_title := Some "Not a CIP6 program (aggregate / unclassified)";
  is_cip6 := false;
  major_number := Some 2;
  award_level_code := Some 17;
  award_level_name := Some "Doctoral (Research/Scholarship)";
  degree_group := Some "Graduate";
  award_count_total := None
|}.

(** A table that no run produces: its row has lost both titles. *)
Definition untitled_table : list research_row :=
  [ {| unitid := 151351; institution := None; cip2 := Some "03"; cip2_title := None;
       cipcode := Some "03.0104"; cip6_title := None; is_cip6 := true;
       major_number := None; award_level_code := None; award_level_name := None;
       degree_group := None; award_count_total := None |} ].


(** ** Further predicates used in the statements *)

Fixpoint all_chars (p : ascii -> bool) (s : string) : bool :=
  match s with
  | String c t => p c && all_chars p t
  | EmptyString => true
  end.

(** ** The frames of [build], by name *)

(** [hd_names], [df_bigten] and the two joins, as [build] computes them
    from the tables it has read. *)
Definition hd_names_of (hd : list directory_entry) : list directory_entry :=
  drop_duplicates
    (fun x y => Z.eqb (hd_UNITID x) (hd_UNITID y)
                && option_eqb String.eqb (INSTNM x) (INSTNM y))%bool hd.

Definition df_bigten_of (df : list completion) (hd : list directory_entry)
    (bigten_unitids : list Z) : list (completion * option directory_entry) :=
  filter (fun row => existsb (Z.eqb (UNITID (fst row))) bigten_unitids)
    (merge_left (fun c d => Z.eqb (UNITID c) (hd_UNITID d)) df (hd_names_of hd)).

Definition joined_of (cip_raw : list taxonomy_entry) (research : list base_row)
    : list (base_row * option (string * string) * option (string * string)) :=
  merge_left (fun l row => key_matches (r_cipcode (fst l)) row)
    (merge_left (fun r row => key_matches (r_cip2 r) row) research (cip2_lookup_of cip_raw))
    (cip6_lookup_of cip_raw).

(** The columns that [build] carries over from a completions row to a
    research row. *)
Definition carried_over (c : completion) (r : research_row) : Prop :=
  unitid r = UNITID c
  /\ format_cipcode (CIPCODE c) = Ok (cipcode r)
  /\ major_number r = MAJORNUM c
  /\ award_level_code r = AWLEVEL c
  /\ award_count_total r = CTOTALT c.

(** The completions table of [eighteen_fs], and its first row. *)
Definition eighteen_completions : list completion :=
  Eval vm_compute in
    match lookup (completions_path default_args) (files eighteen_fs) with
    | Some (CompletionsCsv df) => df
    | _ => []
    end.

Definition scenario_completion : completion :=
  {| UNITID := 151351; CIPCODE := cip_3_0104;
     MAJORNUM := Some 1; AWLEVEL := Some 5; CTOTALT := Some 12 |}.

(** A run in which no completion belongs to an allow-listed institution. *)
Definition outsider_fs : fs :=
  sample_fs
    [ {| UNITID := 100654; CIPCODE := cip_3_0104;
         MAJORNUM := Some 1; AWLEVEL := Some 5; CTOTALT := Some 40 |} ]
    [ {| hd_UNITID := 100654; INSTNM := Some "Alabama A & M University" |} ].


(** Keys in ascending order. *)
Fixpoint ascending (keys : list string) : bool :=
  match keys with
  | a :: (b :: _) as t => String.leb a b && ascending t
  | _ => true
  end.
(** * Properties *)

(** ** The embedding on known values *)

Example strip_examples :
  Py.strip "  03.0104 " = "03.0104"
  /\ Py.zfill 2 "3" = "03" /\ Py.zfill 2 "-" = "-0" /\ Py.zfill 2 "123" = "123"
  /\ Py.split_dot "01.2.3" = ("01", Some "2.3") /\ Py.split_dot "99" = ("99", None).
Proof. repeat split; reflexivity. Qed.

Example float_examples :
  Float.of_string "3.0104" = Some (Float.FFin false 6778818159118071 (-51))
  /\ Float.of_string " 1_0.5e0 " = Some (Float.FFin false 5910974510923776 (-49))
  /\ Float.of_string "1e400" = Some (Float.FInf false)
  /\ Float.of_string "-Infinity" = Some (Float.FInf true)
  /\ Float.of_string "5e-324" = Some (Float.FFin false 1 (-1074))
  /\ Float.of_string "1e" = None
  /\ Float.of_string "1__0" = None
  /\ Float.of_string "0x10" = None.
Proof. repeat split; reflexivity. Qed.

Example format_4f_examples :
  option_map Float.format_4f (Float.of_string "0.00005") = Some "0.0001"
  /\ option_map Float.format_4f (Float.of_string "0.00015") = Some "0.0001"
  /\ option_map Float.format_4f (Float.of_string "2.675") = Some "2.6750"
  /\ option_map Float.format_4f (Float.of_string "-0.00001") = Some "-0.0000"
  /\ option_map Float.format_4f (Float.of_string "1e23")
     = Some "99999999999999991611392.0000".
Proof. repeat split; reflexivity. Qed.

Example repr_examples :
  option_map FloatRepr.repr (Float.of_string "3.0104") = Some "3.0104"
  /\ option_map FloatRepr.repr (Float.of_string "99") = Some "99.0"
  /\ option_map FloatRepr.repr (Float.of_string "0.30000000000000004")
     = Some "0.30000000000000004"
  /\ option_map FloatRepr.repr (Float.of_string "1e16") = Some "1e+16"
  /\ option_map FloatRepr.repr (Float.of_string "0.00001") = Some "1e-05"
  /\ Repr.int (-120) = "-120"
  /\ Repr.repr_list ["Unitid"; "x\y"] = "['Unitid', 'x\\y']".
Proof. repeat split; vm_compute; reflexivity. Qed.

Example dewrap_examples :
  dewrap (String "=" (String Py.dquote ("01.0101" ++ String Py.dquote ""))) = "01.0101"
  /\ dewrap "  =01.0101 " = "01.0101"
  /\ dewrap "01.0101" = "01.0101"
  /\ clean_excel_text_wrapper [Some wrapped_03_0104; None] = [Some "03.0104"; None].
Proof. repeat split; reflexivity. Qed.

Example format_cipcode_missing_examples :
  format_cipcode VNone = Ok None /\ format_cipcode nan = Ok None
  /\ format_cipcode (VStr "") = Ok None /\ format_cipcode (VStr "nan") = Ok None.
Proof. repeat split; reflexivity. Qed.

(** ** Fuel *)

(** Every way of a match ends inside the text, after where it began. *)
Lemma matches_suffix (r : Re.regex) :
  forall (pos : nat) (s : string) (p : nat) (t : string),
    In (p, t) (Re.matches r pos s) ->
    (pos <= p)%nat /\ (p + String.length t = pos + String.length s)%nat.
Proof.
  induction r as [c| | | |r1 IH1 r2 IH2|r1 IH1 r2 IH2|r1 IH1|n r1 IH1];
    intros pos s p t; cbn [Re.matches].
  - destruct s as [|a u]; [intros []|].
    destruct (Ascii.eqb a c); [|intros []].
    intros [E|[]]. injection E as <- <-. cbn [String.length]. lia.
  - destruct s as [|a u]; [intros []|].
    destruct (Py.isdigit a); [|intros []].
    intros [E|[]]. injection E as <- <-. cbn [String.length]. lia.
  - destruct (Nat.eqb pos 0); [|intros []].
    intros [E|[]]. injection E as <- <-. lia.
  - destruct (Re.at_eol s); [|intros []].
    intros [E|[]]. injection E as <- <-. lia.
  - rewrite in_flat_map. intros ([p1 t1] & H1 & H2). cbn [fst snd] in H2.
    apply IH1 in H1. apply IH2 in H2. lia.
  - rewrite in_app_iff. intros [H|H]; [apply IH1 in H|apply IH2 in H]; exact H.
  - rewrite in_app_iff. intros [H|[E|[]]]; [apply IH1 in H; exact H|].
    injection E as <- <-. lia.
  - assert (G : forall (k : nat) (ws : list (nat * string)),
               (forall p1 t1, In (p1, t1) ws ->
                  (pos <= p1)%nat /\ (p1 + String.length t1 = pos + String.length s)%nat) ->
               In (p, t)
                  ((fix rep (k : nat) (ws : list (nat * string)) : list (nat * string) :=
                      match k with
                      | O => ws
                      | S k' => rep k' (flat_map (fun w => Re.matches r1 (fst w) (snd w)) ws)
                      end) k ws) ->
               (pos <= p)%nat /\ (p + String.length t = pos + String.length s)%nat).
    { induction k as [|k IHk]; intros ws Hws; [apply Hws|].
      apply IHk. intros p1 t1. rewrite in_flat_map.
      intros ([p0 t0] & H0 & H1). cbn [fst snd] in H1.
      apply Hws in H0. apply IH1 in H1. lia. }
    apply G. intros p1 t1 [E|[]]. injection E as <- <-. lia.
Qed.

(** [Re.sub] has the fuel it needs: more fuel changes nothing. *)
Lemma sub_from_fuel (r : Re.regex) (repl : string) :
  forall (fuel1 fuel2 pos : nat) (s : string),
    (String.length s < fuel1)%nat -> (String.length s < fuel2)%nat ->
    Re.sub_from r repl fuel1 pos s = Re.sub_from r repl fuel2 pos s.
Proof.
  induction fuel1 as [|fuel1 IH]; intros fuel2 pos s H1 H2; [lia|].
  destruct fuel2 as [|fuel2]; [lia|].
  cbn [Re.sub_from].
  assert (Hskip : match s with
                  | String c t => String c (Re.sub_from r repl fuel1 (S pos) t)
                  | EmptyString => EmptyString
                  end
                  = match s with
                    | String c t => String c (Re.sub_from r repl fuel2 (S pos) t)
                    | EmptyString => EmptyString
                    end).
  { destruct s as [|c t]; [reflexivity|]. cbn [String.length] in H1, H2.
    f_equal. apply IH; lia. }
  destruct (Re.matches r pos s) as [|[p t] ws] eqn:E; [exact Hskip|].
  destruct (Nat.ltb_spec pos p) as [L|L]; [|rewrite Hskip; reflexivity].
  pose proof (matches_suffix r pos s p t) as Hm. rewrite E in Hm.
  specialize (Hm (or_introl eq_refl)).
  f_equal. apply IH; lia.
Qed.

(** The decimal digits of a number read back as the number. *)
Lemma Z_of_digits_acc (s : string) (a : Z) :
  Float.Z_of_digits a s
  = a * 10 ^ Z.of_nat (String.length s) + Float.Z_of_digits 0 s.
Proof.
  revert a. induction s as [|c t IH]; intros a; cbn [Float.Z_of_digits String.length].
  - change (Z.of_nat 0) with 0. lia.
  - rewrite (IH (10 * a + _)), (IH (10 * 0 + _)).
    rewrite Nat2Z.inj_succ, Z.pow_succ_r by lia. lia.
Qed.

Lemma digit_char_value (d : Z) :
  0 <= d < 10 -> Z.of_N (N_of_ascii (Repr.digit_char d)) - 48 = d.
Proof.
  intros H.
  assert (C : d = 0 \/ d = 1 \/ d = 2 \/ d = 3 \/ d = 4 \/ d = 5 \/ d = 6 \/ d = 7
              \/ d = 8 \/ d = 9) by lia.
  repeat (destruct C as [C|C]; [subst d; reflexivity|]). subst d. reflexivity.
Qed.

Lemma digits_acc_value (fuel : nat) :
  forall (n : Z) (acc : string),
    0 <= n < 10 ^ Z.of_nat fuel ->
    Float.Z_of_digits 0 (Repr.digits_acc fuel n acc)
    = n * 10 ^ Z.of_nat (String.length acc) + Float.Z_of_digits 0 acc.
Proof.
  induction fuel as [|fuel IH]; intros n acc Hn; cbn [Repr.digits_acc].
  - change (10 ^ Z.of_nat 0) with 1 in Hn. assert (n = 0) by lia. subst n. lia.
  - assert (Hd : 0 <= n mod 10 < 10) by (apply Z.mod_pos_bound; lia).
    assert (Hacc : Float.Z_of_digits 0 (String (Repr.digit_char (n mod 10)) acc)
                   = n mod 10 * 10 ^ Z.of_nat (String.length acc)
                     + Float.Z_of_digits 0 acc).
    { cbn [Float.Z_of_digits]. rewrite Z_of_digits_acc, digit_char_value by exact Hd.
      lia. }
    destruct (Z.ltb_spec n 10) as [L|L].
    + rewrite Hacc. rewrite Z.mod_small by lia. reflexivity.
    + rewrite IH.
      * rewrite Hacc. cbn [String.length].
        rewrite Nat2Z.inj_succ, Z.pow_succ_r by lia.
        pose proof (Z.div_mod n 10 ltac:(lia)) as Hdm.
        set (P := 10 ^ Z.of_nat (String.length acc)) in *. nia.
      * rewrite Nat2Z.inj_succ, Z.pow_succ_r in Hn by lia.
        split; [apply Z.div_pos; lia|]. apply Z.div_lt_upper_bound; lia.
Qed.

Lemma digits_value (n : Z) : 0 <= n -> Float.Z_of_digits 0 (Repr.digits n) = n.
Proof.
  intros Hn. unfold Repr.digits. rewrite digits_acc_value.
  - cbn [String.length Float.Z_of_digits]. change (10 ^ Z.of_nat 0) with 1. lia.
  - split; [exact Hn|].
    destruct (Z.eq_dec n 0) as [->|Hz]; [reflexivity|].
    rewrite Nat2Z.inj_succ, Z2Nat.id by apply Z.log2_nonneg.
    pose proof (Z.log2_spec n ltac:(lia)) as [_ Hl].
    eapply Z.lt_le_trans; [exact Hl|].
    apply Z.pow_le_mono_l. lia.
Qed.

(** ** Strings *)

Lemma rstrip_idem (s : string) : Py.rstrip (Py.rstrip s) = Py.rstrip s.
Proof.
  induction s as [|c t IH]; simpl; [reflexivity|].
  destruct (Py.rstrip t) as [|a r] eqn:E.
  - destruct (Py.isspace c) eqn:Ec; simpl; [reflexivity|].
    rewrite Ec. reflexivity.
  - simpl in IH |- *. rewrite IH. reflexivity.
Qed.

Lemma lstrip_rstrip_fixed (s : string) :
  Py.lstrip s = s -> Py.lstrip (Py.rstrip s) = Py.rstrip s.
Proof.
  destruct s as [|c t]; simpl; [reflexivity|].
  destruct (Py.isspace c) eqn:Ec.
  - intros H. exfalso.
    assert (L : forall u, (String.length (Py.lstrip u) <= String.length u)%nat).
    { induction u as [|a u IH]; simpl; [lia|].
      destruct (Py.isspace a); simpl; lia. }
    specialize (L t). rewrite H in L. simpl in L. lia.
  - intros _. destruct (Py.rstrip t); simpl; rewrite Ec; reflexivity.
Qed.

Lemma lstrip_idem (s : string) : Py.lstrip (Py.lstrip s) = Py.lstrip s.
Proof.
  induction s as [|c t IH]; simpl; [reflexivity|].
  destruct (Py.isspace c) eqn:Ec; [exact IH|].
  simpl. rewrite Ec. reflexivity.
Qed.

Lemma strip_idem (s : string) : Py.strip (Py.strip s) = Py.strip s.
Proof.
  unfold Py.strip.
  rewrite (lstrip_rstrip_fixed (Py.lstrip s) (lstrip_idem s)).
  apply rstrip_idem.
Qed.

(** A stripped text does not end with white space. *)
Lemma rstrip_no_trailing_space (s : string) (c : ascii) :
  Py.isspace c = true -> ends_with c (Py.rstrip s) = false.
Proof.
  intros Hc. induction s as [|a t IH]; simpl; [reflexivity|].
  destruct (Py.rstrip t) as [|b r] eqn:E.
  - destruct (Py.isspace a) eqn:Ea; simpl; [reflexivity|].
    destruct (Ascii.eqb a c) eqn:Eac; [|reflexivity].
    apply Ascii.eqb_eq in Eac. congruence.
  - exact IH.
Qed.

Lemma strip_no_trailing_newline (s : string) : ends_with Py.newline (Py.strip s) = false.
Proof. apply rstrip_no_trailing_space. reflexivity. Qed.

(** ** The de-wrapping utility *)

Lemma wrapper_head_no_match (pos : nat) (s : string) :
  (pos = 0%nat -> starts_with "=" s = false) ->
  Re.matches (Re.Cat Re.Bol (Re.Cat (Re.Lit "=") (Re.Opt (Re.Lit Py.dquote)))) pos s = [].
Proof.
  intros Hs. cbn [Re.matches].
  destruct (Nat.eqb pos 0) eqn:Ep; [|reflexivity].
  apply Nat.eqb_eq in Ep. specialize (Hs Ep).
  destruct s as [|a t]; [reflexivity|].
  cbn [starts_with] in Hs. cbn [flat_map fst snd]. rewrite Hs. reflexivity.
Qed.

Lemma wrapper_tail_no_match (pos : nat) (s : string) :
  ends_with Py.dquote s = false ->
  ends_with Py.newline s = false ->
  Re.matches (Re.Cat (Re.Lit Py.dquote) Re.Eol) pos s = [].
Proof.
  intros Hq Hn. cbn [Re.matches].
  destruct s as [|a t]; [reflexivity|].
  destruct (Ascii.eqb a Py.dquote) eqn:Ea; [|reflexivity].
  cbn [flat_map fst snd app].
  destruct t as [|b [|c v]]; cbn [ends_with] in Hq, Hn; cbn [Re.at_eol].
  - congruence.
  - rewrite Hn. reflexivity.
  - reflexivity.
Qed.

(** Where the text neither starts with [=] nor ends with a quote or a
    newline, the pattern matches at no offset. *)
Lemma wrapper_pattern_no_match (pos : nat) (s : string) :
  (pos = 0%nat -> starts_with "=" s = false) ->
  ends_with Py.dquote s = false ->
  ends_with Py.newline s = false ->
  Re.matches wrapper_pattern pos s = [].
Proof.
  intros Hs Hq Hn. unfold wrapper_pattern.
  change (Re.matches (Re.Alt ?r1 ?r2) pos s)
    with (Re.matches r1 pos s ++ Re.matches r2 pos s)%list.
  rewrite wrapper_head_no_match by exact Hs.
  rewrite wrapper_tail_no_match by assumption.
  reflexivity.
Qed.

Lemma sub_wrapper_fixed (fuel pos : nat) (s : string) :
  (pos = 0%nat -> starts_with "=" s = false) ->
  ends_with Py.dquote s = false ->
  ends_with Py.newline s = false ->
  Re.sub_from wrapper_pattern "" fuel pos s = s.
Proof.
  revert pos s. induction fuel as [|fuel IH]; intros pos s Hs Hq Hn; [reflexivity|].
  cbn [Re.sub_from].
  rewrite (wrapper_pattern_no_match pos s Hs Hq Hn).
  destruct s as [|a t]; [reflexivity|].
  f_equal. apply IH.
  - discriminate.
  - destruct t as [|b u]; [reflexivity|]. rewrite <- Hq. reflexivity.
  - destruct t as [|b u]; [reflexivity|]. rewrite <- Hn. reflexivity.
Qed.

(** C2 as stated fails: one application removes one leading [=] only. *)
Lemma dewrap_not_idempotent :
  ~ (forall x : string, dewrap (dewrap x) = dewrap x).
Proof.
  intros H. specialize (H "==a"). vm_compute in H. discriminate.
Qed.

(** C2, amended: de-wrapping is idempotent on every text whose de-wrapped
    form neither starts with [=] nor ends with a double quote; a second
    application then changes nothing. *)
Theorem dewrap_idempotent_when_unwrapped (x : string) :
  starts_with "=" (dewrap x) = false ->
  ends_with Py.dquote (dewrap x) = false ->
  dewrap (dewrap x) = dewrap x.
Proof.
  intros Hs Hq.
  assert (Hfix : Py.strip (dewrap x) = dewrap x) by apply strip_idem.
  unfold dewrap at 1. rewrite Hfix. unfold Re.sub.
  rewrite sub_wrapper_fixed; auto.
  unfold dewrap. apply strip_no_trailing_newline.
Qed.

Lemma dewrap_idempotent_witness :
  starts_with "=" (dewrap wrapped_03_0104) = false
  /\ ends_with Py.dquote (dewrap wrapped_03_0104) = false
  /\ dewrap wrapped_03_0104 = "03.0104"
  /\ dewrap (dewrap wrapped_03_0104) = dewrap wrapped_03_0104.
Proof.
  split; [reflexivity|]. split; [reflexivity|]. split; [reflexivity|].
  apply dewrap_idempotent_when_unwrapped; reflexivity.
Defined.

(** ** Regular expressions *)

Lemma fullmatch_cip6_iff (s : string) :
  Re.fullmatch cip6_pattern s = true <-> cip6_shape s.
Proof.
  unfold Re.fullmatch, cip6_pattern, cip6_shape. split.
  - destruct s as [|a [|b [|p [|c [|d [|e [|f [|g s]]]]]]]];
      cbn -[Py.isdigit Ascii.eqb]; try discriminate;
      repeat match goal with
        | |- context [Py.isdigit ?x] =>
            let E := fresh "E" in
            destruct (Py.isdigit x) eqn:E; cbn -[Py.isdigit Ascii.eqb]; try discriminate
        | |- context [Ascii.eqb ?x "."%char] =>
            let E := fresh "E" in
            destruct (Ascii.eqb x "."%char) eqn:E; cbn -[Py.isdigit Ascii.eqb]; try discriminate
        end.
    intros _.
    match goal with H : Ascii.eqb p _ = true |- _ => apply Ascii.eqb_eq in H; subst p end.
    exists a, b, c, d, e, f. repeat split; assumption.
  - intros (a & b & c & d & e & f & -> & Ha & Hb & Hc & Hd & He & Hf).
    repeat (cbn -[Py.isdigit Ascii.eqb];
            rewrite ?Ha, ?Hb, ?Hc, ?Hd, ?He, ?Hf, ?Ascii.eqb_refl).
    reflexivity.
Qed.

(** ** The classification-code normalizer *)

Lemma lower_char_n (c : ascii) : Py.lower_char c = "n"%char -> c = "n"%char \/ c = "N"%char.
Proof.
  destruct c as [[] [] [] [] [] [] [] []]; vm_compute; intros H;
    try discriminate H; auto.
Qed.

Lemma lower_char_a (c : ascii) : Py.lower_char c = "a"%char -> c = "a"%char \/ c = "A"%char.
Proof.
  destruct c as [[] [] [] [] [] [] [] []]; vm_compute; intros H;
    try discriminate H; auto.
Qed.

(** A text that reads [nan] in lower case is parsed as the float [nan]. *)
Lemma lower_nan_parses (s : string) :
  Py.lower s = "nan" -> Float.of_string s = Some Float.FNan.
Proof.
  destruct s as [|a [|b [|c [|d s]]]]; cbn [Py.lower]; intros H; try discriminate H.
  injection H as Ha Hb Hc.
  apply lower_char_n in Ha, Hc. apply lower_char_a in Hb.
  destruct Ha, Hb, Hc; subst; reflexivity.
Qed.

Lemma float_of_string (s : string) :
  Float.float s = match Float.of_string s with
                  | Some f => Ok f
                  | None => Raise (ValueError ("could not convert string to float: " ++ Repr.repr s))
                  end.
Proof. reflexivity. Qed.

(** The code after the two early returns. *)
Lemma format_cipcode_text (val : value) :
  isna val = false ->
  text_of val <> "" ->
  Py.lower (text_of val) <> "nan" ->
  format_cipcode val =
    Ok (let s := match Float.of_string (text_of val) with
                 | Some f => Float.format_4f f
                 | None => text_of val
                 end in
        match Py.split_dot s with
        | (l, Some r) => Some (Py.zfill 2 l ++ "." ++ Py.take 4 (r ++ "0000"))
        | (l, None) => Some (Py.zfill 2 l)
        end).
Proof.
  intros Hna He Hn. unfold format_cipcode. rewrite Hna. fold (text_of val).
  apply String.eqb_neq in He, Hn. rewrite He, Hn. cbn [orb].
  rewrite float_of_string.
  destruct (Float.of_string (text_of val)) as [f|]; cbn [rbind try_except_value_type].
  - destruct (Py.split_dot (Float.format_4f f)) as [l [r|]]; reflexivity.
  - destruct (Py.split_dot (text_of val)) as [l [r|]]; reflexivity.
Qed.

Lemma format_cipcode_missing (val : value) :
  (isna val || String.eqb (text_of val) "" || String.eqb (Py.lower (text_of val)) "nan")%bool = true ->
  format_cipcode val = Ok None.
Proof.
  unfold format_cipcode. fold (text_of val).
  destruct (isna val); [reflexivity|]. cbn [orb]. intros ->. reflexivity.
Qed.

Lemma take_4_padded (r : string) : String.length (Py.take 4 (r ++ "0000")) = 4%nat.
Proof.
  destruct r as [|a [|b [|c [|d r]]]]; reflexivity.
Qed.

(** What [format_cipcode] returns, in terms of the specified steps applied
    to the trimmed text. *)
Lemma format_cipcode_cases (val : value) :
  format_cipcode val =
    Ok (if (isna val || String.eqb (Py.lower (text_of val)) "nan")%bool then None
        else normalize_as_specified (VStr (text_of val))).
Proof.
  destruct (isna val) eqn:Hna.
  { apply format_cipcode_missing. rewrite Hna. reflexivity. }
  destruct (String.eqb (Py.lower (text_of val)) "nan") eqn:Hn.
  { apply format_cipcode_missing. rewrite Hn. apply orb_true_r. }
  cbn [orb]. unfold normalize_as_specified. cbn [isna str orb].
  destruct (String.eqb (text_of val) "") eqn:He.
  { apply format_cipcode_missing. rewrite He. rewrite orb_true_r. reflexivity. }
  assert (Hn' : String.eqb (text_of val) "nan" = false).
  { apply String.eqb_neq. intros E. rewrite E in Hn. discriminate Hn. }
  rewrite Hn'. cbn [orb].
  apply String.eqb_neq in He, Hn.
  rewrite (format_cipcode_text val Hna He Hn). reflexivity.
Qed.

(** C3 as stated fails: the code trims white space before it splits (it
    gives ["1A.5000"] where the specified steps give ["1A.5 00"]), and it
    takes [nan] in any letter case for a missing value. *)
Lemma format_cipcode_not_as_specified :
  ~ (forall val : value, format_cipcode val = Ok (normalize_as_specified val)).
Proof.
  intros H. specialize (H (VStr "1A.5 ")). vm_compute in H. discriminate H.
Qed.

(** C3, amended: for every input value, [format_cipcode] returns a missing
    value when the input is missing or its text, trimmed of surrounding
    white space, is empty or reads [nan] in any letter case; otherwise it
    returns what the specified steps give on the trimmed text (a
    float-parseable text put in the format [.4f], split on the first dot,
    left part zero-padded to 2 characters, right part padded and cut to
    exactly 4 characters).  In particular ["03.0104"] and [3.0104] both
    give ["03.0104"]. *)
Theorem format_cipcode_as_specified_on_trimmed_text :
  (forall val : value,
      format_cipcode val =
        Ok (if (isna val || String.eqb (Py.lower (text_of val)) "nan")%bool then None
            else normalize_as_specified (VStr (text_of val))))
  /\ (forall r : string, String.length (Py.take 4 (r ++ "0000")) = 4%nat)
  /\ format_cipcode (VStr "03.0104") = Ok (Some "03.0104")
  /\ format_cipcode (VFloat (Float.of_decimal false 30104 (-4))) = Ok (Some "03.0104").
Proof.
  split; [exact format_cipcode_cases|].
  split; [exact take_4_padded|].
  split; reflexivity.
Qed.

Lemma split_dot_none (s : string) :
  Py.contains_char "." s = false -> Py.split_dot s = (s, None).
Proof.
  induction s as [|c t IH]; cbn [Py.contains_char Py.split_dot]; [reflexivity|].
  destruct (Ascii.eqb c ".") eqn:E; cbn [orb]; [discriminate|].
  intros H. rewrite (IH H). reflexivity.
Qed.

Lemma split_dot_app (l r : string) :
  Py.contains_char "." l = false -> Py.split_dot (l ++ String "." r) = (l, Some r).
Proof.
  induction l as [|c t IH]; cbn [Py.contains_char Py.split_dot String.append].
  - intros _. rewrite Ascii.eqb_refl. reflexivity.
  - destruct (Ascii.eqb c ".") eqn:E; cbn [orb]; [discriminate|].
    intros H. rewrite (IH H). reflexivity.
Qed.

Lemma split_dot_dotless (s l : string) :
  Py.split_dot s = (l, None) -> Py.contains_char "." s = false.
Proof.
  revert l. induction s as [|c t IH]; cbn [Py.contains_char Py.split_dot]; intros l H.
  - reflexivity.
  - destruct (Ascii.eqb c ".") eqn:E; [discriminate H|].
    destruct (Py.split_dot t) as [l' [r|]] eqn:Et; [discriminate H|].
    cbn [orb]. eapply IH. reflexivity.
Qed.

Lemma contains_char_app (c : ascii) (s t : string) :
  Py.contains_char c (s ++ t) = (Py.contains_char c s || Py.contains_char c t)%bool.
Proof.
  induction s as [|a s IH]; cbn [Py.contains_char String.append]; [reflexivity|].
  rewrite IH. apply orb_assoc.
Qed.

Lemma append_assoc (a b c : string) : (a ++ b) ++ c = a ++ b ++ c.
Proof.
  induction a as [|x a IH]; cbn [String.append]; [reflexivity|]. rewrite IH. reflexivity.
Qed.

(** *** Digits *)

Lemma digit_char_isdigit (n : Z) : Py.isdigit (Repr.digit_char (n mod 10)) = true.
Proof.
  assert (H : 0 <= n mod 10 < 10) by (apply Z.mod_pos_bound; lia).
  assert (C : n mod 10 = 0 \/ n mod 10 = 1 \/ n mod 10 = 2 \/ n mod 10 = 3 \/ n mod 10 = 4
              \/ n mod 10 = 5 \/ n mod 10 = 6 \/ n mod 10 = 7 \/ n mod 10 = 8 \/ n mod 10 = 9)
    by lia.
  repeat (destruct C as [C|C]; [rewrite C; reflexivity|]).
  rewrite C. reflexivity.
Qed.

Lemma digits_acc_all_digits (fuel : nat) (n : Z) (acc : string) :
  all_digits acc = true -> all_digits (Repr.digits_acc fuel n acc) = true.
Proof.
  revert n acc. induction fuel as [|fuel IH]; intros n acc H; cbn [Repr.digits_acc]; [exact H|].
  assert (H' : all_digits (String (Repr.digit_char (n mod 10)) acc) = true).
  { cbn [all_digits]. rewrite digit_char_isdigit, H. reflexivity. }
  destruct (n <? 10); [exact H'|]. apply IH. exact H'.
Qed.

Lemma digits_all_digits (n : Z) : all_digits (Repr.digits n) = true.
Proof. apply digits_acc_all_digits. reflexivity. Qed.

Lemma digits_acc_length (fuel : nat) (n : Z) (acc : string) :
  (String.length acc < String.length (Repr.digits_acc (S fuel) n acc))%nat.
Proof.
  revert n acc. induction fuel as [|fuel IH]; intros n acc.
  - cbn [Repr.digits_acc]. destruct (n <? 10); cbn [String.length]; lia.
  - change (Repr.digits_acc (S (S fuel)) n acc)
      with (if n <? 10 then String (Repr.digit_char (n mod 10)) acc
            else Repr.digits_acc (S fuel) (n / 10) (String (Repr.digit_char (n mod 10)) acc)).
    destruct (n <? 10); [cbn [String.length]; lia|].
    specialize (IH (n / 10) (String (Repr.digit_char (n mod 10)) acc)).
    cbn [String.length] in IH. lia.
Qed.

(** A number below 100 has at most two digits, a larger one at least
    three. *)
Lemma digits_length_two (n : Z) :
  0 <= n -> ((String.length (Repr.digits n) <= 2)%nat <-> n < 100).
Proof.
  intros Hn. unfold Repr.digits.
  destruct (Z.ltb_spec n 10) as [H10|H10].
  { cbn [Repr.digits_acc]. apply Z.ltb_lt in H10 as E. rewrite E.
    cbn [String.length]. split; intros; lia. }
  assert (L3 : 3 <= Z.log2 n) by (apply Z.log2_le_pow2; lia).
  destruct (Z.to_nat (Z.log2 n)) as [|[|[|k]]] eqn:Ek; try lia.
  destruct (Z.ltb_spec n 100) as [H100|H100].
  - cbn [Repr.digits_acc].
    apply Z.ltb_ge in H10 as E. rewrite E.
    assert (E2 : (n / 10 <? 10) = true).
    { apply Z.ltb_lt. apply Z.div_lt_upper_bound; lia. }
    rewrite E2. cbn [String.length]. split; intros; lia.
  - assert (L6 : 6 <= Z.log2 n) by (apply Z.log2_le_pow2; lia).
    destruct k as [|[|[|k]]]; try lia.
    change (Repr.digits_acc (S (S (S (S (S (S (S k))))))) n "")
      with (let a1 := String (Repr.digit_char (n mod 10)) "" in
            if n <? 10 then a1 else
              let a2 := String (Repr.digit_char (n / 10 mod 10)) a1 in
              if n / 10 <? 10 then a2 else
                Repr.digits_acc (S (S (S (S (S k))))) (n / 10 / 10) a2).
    cbv zeta.
    apply Z.ltb_ge in H10 as E. rewrite E.
    assert (E2 : (n / 10 <? 10) = false).
    { apply Z.ltb_ge. apply Z.div_le_lower_bound; lia. }
    rewrite E2.
    pose proof (digits_acc_length (S (S (S (S k)))) (n / 10 / 10)
                  (String (Repr.digit_char (n / 10 mod 10))
                     (String (Repr.digit_char (n mod 10)) ""))) as L.
    cbn [String.length] in L. split; intros; lia.
Qed.

(** *** The mantissa of a parsed float is not negative *)

Lemma round_half_even_nonneg (n d : Z) : 0 <= n -> 0 < d -> 0 <= Float.round_half_even n d.
Proof.
  intros Hn Hd. unfold Float.round_half_even.
  assert (0 <= n / d) by (apply Z.div_pos; lia).
  destruct (2 * (n mod d) ?= d); [destruct (Z.even (n / d))| |]; lia.
Qed.

Lemma scale2_nonneg (n d e : Z) :
  0 <= n -> 0 < d -> 0 <= fst (Float.scale2 n d e) /\ 0 < snd (Float.scale2 n d e).
Proof.
  intros Hn Hd. unfold Float.scale2.
  destruct (Z.leb_spec 0 e); cbn [fst snd].
  - split; [lia|]. apply Z.mul_pos_pos; [lia|]. apply Z.pow_pos_nonneg; lia.
  - split; [|lia]. apply Z.mul_nonneg_nonneg; [lia|]. apply Z.pow_nonneg; lia.
Qed.

Lemma of_ratio_nonneg (neg neg' : bool) (n d m e : Z) :
  0 <= n -> 0 < d -> Float.of_ratio neg n d = Float.FFin neg' m e -> 0 <= m.
Proof.
  intros Hn Hd. unfold Float.of_ratio.
  destruct (n =? 0); [intros H; injection H as _ <- _; lia|].
  cbv zeta.
  match goal with
  | |- context [Float.round_half_even (fst (Float.scale2 n d ?x)) _] => set (e2 := x)
  end.
  pose proof (scale2_nonneg n d e2 Hn Hd) as [Ha Hb].
  pose proof (round_half_even_nonneg _ _ Ha Hb) as Hr.
  destruct (Float.round_half_even _ _ =? 2 ^ 53);
    destruct (971 <? _); intros H; try discriminate H;
    injection H as _ <- _; lia.
Qed.

Lemma of_decimal_nonneg (neg neg' : bool) (digits e10 m e : Z) :
  0 <= digits -> Float.of_decimal neg digits e10 = Float.FFin neg' m e -> 0 <= m.
Proof.
  intros Hd. unfold Float.of_decimal.
  destruct (0 <=? e10) eqn:E.
  - apply of_ratio_nonneg; [|lia].
    apply Z.mul_nonneg_nonneg; [lia|]. apply Z.pow_nonneg; lia.
  - apply of_ratio_nonneg; [lia|]. apply Z.pow_pos_nonneg; lia.
Qed.

Lemma span_digits_all_digits (s : string) : all_digits (fst (Float.span_digits s)) = true.
Proof.
  induction s as [|c t IH]; cbn [Float.span_digits]; [reflexivity|].
  destruct (Py.isdigit c) eqn:E; [|reflexivity].
  destruct (Float.span_digits t) as [d r]. cbn [fst all_digits] in *.
  rewrite E, IH. reflexivity.
Qed.

Lemma all_digits_app (s t : string) :
  all_digits s = true -> all_digits t = true -> all_digits (s ++ t) = true.
Proof.
  induction s as [|c s IH]; cbn [all_digits String.append]; [auto|].
  intros H Ht. apply andb_prop in H as [Hc Hs]. rewrite Hc, (IH Hs Ht). reflexivity.
Qed.

Lemma Z_of_digits_nonneg (s : string) (acc : Z) :
  all_digits s = true -> 0 <= acc -> 0 <= Float.Z_of_digits acc s.
Proof.
  revert acc. induction s as [|c s IH]; cbn [all_digits Float.Z_of_digits]; intros acc H Ha.
  - exact Ha.
  - apply andb_prop in H as [Hc Hs]. apply IH; [exact Hs|].
    unfold Py.isdigit in Hc. apply andb_prop in Hc as [Hc _].
    apply N.leb_le in Hc. lia.
Qed.

Lemma parse_number_nonneg (s : string) (neg : bool) (m e : Z) :
  Float.parse_number s = Some (Float.FFin neg m e) -> 0 <= m.
Proof.
  unfold Float.parse_number.
  destruct (Float.split_sign s) as [sg t].
  destruct (String.eqb (Py.lower t) "inf" || String.eqb (Py.lower t) "infinity")%bool;
    [discriminate|].
  destruct (String.eqb (Py.lower t) "nan"); [discriminate|].
  pose proof (span_digits_all_digits t) as Hip.
  destruct (Float.span_digits t) as [ip r1]. cbn [fst] in Hip.
  assert (Hfp : forall fp r2,
             match r1 with
             | String c r => if Ascii.eqb c "." then Float.span_digits r else (EmptyString, r1)
             | EmptyString => (EmptyString, r1)
             end = (fp, r2) -> all_digits fp = true).
  { intros fp r2. destruct r1 as [|c r].
    - intros H. injection H as <- _. reflexivity.
    - destruct (Ascii.eqb c ".").
      + intros H. pose proof (span_digits_all_digits r) as Hd. rewrite H in Hd. exact Hd.
      + intros H. injection H as <- _. reflexivity. }
  destruct (match r1 with
            | String c r => if Ascii.eqb c "." then Float.span_digits r else (EmptyString, r1)
            | EmptyString => (EmptyString, r1)
            end) as [fp r2] eqn:Efp.
  specialize (Hfp fp r2 eq_refl).
  destruct (String.eqb ip "" && String.eqb fp "")%bool; [discriminate|].
  assert (Hm : 0 <= Float.Z_of_digits 0 (ip ++ fp)).
  { apply Z_of_digits_nonneg; [apply all_digits_app; assumption|lia]. }
  destruct r2 as [|c r3].
  - intros H. injection H as H. eapply of_decimal_nonneg; eassumption.
  - destruct (Ascii.eqb c "e" || Ascii.eqb c "E")%bool; [|discriminate].
    destruct (Float.split_sign r3) as [eneg r4].
    destruct (Float.span_digits r4) as [ed r5].
    destruct (String.eqb ed ""); [discriminate|].
    destruct r5; [|discriminate].
    intros H. injection H as H. eapply of_decimal_nonneg; eassumption.
Qed.

Lemma of_string_nonneg (s : string) (neg : bool) (m e : Z) :
  Float.of_string s = Some (Float.FFin neg m e) -> 0 <= m.
Proof.
  unfold Float.of_string.
  destruct (Float.remove_underscores "000" s); [|discriminate].
  apply parse_number_nonneg.
Qed.

Lemma ten_thousandths_nonneg (m e : Z) : 0 <= m -> 0 <= Float.ten_thousandths m e.
Proof.
  intros Hm. unfold Float.ten_thousandths.
  destruct (Z.leb_spec 0 e).
  - apply Z.mul_nonneg_nonneg; [|lia].
    apply Z.mul_nonneg_nonneg; [lia|]. apply Z.pow_nonneg; lia.
  - apply round_half_even_nonneg; [lia|]. apply Z.pow_pos_nonneg; lia.
Qed.

(** *** The shape of a formatted finite float *)

Lemma isdigit_not_punctuation (c : ascii) :
  Py.isdigit c = true ->
  Ascii.eqb c "." = false /\ Ascii.eqb c "+" = false /\ Ascii.eqb c "-" = false.
Proof.
  destruct c as [[] [] [] [] [] [] [] []]; vm_compute; intros H;
    try discriminate H; auto.
Qed.

Lemma all_digits_dotless (s : string) :
  all_digits s = true -> Py.contains_char "." s = false.
Proof.
  induction s as [|c s IH]; cbn [all_digits Py.contains_char]; [reflexivity|].
  intros H. apply andb_prop in H as [Hc Hs].
  destruct (isdigit_not_punctuation c Hc) as (-> & _). cbn [orb]. exact (IH Hs).
Qed.

Lemma four_digits_all_digits (n : Z) : all_digits (Float.four_digits n) = true.
Proof.
  unfold Float.four_digits. cbn [all_digits].
  rewrite !digit_char_isdigit. reflexivity.
Qed.

Lemma digits_nonempty (n : Z) : Repr.digits n <> "".
Proof.
  unfold Repr.digits. intros E.
  pose proof (digits_acc_length (Z.to_nat (Z.log2 n)) n "") as L.
  rewrite E in L. cbn [String.length] in L. lia.
Qed.

(** The left part of a formatted number, zero-padded: it holds no dot. *)
Lemma zfill_signed_digits_dotless (neg : bool) (ds : string) :
  all_digits ds = true ->
  Py.contains_char "." (Py.zfill 2 (Float.sign_text neg ++ ds)) = false.
Proof.
  intros Hd. pose proof (all_digits_dotless ds Hd) as Hn.
  assert (Hp : forall k, Py.contains_char "." (Py.repeat_char "0" k) = false).
  { induction k as [|k IH]; cbn [Py.repeat_char Py.contains_char]; [reflexivity|].
    rewrite IH. reflexivity. }
  destruct neg; cbn [Float.sign_text String.append].
  - unfold Py.zfill. cbn [Ascii.eqb Bool.eqb orb Py.contains_char].
    rewrite contains_char_app, Hp, Hn. reflexivity.
  - unfold Py.zfill. destruct ds as [|c t]; [apply Hp|].
    destruct (Ascii.eqb c "+" || Ascii.eqb c "-")%bool.
    + cbn [Py.contains_char] in Hn |- *. apply orb_false_elim in Hn as [Hc Ht].
      rewrite Hc, contains_char_app, Hp, Ht. reflexivity.
    + rewrite contains_char_app, Hp, Hn. reflexivity.
Qed.

(** A zero-padded signed number, a dot and four digits form a true 6-digit
    code exactly when there is no minus sign and at most two digits stand
    before the dot. *)
Lemma padded_number_cip6 (neg : bool) (ds : string) (n : Z) :
  all_digits ds = true -> ds <> "" ->
  Re.fullmatch cip6_pattern
    (Py.zfill 2 (Float.sign_text neg ++ ds) ++ "." ++ Float.four_digits n) = true
  <-> neg = false /\ (String.length ds <= 2)%nat.
Proof.
  intros Hd Hne. rewrite fullmatch_cip6_iff.
  pose proof (digit_char_isdigit (n / 1000)) as F1.
  pose proof (digit_char_isdigit (n / 100)) as F2.
  pose proof (digit_char_isdigit (n / 10)) as F3.
  pose proof (digit_char_isdigit n) as F4.
  unfold Float.four_digits.
  destruct neg; cbn [Float.sign_text String.append].
  { split; [|intros [H _]; discriminate H].
    unfold Py.zfill. cbn [Ascii.eqb Bool.eqb orb String.append].
    intros (a & b & c & d & e & f & E & Ha & _).
    injection E as <-. discriminate Ha. }
  destruct ds as [|c1 [|c2 [|c3 r]]]; [congruence| | |];
    cbn [all_digits] in Hd;
    repeat match goal with
      | H : (_ && _)%bool = true |- _ => apply andb_prop in H as [? H]
      end.
  - destruct (isdigit_not_punctuation c1 ltac:(assumption)) as (_ & P & M).
    unfold Py.zfill. rewrite P, M.
    cbn [orb String.length Nat.sub Py.repeat_char String.append].
    split; [intros _; split; [reflexivity|lia]|intros _].
    exists "0"%char, c1, (Repr.digit_char (n / 1000 mod 10)),
      (Repr.digit_char (n / 100 mod 10)), (Repr.digit_char (n / 10 mod 10)),
      (Repr.digit_char (n mod 10)).
    repeat split; assumption || reflexivity.
  - destruct (isdigit_not_punctuation c1 ltac:(assumption)) as (_ & P & M).
    unfold Py.zfill. rewrite P, M.
    cbn [orb String.length Nat.sub Py.repeat_char String.append].
    split; [intros _; split; [reflexivity|lia]|intros _].
    exists c1, c2, (Repr.digit_char (n / 1000 mod 10)),
      (Repr.digit_char (n / 100 mod 10)), (Repr.digit_char (n / 10 mod 10)),
      (Repr.digit_char (n mod 10)).
    repeat split; assumption || reflexivity.
  - destruct (isdigit_not_punctuation c1 ltac:(assumption)) as (_ & P & M).
    destruct (isdigit_not_punctuation c3 ltac:(assumption)) as (D3 & _).
    unfold Py.zfill. rewrite P, M.
    cbn [orb String.length Nat.sub Py.repeat_char String.append].
    split; [|intros [_ L]; cbn [String.length] in L; lia].
    intros (a & b & c & d & e & f & E & _).
    injection E as _ _ E3 _. subst c3. discriminate D3.
Qed.

Lemma sign_digits_dotless (neg : bool) (n : Z) :
  Py.contains_char "." (Float.sign_text neg ++ Repr.digits n) = false.
Proof.
  rewrite contains_char_app, (all_digits_dotless _ (digits_all_digits n)).
  destruct neg; reflexivity.
Qed.

Lemma format_4f_finite_has_dot (neg : bool) (m e : Z) :
  Py.contains_char "." (Float.format_4f (Float.FFin neg m e)) = true.
Proof.
  cbn [Float.format_4f]. rewrite !contains_char_app.
  cbn [Py.contains_char Ascii.eqb Bool.eqb orb]. rewrite !orb_true_r. reflexivity.
Qed.

(** The result of [format_cipcode] on a text that parses as a finite float. *)
Lemma format_cipcode_finite (val : value) (neg : bool) (m e : Z) :
  isna val = false ->
  Float.of_string (text_of val) = Some (Float.FFin neg m e) ->
  format_cipcode val =
    Ok (Some (Py.zfill 2 (Float.sign_text neg ++ Repr.digits (Float.ten_thousandths m e / 10000))
              ++ "." ++ Float.four_digits (Float.ten_thousandths m e mod 10000))).
Proof.
  intros Hna Hf.
  assert (He : text_of val <> "").
  { intros E. rewrite E in Hf. discriminate Hf. }
  assert (Hn : Py.lower (text_of val) <> "nan").
  { intros E. rewrite (lower_nan_parses _ E) in Hf. discriminate Hf. }
  rewrite (format_cipcode_text val Hna He Hn), Hf.
  cbn [Float.format_4f]. cbv zeta.
  rewrite <- append_assoc.
  change ((?a ++ ?b) ++ "." ++ ?c) with ((a ++ b) ++ String "." c).
  rewrite split_dot_app by apply sign_digits_dotless.
  reflexivity.
Qed.

(** C7: [format_cipcode] has no effect and raises nothing: for every input
    it returns a value, and a text that neither parses as a float nor holds
    a decimal point comes back as a left-only code, zero-padded. *)
Theorem format_cipcode_total :
  (forall val : value, exists r : option string, format_cipcode val = Ok r)
  /\ (forall val : value,
        isna val = false ->
        text_of val <> "" ->
        (exists e, Float.float (text_of val) = Raise e) ->
        Py.contains_char "." (text_of val) = false ->
        format_cipcode val = Ok (Some (Py.zfill 2 (text_of val)))).
Proof.
  split.
  - intros val. eexists. apply format_cipcode_cases.
  - intros val Hna He [e Hf] Hd.
    rewrite float_of_string in Hf.
    destruct (Float.of_string (text_of val)) as [f|] eqn:Ef; [discriminate Hf|].
    assert (Hn : Py.lower (text_of val) <> "nan").
    { intros E. rewrite (lower_nan_parses _ E) in Ef. discriminate Ef. }
    rewrite (format_cipcode_text val Hna He Hn), Ef.
    cbv zeta. rewrite (split_dot_none _ Hd). reflexivity.
Qed.

Lemma format_cipcode_total_witness :
  (exists r : option string, format_cipcode (VStr "1.2.3") = Ok r)
  /\ format_cipcode (VStr " ab ") = Ok (Some "ab")
  /\ format_cipcode (VStr "7x") = Ok (Some "7x")
  /\ format_cipcode (VStr "x") = Ok (Some "0x").
Proof.
  split; [apply (proj1 format_cipcode_total)|].
  repeat split;
    apply (proj2 format_cipcode_total);
    solve [reflexivity | discriminate | eexists; reflexivity].
Defined.

(** C10 as stated fails: the text [inf] parses as a float and comes back
    without a dot, and [123.5] parses as a float and is no true 6-digit
    code. *)
Lemma float_text_not_always_cip6 :
  ~ (forall (val : value) (f : Float.pyfloat),
        isna val = false ->
        Float.of_string (text_of val) = Some f ->
        exists code, format_cipcode val = Ok (Some code)
                     /\ Py.contains_char "." code = true)
  /\ ~ (forall (val : value) (neg : bool) (m e : Z),
          isna val = false ->
          Float.of_string (text_of val) = Some (Float.FFin neg m e) ->
          exists code, format_cipcode val = Ok (Some code)
                       /\ fullmatch_cip6 (Some code) = true).
Proof.
  split; intros H.
  - destruct (H (VStr "inf") (Float.FInf false) eq_refl eq_refl) as (code & E & D).
    vm_compute in E. injection E as <-. discriminate D.
  - destruct (H (VStr "123.5") false 8690539905941504 (-46) eq_refl eq_refl)
      as (code & E & D).
    vm_compute in E. injection E as <-. discriminate D.
Qed.

(** C10, amended: for every input whose text parses as a finite float
    (integer-valued codes such as 99 or the text ["3"] included),
    [format_cipcode] returns a zero-padded left part without a dot, a dot,
    and exactly four digits, never the left-only form; the row is flagged
    [is_cip6] exactly when the number carries no minus sign and is below
    100 once rounded to four decimals.  A result without a dot arises only
    from a text that fails float parsing and holds no decimal point, or
    from one that parses as an infinity or as not-a-number. *)
Theorem finite_float_text_has_four_decimals :
  (forall (val : value) (neg : bool) (m e : Z),
      isna val = false ->
      Float.of_string (text_of val) = Some (Float.FFin neg m e) ->
      let n := Float.ten_thousandths m e in
      let left_ := Py.zfill 2 (Float.sign_text neg ++ Repr.digits (n / 10000)) in
      let right_ := Float.four_digits (n mod 10000) in
      format_cipcode val = Ok (Some (left_ ++ "." ++ right_))
      /\ Py.contains_char "." left_ = false
      /\ String.length right_ = 4%nat /\ all_digits right_ = true
      /\ (fullmatch_cip6 (Some (left_ ++ "." ++ right_)) = true
          <-> neg = false /\ n < 1000000))
  /\ (forall (val : value) (code : string),
        format_cipcode val = Ok (Some code) ->
        Py.contains_char "." code = false ->
        (Float.of_string (text_of val) = None /\ Py.contains_char "." (text_of val) = false)
        \/ (exists f, Float.of_string (text_of val) = Some f /\ Float.isfinite f = false)).
Proof.
  split.
  - intros val neg m e Hna Hf n left_ right_.
    split; [exact (format_cipcode_finite val neg m e Hna Hf)|].
    split; [apply zfill_signed_digits_dotless, digits_all_digits|].
    split; [reflexivity|].
    split; [apply four_digits_all_digits|].
    cbn [fullmatch_cip6]. subst left_ right_.
    rewrite padded_number_cip6 by (apply digits_all_digits || apply digits_nonempty).
    assert (Hn : 0 <= n).
    { apply ten_thousandths_nonneg. eapply of_string_nonneg. exact Hf. }
    assert (Hq : 0 <= n / 10000) by (apply Z.div_pos; lia).
    rewrite (digits_length_two _ Hq).
    pose proof (Z.div_mod n 10000 ltac:(lia)) as Hdm.
    pose proof (Z.mod_pos_bound n 10000 ltac:(lia)) as Hmb.
    split; intros [Hs Hl]; (split; [exact Hs|lia]).
  - intros val code Hc Hd.
    destruct (isna val) eqn:Hna.
    { rewrite format_cipcode_missing in Hc by (rewrite Hna; reflexivity). discriminate Hc. }
    destruct (String.eqb (text_of val) "") eqn:He.
    { rewrite format_cipcode_missing in Hc
        by (rewrite He, orb_true_r; reflexivity). discriminate Hc. }
    destruct (String.eqb (Py.lower (text_of val)) "nan") eqn:Hn.
    { rewrite format_cipcode_missing in Hc by (rewrite Hn; apply orb_true_r).
      discriminate Hc. }
    apply String.eqb_neq in He, Hn.
    rewrite (format_cipcode_text val Hna He Hn) in Hc. cbv zeta in Hc.
    destruct (Float.of_string (text_of val)) as [f|] eqn:Ef.
    + right. exists f. split; [reflexivity|].
      destruct f as [| |neg m e]; try reflexivity. exfalso.
      destruct (Py.split_dot (Float.format_4f (Float.FFin neg m e))) as [l [r|]] eqn:Es.
      * injection Hc as <-. rewrite !contains_char_app in Hd.
        cbn [Py.contains_char Ascii.eqb Bool.eqb orb] in Hd.
        rewrite orb_true_r in Hd. discriminate Hd.
      * apply split_dot_dotless in Es. rewrite format_4f_finite_has_dot in Es.
        discriminate Es.
    + left. split; [reflexivity|].
      destruct (Py.split_dot (text_of val)) as [l [r|]] eqn:Es.
      * injection Hc as <-. rewrite !contains_char_app in Hd.
        cbn [Py.contains_char Ascii.eqb Bool.eqb orb] in Hd.
        rewrite orb_true_r in Hd. discriminate Hd.
      * apply split_dot_dotless in Es. exact Es.
Qed.

Lemma finite_float_text_witness :
  isna (VInt 99) = false
  /\ Float.of_string (text_of (VInt 99)) = Some (Float.FFin false 6966505673588736 (-46))
  /\ format_cipcode (VInt 99) = Ok (Some "99.0000")
  /\ fullmatch_cip6 (Some "99.0000") = true
  /\ format_cipcode (VStr "inf") = Ok (Some "inf")
  /\ Float.of_string (text_of (VStr "inf")) = Some (Float.FInf false).
Proof.
  destruct finite_float_text_has_four_decimals as [F D].
  destruct (F (VInt 99) false 6966505673588736 (-46) eq_refl eq_refl)
    as (H1 & _ & _ & _ & H2).
  split; [reflexivity|]. split; [reflexivity|]. split; [exact H1|].
  split; [apply H2; split; reflexivity|].
  split; [reflexivity|].
  destruct (D (VStr "inf") "inf" eq_refl eq_refl) as [[H _]|(f & H & _)].
  - discriminate H.
  - reflexivity.
Defined.

(** ** File effects *)

Lemma read_only_ret {A : Type} (a : A) : read_only (ret a).
Proof. intros w. reflexivity. Qed.

Lemma read_only_raise {A : Type} (e : exn) : read_only (@raise A e).
Proof. intros w. reflexivity. Qed.

Lemma read_only_lift {A : Type} (r : result A) : read_only (lift r).
Proof. intros w. reflexivity. Qed.

Lemma read_only_bind {A B : Type} (c : M A) (k : A -> M B) :
  read_only c -> (forall a, read_only (k a)) -> read_only (bind c k).
Proof.
  intros Hc Hk w. unfold bind. specialize (Hc w).
  destruct (c w) as [[a|e] w1]; cbn [snd] in Hc |- *; subst w1.
  - apply Hk.
  - reflexivity.
Qed.

Lemma read_only_open_file (p : path) : read_only (open_file p).
Proof.
  intros w. unfold open_file.
  destruct (lookup p (files w)); [reflexivity|]. destruct (is_dir w p); reflexivity.
Qed.

Lemma read_only_path_exists (p : path) : read_only (path_exists p).
Proof. intros w. reflexivity. Qed.

Create HintDb read_only.
#[local] Hint Resolve read_only_ret read_only_raise read_only_lift read_only_open_file
  read_only_path_exists : read_only.

Ltac read_only_steps :=
  repeat first
    [ apply read_only_bind; [|intros ?]
    | solve [auto with read_only]
    | match goal with
      | |- read_only (match ?x with _ => _ end) => destruct x
      | |- read_only (if ?x then _ else _) => destruct x
      end ].

Lemma read_only_read_completions (p : path) : read_only (read_completions p).
Proof. unfold read_completions. read_only_steps. Qed.

Lemma read_only_read_directory (p : path) : read_only (read_directory p).
Proof. unfold read_directory. read_only_steps. Qed.

Lemma read_only_read_taxonomy (p : path) : read_only (read_taxonomy p).
Proof. unfold read_taxonomy. read_only_steps. Qed.

Lemma read_only_load_bigten_unitids (p : option path) : read_only (load_bigten_unitids p).
Proof. unfold load_bigten_unitids, read_csv. destruct p; read_only_steps. Qed.

#[local] Hint Resolve read_only_read_completions read_only_read_directory
  read_only_read_taxonomy read_only_load_bigten_unitids : read_only.

Lemma read_only_research_final (a : args) : read_only (research_final a).
Proof. unfold research_final. read_only_steps. Qed.

Lemma path_eqb_refl (p : path) : path_eqb p p = true.
Proof. unfold path_eqb. destruct (list_eq_dec string_dec p p); congruence. Qed.

Lemma lookup_store {A : Type} (p : path) (a : A) (xs : list (path * A)) :
  lookup p (store p a xs) = Some a.
Proof.
  induction xs as [|[q b] t IH]; cbn [store lookup].
  - rewrite path_eqb_refl. reflexivity.
  - destruct (path_eqb p q) eqn:E; cbn [lookup]; rewrite ?path_eqb_refl, ?E; auto.
Qed.

(** ** The guardrails and the write *)

Lemma guardrails_ok_iff (t : list research_row) :
  guardrails t = Ok tt
  <-> nunique (map unitid t) = 18%nat
      /\ count (fun r => is_none (cip2_title r)) t = 0%nat
      /\ count (fun r => is_none (cip6_title r)) (filter is_cip6 t) = 0%nat.
Proof.
  unfold guardrails.
  destruct (Nat.eqb_spec (nunique (map unitid t)) 18) as [E1|E1]; cbn [negb].
  2:{ split; [discriminate|]. intros (H & _). contradiction. }
  destruct (Nat.eqb_spec (count (fun r => is_none (cip2_title r)) t) 0) as [E2|E2]; cbn [negb].
  2:{ split; [discriminate|]. intros (_ & H & _). contradiction. }
  destruct (Nat.eqb_spec (count (fun r => is_none (cip6_title r)) (filter is_cip6 t)) 0)
    as [E3|E3]; cbn [negb].
  2:{ split; [discriminate|]. intros (_ & _ & H). contradiction. }
  split; auto.
Qed.

(** A failed guardrail is a [ValueError]. *)
Lemma guardrails_raise (t : list research_row) :
  guardrails t <> Ok tt -> exists msg, guardrails t = Raise (ValueError msg).
Proof.
  unfold guardrails.
  repeat match goal with
    | |- context [if ?b then _ else _] => destruct b
    end; intros H; try (eexists; reflexivity).
  contradiction.
Qed.

Lemma check_and_write_raise (t : list research_row) (out : path) (w : fs) (e : exn) :
  guardrails t = Raise e -> check_and_write t out w = (Raise e, w).
Proof. intros H. unfold check_and_write, bind, lift. rewrite H. reflexivity. Qed.

Lemma check_and_write_ok (t : list research_row) (out p : path) (w w' : fs) :
  check_and_write t out w = (Ok p, w') ->
  guardrails t = Ok tt /\ p = out /\ lookup out (files w') = Some (ResearchCsv t).
Proof.
  unfold check_and_write, bind, lift, mkdir_parents, to_csv, ret.
  destruct (guardrails t) as [[]|e]; [|discriminate].
  repeat match goal with
    | |- context [if ?b then _ else _] => destruct b; try discriminate
    end.
  intros H. injection H as <- <-. cbn [files].
  split; [reflexivity|]. split; [reflexivity|]. apply lookup_store.
Qed.

Lemma build_ok (a : args) (w w' : fs) (p : path) :
  build a w = (Ok p, w') ->
  exists t, research_final a w = (Ok t, w)
            /\ guardrails t = Ok tt
            /\ p = out_path a
            /\ lookup (out_path a) (files w') = Some (ResearchCsv t).
Proof.
  unfold build, bind.
  pose proof (read_only_research_final a w) as Hw.
  destruct (research_final a w) as [[t|e] w1]; cbn [snd] in Hw; subst w1; [|discriminate].
  intros H. exists t. split; [reflexivity|]. exact (check_and_write_ok _ _ _ _ _ H).
Qed.

Lemma build_raise (a : args) (w : fs) (t : list research_row) (e : exn) :
  research_final a w = (Ok t, w) -> guardrails t = Raise e -> build a w = (Raise e, w).
Proof.
  intros Ht Hg. unfold build, bind. rewrite Ht. apply check_and_write_raise. exact Hg.
Qed.

(** C5: when a guardrail fails (the institution count is not 18, a
    [cip2_title] is missing, or a true 6-digit row misses its [cip6_title])
    [build] raises the [ValueError] of that guardrail and the file system is
    as before; [build] writes only a table that passed the three checks. *)
Theorem failed_guardrail_writes_nothing :
  (forall (t : list research_row) (out : path) (w : fs),
      nunique (map unitid t) <> 18%nat
      \/ count (fun r => is_none (cip2_title r)) t <> 0%nat
      \/ count (fun r => is_none (cip6_title r)) (filter is_cip6 t) <> 0%nat ->
      exists msg, guardrails t = Raise (ValueError msg)
                  /\ check_and_write t out w = (Raise (ValueError msg), w))
  /\ (forall (a : args) (w : fs) (t : list research_row),
        research_final a w = (Ok t, w) ->
        nunique (map unitid t) <> 18%nat
        \/ count (fun r => is_none (cip2_title r)) t <> 0%nat
        \/ count (fun r => is_none (cip6_title r)) (filter is_cip6 t) <> 0%nat ->
        exists msg, build a w = (Raise (ValueError msg), w))
  /\ (forall (t : list research_row),
        nunique (map unitid t) <> 18%nat ->
        guardrails t =
          Raise (ValueError ("Expected 18 Big Ten institutions, got "
                               ++ Repr.int (Z.of_nat (nunique (map unitid t))))))
  /\ (forall (a : args) (w w' : fs) (p : path),
        build a w = (Ok p, w') ->
        exists t, research_final a w = (Ok t, w)
                  /\ nunique (map unitid t) = 18%nat
                  /\ count (fun r => is_none (cip2_title r)) t = 0%nat
                  /\ count (fun r => is_none (cip6_title r)) (filter is_cip6 t) = 0%nat
                  /\ lookup (out_path a) (files w') = Some (ResearchCsv t)).
Proof.
  assert (Hfail : forall t,
             nunique (map unitid t) <> 18%nat
             \/ count (fun r => is_none (cip2_title r)) t <> 0%nat
             \/ count (fun r => is_none (cip6_title r)) (filter is_cip6 t) <> 0%nat ->
             exists msg, guardrails t = Raise (ValueError msg)).
  { intros t H. apply guardrails_raise. rewrite guardrails_ok_iff.
    intros (H1 & H2 & H3). destruct H as [H|[H|H]]; contradiction. }
  repeat split.
  - intros t out w H. destruct (Hfail t H) as [msg Hg]. exists msg.
    split; [exact Hg|]. apply check_and_write_raise. exact Hg.
  - intros a w t Ht H. destruct (Hfail t H) as [msg Hg]. exists msg.
    exact (build_raise a w t _ Ht Hg).
  - intros t H. unfold guardrails.
    destruct (Nat.eqb_spec (nunique (map unitid t)) 18); [contradiction|reflexivity].
  - intros a w w' p H. destruct (build_ok a w w' p H) as (t & Ht & Hg & _ & Hl).
    apply guardrails_ok_iff in Hg as (H1 & H2 & H3). exists t. auto.
Qed.

Lemma failed_guardrail_witness :
  count (fun r => is_none (cip2_title r)) untitled_table <> 0%nat
  /\ (exists msg,
         check_and_write untitled_table (out_path default_args) scenario_fs
         = (Raise (ValueError msg), scenario_fs))
  /\ research_final default_args scenario_fs = (Ok [scenario_row], scenario_fs)
  /\ nunique (map unitid [scenario_row]) <> 18%nat
  /\ (exists msg, build default_args scenario_fs = (Raise (ValueError msg), scenario_fs))
  /\ build default_args eighteen_fs = (Ok (out_path default_args), eighteen_written)
  /\ (exists t, research_final default_args eighteen_fs = (Ok t, eighteen_fs)
                /\ nunique (map unitid t) = 18%nat).
Proof.
  destruct failed_guardrail_writes_nothing as (H1 & H2 & _ & H4).
  assert (N1 : count (fun r => is_none (cip2_title r)) untitled_table <> 0%nat)
    by (vm_compute; discriminate).
  assert (N2 : nunique (map unitid [scenario_row]) <> 18%nat)
    by (vm_compute; discriminate).
  assert (R : research_final default_args scenario_fs = (Ok [scenario_row], scenario_fs))
    by (vm_compute; reflexivity).
  assert (B : build default_args eighteen_fs = (Ok (out_path default_args), eighteen_written))
    by (vm_compute; reflexivity).
  split; [exact N1|]. split.
  { destruct (H1 untitled_table (out_path default_args) scenario_fs (or_intror (or_introl N1)))
      as (msg & _ & Hw).
    exists msg. exact Hw. }
  split; [exact R|]. split; [exact N2|]. split.
  { exact (H2 default_args scenario_fs [scenario_row] R (or_introl N2)). }
  split; [exact B|].
  destruct (H4 default_args eighteen_fs eighteen_written (out_path default_args) B)
    as (t & Ht & Hn & _).
  exists t. split; assumption.
Defined.

(** ** The joins *)

Lemma merge_left_in {L R : Type} (same_key : L -> R -> bool)
    (lrows : list L) (rrows : list R) (l : L) (o : option R) :
  In (l, o) (merge_left same_key lrows rrows) ->
  In l lrows
  /\ match o with
     | Some r => In r rrows /\ same_key l r = true
     | None => forall r, In r rrows -> same_key l r = false
     end.
Proof.
  unfold merge_left. rewrite in_flat_map. intros (x & Hx & Hin).
  destruct (filter (same_key x) rrows) as [|m ms] eqn:Ef.
  - destruct Hin as [E|[]]. injection E as <- <-. split; [exact Hx|].
    intros r Hr. destruct (same_key x r) eqn:Ek; [|reflexivity].
    assert (Hf : In r (filter (same_key x) rrows)) by (apply filter_In; auto).
    rewrite Ef in Hf. destruct Hf.
  - apply in_map_iff in Hin as (r & E & Hr). injection E as <- <-.
    split; [exact Hx|]. rewrite <- Ef in Hr. apply filter_In in Hr. exact Hr.
Qed.

(** What a successful [research_final] has read and computed. *)
Lemma research_final_ok (a : args) (w w1 : fs) (t : list research_row) :
  research_final a w = (Ok t, w1) ->
  exists (cip_raw : list taxonomy_entry) (base : list base_row),
    lookup (cip_path a) (files w) = Some (TaxonomyCsv cip_raw)
    /\ t = map final_row
             (merge_left (fun l row => key_matches (r_cipcode (fst l)) row)
                (merge_left (fun r row => key_matches (r_cip2 r) row) base
                   (cip2_lookup_of cip_raw))
                (cip6_lookup_of cip_raw)).
Proof.
  unfold research_final, bind.
  pose proof (read_only_open_file (completions_path a) w) as R1.
  unfold read_completions, bind.
  destruct (open_file (completions_path a) w) as [[f1|e1] w2]; cbn [snd] in R1; subst;
    [|discriminate].
  destruct f1; cbn [raise ret]; try discriminate.
  pose proof (read_only_open_file (hd_path a) w) as R2.
  unfold read_directory, bind.
  destruct (open_file (hd_path a) w) as [[f2|e2] w2]; cbn [snd] in R2; subst;
    [|discriminate].
  destruct f2; cbn [raise ret]; try discriminate.
  pose proof (read_only_open_file (cip_path a) w) as R3.
  unfold read_taxonomy, bind.
  destruct (open_file (cip_path a) w) as [[f3|e3] w2] eqn:E3; cbn [snd] in R3; subst;
    [|discriminate].
  destruct f3 as [| |cip_raw| |]; cbn [raise ret]; try discriminate.
  destruct (load_bigten_unitids (bigten_unitids_path a) w) as [[ids|e4] w2]; [|discriminate].
  unfold lift.
  match goal with
  | |- context [rmap research_of ?x] => destruct (rmap research_of x) as [base|e5]
  end; [|discriminate].
  intros H. injection H as <- _.
  exists cip_raw, base. split; [|reflexivity].
  unfold open_file in E3. destruct (lookup (cip_path a) (files w)) as [f|].
  - injection E3 as ->. reflexivity.
  - destruct (is_dir w (cip_path a)); discriminate E3.
Qed.

(** Every row of the table is the [final_row] of a research row and of its
    partners in the two lookups. *)
Lemma research_final_rows (a : args) (w w1 : fs) (t : list research_row) (r : research_row) :
  research_final a w = (Ok t, w1) ->
  In r t ->
  exists (cip_raw : list taxonomy_entry) (b : base_row) (o2 o6 : option (string * string)),
    lookup (cip_path a) (files w) = Some (TaxonomyCsv cip_raw)
    /\ r = final_row (b, o2, o6)
    /\ match o2 with
       | Some row => In row (cip2_lookup_of cip_raw) /\ r_cip2 b = Some (fst row)
       | None => forall row, In row (cip2_lookup_of cip_raw) -> r_cip2 b <> Some (fst row)
       end
    /\ match o6 with
       | Some row => In row (cip6_lookup_of cip_raw) /\ r_cipcode b = Some (fst row)
       | None => forall row, In row (cip6_lookup_of cip_raw) -> r_cipcode b <> Some (fst row)
       end.
Proof.
  intros Ht Hr.
  destruct (research_final_ok a w w1 t Ht) as (cip_raw & base & Hl & ->).
  apply in_map_iff in Hr as ([[b o2] o6] & <- & Hin).
  apply merge_left_in in Hin as (Hin & H6). cbn [fst] in H6.
  apply merge_left_in in Hin as (_ & H2).
  assert (K : forall (k : option string) (row : string * string),
             key_matches k row = true <-> k = Some (fst row)).
  { intros [k|] row; cbn [key_matches].
    - rewrite String.eqb_eq. split; [intros ->; reflexivity|intros E; injection E; auto].
    - split; discriminate. }
  exists cip_raw, b, o2, o6. split; [exact Hl|]. split; [reflexivity|]. split.
  - destruct o2 as [row|].
    + destruct H2 as [Hi Hk]. split; [exact Hi|]. apply K. exact Hk.
    + intros row Hi E. apply K in E. rewrite (H2 row Hi) in E. discriminate E.
  - destruct o6 as [row|].
    + destruct H6 as [Hi Hk]. split; [exact Hi|]. apply K. exact Hk.
    + intros row Hi E. apply K in E. rewrite (H6 row Hi) in E. discriminate E.
Qed.

(** C6: in every row that [build] writes, [is_cip6] is true exactly when the
    normalized code is two digits, a dot and four digits; a row without a
    code has [is_cip6] false. *)
Theorem is_cip6_iff_strict_pattern
    (a : args) (w w' : fs) (p : path) (rows : list research_row) (r : research_row) :
  build a w = (Ok p, w') ->
  lookup (out_path a) (files w') = Some (ResearchCsv rows) ->
  In r rows ->
  (is_cip6 r = true <-> exists code, cipcode r = Some code /\ cip6_shape code)
  /\ (cipcode r = None -> is_cip6 r = false).
Proof.
  intros Hb Hl Hr.
  destruct (build_ok a w w' p Hb) as (t & Ht & _ & _ & Hl').
  rewrite Hl in Hl'. injection Hl' as ->.
  destruct (research_final_rows a w w t r Ht Hr) as (_ & b & o2 & o6 & _ & -> & _).
  cbn [final_row is_cip6 cipcode fst snd]. split.
  - destruct (r_cipcode b) as [code|]; cbn [fullmatch_cip6].
    + rewrite fullmatch_cip6_iff. split.
      * intros H. exists code. split; [reflexivity|exact H].
      * intros (c & E & H). injection E as ->. exact H.
    + split; [discriminate|]. intros (c & E & _). discriminate E.
  - intros ->. reflexivity.
Qed.

Lemma is_cip6_witness :
  build default_args eighteen_fs = (Ok (out_path default_args), eighteen_written)
  /\ lookup (out_path default_args) (files eighteen_written) = Some (ResearchCsv eighteen_rows)
  /\ In scenario_row eighteen_rows
  /\ (is_cip6 scenario_row = true
      <-> exists code, cipcode scenario_row = Some code /\ cip6_shape code)
  /\ In codeless_row eighteen_rows
  /\ is_cip6 codeless_row = false.
Proof.
  assert (B : build default_args eighteen_fs = (Ok (out_path default_args), eighteen_written))
    by (vm_compute; reflexivity).
  assert (L : lookup (out_path default_args) (files eighteen_written)
              = Some (ResearchCsv eighteen_rows)) by (vm_compute; reflexivity).
  assert (I1 : In scenario_row eighteen_rows) by (left; reflexivity).
  assert (I2 : In codeless_row eighteen_rows) by (do 19 right; left; reflexivity).
  split; [exact B|]. split; [exact L|]. split; [exact I1|]. split.
  { exact (proj1 (is_cip6_iff_strict_pattern default_args eighteen_fs eighteen_written
                    (out_path default_args) eighteen_rows scenario_row B L I1)). }
  split; [exact I2|].
  exact (proj2 (is_cip6_iff_strict_pattern default_args eighteen_fs eighteen_written
                  (out_path default_args) eighteen_rows codeless_row B L I2) eq_refl).
Defined.

(** C4: in every row that [build] writes, [cip2_title] and [cip6_title] are
    present; a row whose 2-digit code is in no row of the 2-digit lookup
    carries the placeholder ["99 - Unclassified / Not in CIP taxonomy"], and
    a row that is no true 6-digit code carries the placeholder
    ["Not a CIP6 program (aggregate / unclassified)"]. *)
Theorem titles_never_missing
    (a : args) (w w' : fs) (p : path) (rows : list research_row) (r : research_row) :
  build a w = (Ok p, w') ->
  lookup (out_path a) (files w') = Some (ResearchCsv rows) ->
  In r rows ->
  cip2_title r <> None
  /\ cip6_title r <> None
  /\ (forall cip_raw,
         lookup (cip_path a) (files w) = Some (TaxonomyCsv cip_raw) ->
         (forall row, In row (cip2_lookup_of cip_raw) -> cip2 r <> Some (fst row)) ->
         cip2_title r = Some "99 - Unclassified / Not in CIP taxonomy")
  /\ (is_cip6 r = false ->
      cip6_title r = Some "Not a CIP6 program (aggregate / unclassified)").
Proof.
  intros Hb Hl Hr.
  destruct (build_ok a w w' p Hb) as (t & Ht & _ & _ & Hl').
  rewrite Hl in Hl'. injection Hl' as ->.
  destruct (research_final_rows a w w t r Ht Hr)
    as (cip_raw & b & o2 & o6 & Hc & -> & H2 & H6).
  cbn [final_row cip2_title cip6_title cip2 is_cip6 fst snd].
  split; [destruct o2; discriminate|].
  split; [destruct o6; discriminate|].
  split.
  - intros cip_raw' Hc' Hno. rewrite Hc in Hc'. injection Hc' as <-.
    destruct o2 as [row|]; [|reflexivity].
    destruct H2 as [Hi Hk]. exfalso. exact (Hno row Hi Hk).
  - intros Hf. destruct o6 as [row|]; [|reflexivity].
    destruct H6 as [Hi Hk]. exfalso.
    unfold cip6_lookup_of in Hi. apply filter_In in Hi as [_ Hm].
    rewrite Hk in Hf. rewrite Hm in Hf. discriminate Hf.
Qed.

Lemma titles_never_missing_witness :
  build default_args eighteen_fs = (Ok (out_path default_args), eighteen_written)
  /\ lookup (out_path default_args) (files eighteen_written) = Some (ResearchCsv eighteen_rows)
  /\ In codeless_row eighteen_rows
  /\ cip2_title codeless_row <> None
  /\ cip6_title codeless_row <> None.
Proof.
  assert (B : build default_args eighteen_fs = (Ok (out_path default_args), eighteen_written))
    by (vm_compute; reflexivity).
  assert (L : lookup (out_path default_args) (files eighteen_written)
              = Some (ResearchCsv eighteen_rows)) by (vm_compute; reflexivity).
  assert (I : In codeless_row eighteen_rows) by (do 19 right; left; reflexivity).
  split; [exact B|]. split; [exact L|]. split; [exact I|].
  destruct (titles_never_missing default_args eighteen_fs eighteen_written
              (out_path default_args) eighteen_rows codeless_row B L I) as (H1 & H2 & _).
  split; assumption.
Defined.

(** ** The end-to-end scenario *)

(** C1 as stated fails: with completions of one institution only, the
    institution-count guardrail stops [build], and nothing is written. *)
Lemma scenario_build_does_not_succeed :
  ~ (exists (p : path) (w' : fs),
        build default_args scenario_fs = (Ok p, w')
        /\ lookup (out_path default_args) (files w') = Some (ResearchCsv [scenario_row])).
Proof.
  intros (p & w' & H & _). vm_compute in H. discriminate H.
Qed.

(** C1, amended: in the end-to-end scenario the allow-list is the embedded
    default and the table [research_final] has exactly the one expected
    row; it holds 1 institution instead of 18, so [build] raises
    "Expected 18 Big Ten institutions, got 1" and writes nothing.  The same
    row is written once completions of all eighteen institutions are
    present. *)
Theorem scenario_row_then_institution_guardrail :
  load_bigten_unitids (bigten_unitids_path default_args) scenario_fs
    = (Ok BIGTEN_UNITIDS, scenario_fs)
  /\ research_final default_args scenario_fs = (Ok [scenario_row], scenario_fs)
  /\ build default_args scenario_fs
     = (Raise (ValueError "Expected 18 Big Ten institutions, got 1"), scenario_fs)
  /\ (exists (w' : fs) (rows : list research_row),
         build default_args eighteen_fs = (Ok (out_path default_args), w')
         /\ lookup (out_path default_args) (files w') = Some (ResearchCsv rows)
         /\ In scenario_row rows).
Proof.
  split; [reflexivity|]. split; [vm_compute; reflexivity|]. split; [vm_compute; reflexivity|].
  exists eighteen_written, eighteen_rows. split; [vm_compute; reflexivity|].
  split; [vm_compute; reflexivity|]. left. reflexivity.
Qed.

(** ** The allow-list loader *)


Lemma load_existing_file (p : path) (w : fs) (f : file) :
  lookup p (files w) = Some f ->
  load_bigten_unitids (Some p) w =
    (col <- (if has_column "UNITID" (frame_of f) then ret "UNITID"
             else if has_column "unitid" (frame_of f) then ret "unitid"
             else raise (ValueError ("Big Ten UNITID file missing UNITID column: "
                                       ++ Repr.repr_list (map fst (frame_of f))))) ;;
     cells <- lift (get_column col (frame_of f)) ;;
     unitids <- lift (rmap astype_int (dropna (map to_numeric cells))) ;;
     ret (match unitids with [] => BIGTEN_UNITIDS | _ => unitids end))%m w.
Proof.
  intros Hl. unfold load_bigten_unitids, bind at 1, path_exists. rewrite Hl. cbn [negb].
  unfold read_csv, bind at 1, bind at 1, open_file. rewrite Hl. reflexivity.
Qed.



(** C9: when the allow-list file exists and has neither a column [UNITID]
    nor a column [unitid] (another casing such as [Unitid] is neither), the
    loader raises the [ValueError] that names the columns found, and
    [build] raises and writes nothing; it raises that error when the three
    inputs could be read. *)
Theorem missing_unitid_column_aborts (p : path) (w : fs) (f : file) :
  lookup p (files w) = Some f ->
  has_column "UNITID" (frame_of f) = false ->
  has_column "unitid" (frame_of f) = false ->
  let e := ValueError ("Big Ten UNITID file missing UNITID column: "
                         ++ Repr.repr_list (map fst (frame_of f))) in
  load_bigten_unitids (Some p) w = (Raise e, w)
  /\ (forall a : args,
         bigten_unitids_path a = Some p ->
         (exists e', build a w = (Raise e', w))
         /\ (forall df hd cip_raw,
                lookup (completions_path a) (files w) = Some (CompletionsCsv df) ->
                lookup (hd_path a) (files w) = Some (DirectoryCsv hd) ->
                lookup (cip_path a) (files w) = Some (TaxonomyCsv cip_raw) ->
                build a w = (Raise e, w)))
  /\ (forall cells : list value,
         has_column "UNITID" [("Unitid", cells)] = false
         /\ has_column "unitid" [("Unitid", cells)] = false).
Proof.
  intros Hl HU Hu e.
  assert (Hload : load_bigten_unitids (Some p) w = (Raise e, w)).
  { rewrite (load_existing_file p w f Hl), HU, Hu. reflexivity. }
  split; [exact Hload|]. split; [|intros cells; split; reflexivity].
  intros a Ha.
  assert (Hfinal : forall df hd cip_raw,
             read_completions (completions_path a) w = (Ok df, w) ->
             read_directory (hd_path a) w = (Ok hd, w) ->
             read_taxonomy (cip_path a) w = (Ok cip_raw, w) ->
             build a w = (Raise e, w)).
  { intros df hd cip_raw H1 H2 H3. unfold build, research_final.
    unfold bind at 1. unfold bind at 1. rewrite H1.
    unfold bind at 1. rewrite H2.
    unfold bind at 1. rewrite H3.
    unfold bind at 1. rewrite Ha, Hload. reflexivity. }
  split.
  - pose proof (read_only_read_completions (completions_path a) w) as R1.
    pose proof (read_only_read_directory (hd_path a) w) as R2.
    pose proof (read_only_read_taxonomy (cip_path a) w) as R3.
    destruct (read_completions (completions_path a) w) as [[df|e1] w1] eqn:E1;
      cbn [snd] in R1; subst w1.
    2:{ exists e1. unfold build, research_final.
        unfold bind at 1. unfold bind at 1. rewrite E1. reflexivity. }
    destruct (read_directory (hd_path a) w) as [[hd|e2] w2] eqn:E2;
      cbn [snd] in R2; subst w2.
    2:{ exists e2. unfold build, research_final.
        unfold bind at 1. unfold bind at 1. rewrite E1.
        unfold bind at 1. rewrite E2. reflexivity. }
    destruct (read_taxonomy (cip_path a) w) as [[cip_raw|e3] w3] eqn:E3;
      cbn [snd] in R3; subst w3.
    2:{ exists e3. unfold build, research_final.
        unfold bind at 1. unfold bind at 1. rewrite E1.
        unfold bind at 1. rewrite E2.
        unfold bind at 1. rewrite E3. reflexivity. }
    exists e. exact (Hfinal df hd cip_raw eq_refl eq_refl eq_refl).
  - intros df hd cip_raw H1 H2 H3. apply (Hfinal df hd cip_raw).
    + unfold read_completions, bind, open_file. rewrite H1. reflexivity.
    + unfold read_directory, bind, open_file. rewrite H2. reflexivity.
    + unfold read_taxonomy, bind, open_file. rewrite H3. reflexivity.
Qed.

Lemma missing_unitid_column_witness :
  lookup allow_list_path (files misspelled_fs)
    = Some (TableCsv [("Unitid", [VInt 151351]); ("name", [VStr "Indiana"])])
  /\ has_column "UNITID" [("Unitid", [VInt 151351]); ("name", [VStr "Indiana"])] = false
  /\ has_column "unitid" [("Unitid", [VInt 151351]); ("name", [VStr "Indiana"])] = false
  /\ load_bigten_unitids (Some allow_list_path) misspelled_fs
     = (Raise (ValueError "Big Ten UNITID file missing UNITID column: ['Unitid', 'name']"),
        misspelled_fs)
  /\ build misspelled_args misspelled_fs
     = (Raise (ValueError "Big Ten UNITID file missing UNITID column: ['Unitid', 'name']"),
        misspelled_fs).
Proof.
  destruct (missing_unitid_column_aborts allow_list_path misspelled_fs
              (TableCsv [("Unitid", [VInt 151351]); ("name", [VStr "Indiana"])])
              eq_refl eq_refl eq_refl) as (H1 & H2 & _).
  split; [reflexivity|]. split; [reflexivity|]. split; [reflexivity|].
  split; [exact H1|].
  destruct (H2 misspelled_args eq_refl) as [_ H3].
  eapply H3; reflexivity.
Defined.

(** * Further properties *)

(** ** Rounding *)

Lemma round_half_even_error (a b : Z) :
  0 < b -> 2 * Z.abs (a - Float.round_half_even a b * b) <= b.
Proof.
  intros Hb. unfold Float.round_half_even.
  pose proof (Z.div_mod a b ltac:(lia)) as Hdm.
  pose proof (Z.mod_pos_bound a b Hb) as Hm.
  destruct (Z.compare_spec (2 * (a mod b)) b) as [E|L|G];
    [destruct (Z.even (a / b))| |]; nia.
Qed.

Lemma round_half_even_unique (a b q : Z) :
  0 < b -> 2 * Z.abs (a - q * b) < b -> Float.round_half_even a b = q.
Proof.
  intros Hb Hq. unfold Float.round_half_even.
  pose proof (Z.div_mod a b ltac:(lia)) as Hdm.
  pose proof (Z.mod_pos_bound a b Hb) as Hm.
  assert (C : a / b = q \/ a / b = q - 1) by nia.
  destruct (Z.compare_spec (2 * (a mod b)) b) as [E|L|G];
    [destruct (Z.even (a / b))| |]; destruct C as [C|C]; rewrite C in *; nia.
Qed.

(** A ratio [n / d] below [2^38] whose ten-thousandfold is the integer [N]
    is read as a float that the format [.4f] prints as [N] ten-thousandths:
    the rounding to binary64 is undone by the rounding to four decimals. *)
Lemma of_ratio_ten_thousandths (neg : bool) (n d N : Z) :
  0 <= n -> 0 < d -> n < d * 2 ^ 38 -> 10000 * n = N * d ->
  exists m e, Float.of_ratio neg n d = Float.FFin neg m e
              /\ Float.ten_thousandths m e = N.
Proof.
  intros Hn Hd Hb HN. unfold Float.of_ratio.
  destruct (Z.eqb_spec n 0) as [->|Hz].
  { exists 0, (-1074). split; [reflexivity|].
    assert (N = 0) by nia. subst N. reflexivity. }
  cbv zeta.
  set (e0 := Z.log2 n - Z.log2 d - 52).
  set (e1 := if fst (Float.scale2 n d e0) <? snd (Float.scale2 n d e0) * 2 ^ 52
             then e0 - 1 else e0).
  set (e2 := Z.max e1 (-1074)).
  assert (He0 : e0 <= -14).
  { assert (Z.log2 n < Z.log2 d + 39); [|unfold e0; lia].
    apply Z.log2_lt_pow2; [lia|].
    pose proof (Z.log2_spec d Hd) as [_ Hl].
    rewrite Z.pow_add_r by (pose proof (Z.log2_nonneg d); lia).
    replace (2 ^ 39) with (2 * 2 ^ 38) by reflexivity.
    rewrite <- Z.add_1_r in Hl.
    rewrite Z.pow_add_r in Hl by (pose proof (Z.log2_nonneg d); lia).
    change (2 ^ 1) with 2 in Hl. nia. }
  assert (He2 : -1074 <= e2 <= -14).
  { unfold e2, e1. destruct (_ <? _); lia. }
  clearbody e2. clear e1 e0 He0.
  unfold Float.scale2. destruct (Z.leb_spec 0 e2) as [|_]; [lia|]. cbn [fst snd].
  set (K := 2 ^ (- e2)).
  assert (HK : 2 ^ 14 <= K) by (apply Z.pow_le_mono_r; lia).
  change (2 ^ 14) with 16384 in HK.
  pose proof (round_half_even_error (n * K) d Hd) as Herr.
  set (m := Float.round_half_even (n * K) d) in *.
  assert (Hgap : 2 * Z.abs (m * 10000 - N * K) <= 10000) by nia.
  destruct (Z.eqb_spec m (2 ^ 53)) as [Em|Em].
  - destruct (Z.ltb_spec 971 (e2 + 1)) as [|_]; [lia|].
    exists (2 ^ 52), (e2 + 1). split; [reflexivity|].
    unfold Float.ten_thousandths. destruct (Z.leb_spec 0 (e2 + 1)) as [|_]; [lia|].
    apply round_half_even_unique; [apply Z.pow_pos_nonneg; lia|].
    assert (HK2 : K = 2 * 2 ^ (- (e2 + 1))).
    { unfold K. replace (- e2) with (1 + - (e2 + 1)) by lia.
      rewrite Z.pow_add_r by lia. reflexivity. }
    rewrite Em in Hgap. change (2 ^ 53) with (2 * 2 ^ 52) in Hgap.
    set (K' := 2 ^ (- (e2 + 1))) in *. lia.
  - destruct (Z.ltb_spec 971 e2) as [|_]; [lia|].
    exists m, e2. split; [reflexivity|].
    unfold Float.ten_thousandths. destruct (Z.leb_spec 0 e2) as [|_]; [lia|].
    apply round_half_even_unique; [apply Z.pow_pos_nonneg; lia|].
    fold K. lia.
Qed.

(** ** Decimal texts *)

Lemma isdigit_facts (c : ascii) :
  Py.isdigit c = true ->
  Ascii.eqb c "." = false /\ Ascii.eqb c "+" = false /\ Ascii.eqb c "-" = false
  /\ Ascii.eqb c "_" = false /\ Ascii.eqb c "i" = false /\ Ascii.eqb c "n" = false
  /\ Py.isspace c = false /\ Float.isspace c = false /\ Py.lower_char c = c
  /\ Repr.digit_char (Z.of_N (N_of_ascii c) - 48) = c
  /\ 0 <= Z.of_N (N_of_ascii c) - 48 < 10.
Proof.
  destruct c as [[] [] [] [] [] [] [] []]; vm_compute; intros H;
    try discriminate H; repeat split; intros; discriminate.
Qed.

Lemma four_digits_of_values (a b c d : Z) :
  0 <= a < 10 -> 0 <= b < 10 -> 0 <= c < 10 -> 0 <= d < 10 ->
  Float.four_digits (1000 * a + 100 * b + 10 * c + d)
  = String (Repr.digit_char a) (String (Repr.digit_char b)
      (String (Repr.digit_char c) (String (Repr.digit_char d) EmptyString))).
Proof.
  intros Ha Hb Hc Hd. unfold Float.four_digits.
  set (x := 1000 * a + 100 * b + 10 * c + d).
  replace (x / 1000 mod 10) with a.
  replace (x / 100 mod 10) with b.
  replace (x / 10 mod 10) with c.
  replace (x mod 10) with d.
  reflexivity.
  all: unfold x; Z.to_euclidean_division_equations; lia.
Qed.

Lemma all_chars_app (p : ascii -> bool) (s t : string) :
  all_chars p (s ++ t) = (all_chars p s && all_chars p t)%bool.
Proof.
  induction s as [|c s IH]; cbn [all_chars String.append]; [reflexivity|].
  rewrite IH. apply andb_assoc.
Qed.

Lemma all_digits_all_chars (p : ascii -> bool) (s : string) :
  (forall c, Py.isdigit c = true -> p c = true) ->
  all_digits s = true -> all_chars p s = true.
Proof.
  intros Hp. induction s as [|c s IH]; cbn [all_digits all_chars]; [reflexivity|].
  intros H. apply andb_prop in H as [Hc Hs]. rewrite (Hp c Hc), (IH Hs). reflexivity.
Qed.

Lemma decimal_char_facts (c : ascii) :
  (Py.isdigit c || Ascii.eqb c ".")%bool = true ->
  Py.isspace c = false /\ Float.isspace c = false /\ Ascii.eqb c "_" = false
  /\ Py.lower_char c = c.
Proof.
  destruct c as [[] [] [] [] [] [] [] []]; vm_compute; intros H;
    try discriminate H; repeat split.
Qed.

(** A text of digits and dots is left alone by the trimming, the lower
    casing and the removal of underscores. *)
Lemma decimal_text_plain (t : string) :
  all_chars (fun c => Py.isdigit c || Ascii.eqb c ".")%bool t = true ->
  Py.strip t = t
  /\ Float.rstrip (Float.lstrip t) = t
  /\ Py.lower t = t
  /\ (forall prev, Ascii.eqb prev "_" = false -> Float.remove_underscores prev t = Some t).
Proof.
  intros H.
  assert (R1 : Py.rstrip t = t).
  { induction t as [|c t IH]; [reflexivity|]. cbn [all_chars] in H.
    apply andb_prop in H as [Hc Ht]. cbn [Py.rstrip]. rewrite (IH Ht).
    destruct (decimal_char_facts c Hc) as (-> & _). destruct t; reflexivity. }
  assert (R2 : Float.rstrip t = t).
  { clear R1. induction t as [|c t IH]; [reflexivity|]. cbn [all_chars] in H.
    apply andb_prop in H as [Hc Ht]. cbn [Float.rstrip]. rewrite (IH Ht).
    destruct (decimal_char_facts c Hc) as (_ & -> & _). destruct t; reflexivity. }
  assert (L1 : Py.lstrip t = t /\ Float.lstrip t = t).
  { destruct t as [|c t]; [split; reflexivity|]. cbn [all_chars] in H.
    apply andb_prop in H as [Hc _].
    destruct (decimal_char_facts c Hc) as (S1 & S2 & _).
    cbn [Py.lstrip Float.lstrip]. rewrite S1, S2. split; reflexivity. }
  destruct L1 as [L1 L2].
  split; [unfold Py.strip; rewrite L1; exact R1|].
  split; [rewrite L2; exact R2|].
  split.
  - clear R1 R2 L1 L2. induction t as [|c t IH]; [reflexivity|]. cbn [all_chars] in H.
    apply andb_prop in H as [Hc Ht]. cbn [Py.lower]. rewrite (IH Ht).
    destruct (decimal_char_facts c Hc) as (_ & _ & _ & ->). reflexivity.
  - clear R1 R2 L1 L2. induction t as [|c t IH]; intros prev Hp; cbn [Float.remove_underscores].
    + rewrite Hp. reflexivity.
    + cbn [all_chars] in H. apply andb_prop in H as [Hc Ht].
      destruct (decimal_char_facts c Hc) as (_ & _ & U & _).
      rewrite U, Hp. cbn [andb]. rewrite (IH Ht c U). reflexivity.
Qed.

Lemma span_digits_app (ip r : string) :
  all_digits ip = true ->
  match r with String c _ => Py.isdigit c = false | EmptyString => True end ->
  Float.span_digits (ip ++ r) = (ip, r).
Proof.
  intros Hi Hr. induction ip as [|c ip IH]; cbn [String.append].
  - destruct r as [|c r]; [reflexivity|]. cbn [Float.span_digits]. rewrite Hr. reflexivity.
  - cbn [all_digits] in Hi. apply andb_prop in Hi as [Hc Hi].
    cbn [Float.span_digits]. rewrite Hc, (IH Hi). reflexivity.
Qed.

Lemma Z_of_digits_app (s t : string) (a : Z) :
  Float.Z_of_digits a (s ++ t) = Float.Z_of_digits (Float.Z_of_digits a s) t.
Proof.
  revert a. induction s as [|c s IH]; intros a; cbn [Float.Z_of_digits String.append];
    [reflexivity|apply IH].
Qed.

(** How [float] reads digits, and digits with a decimal point. *)
Lemma parse_number_decimal (ip fp : string) :
  all_digits ip = true -> ip <> "" -> all_digits fp = true ->
  Float.parse_number ip = Some (Float.of_decimal false (Float.Z_of_digits 0 ip) 0)
  /\ Float.parse_number (ip ++ String "." fp)
     = Some (Float.of_decimal false (Float.Z_of_digits 0 (ip ++ fp))
               (- Z.of_nat (String.length fp))).
Proof.
  intros Hi Hne Hf.
  destruct ip as [|c ip]; [congruence|]. clear Hne.
  pose proof Hi as Hi'. cbn [all_digits] in Hi'. apply andb_prop in Hi' as [Hc _].
  destruct (isdigit_facts c Hc) as (_ & Pl & Mi & _ & Ci & Cn & _ & _ & Lc & _).
  assert (Hsign : forall r, Float.split_sign (String c ip ++ r) = (false, String c ip ++ r)).
  { intros r. cbn [String.append Float.split_sign]. rewrite Mi, Pl. reflexivity. }
  assert (Hlow : forall r,
             (String.eqb (Py.lower (String c ip ++ r)) "inf"
              || String.eqb (Py.lower (String c ip ++ r)) "infinity")%bool = false
             /\ String.eqb (Py.lower (String c ip ++ r)) "nan" = false).
  { intros r. cbn [String.append Py.lower String.eqb]. rewrite Lc, Ci, Cn. split; reflexivity. }
  split.
  - pose proof (Hsign "") as S0. pose proof (Hlow "") as [L1 L2].
    assert (E0 : String c ip ++ "" = String c ip).
    { clear. induction (String c ip) as [|a s IH]; cbn [String.append]; [reflexivity|].
      rewrite IH. reflexivity. }
    rewrite E0 in S0, L1, L2.
    unfold Float.parse_number. rewrite S0, L1, L2.
    pose proof (span_digits_app (String c ip) "" Hi I) as Sp. rewrite E0 in Sp.
    rewrite Sp. cbn [String.eqb andb]. rewrite E0. reflexivity.
  - pose proof (Hlow (String "." fp)) as [L1 L2].
    unfold Float.parse_number. rewrite Hsign, L1, L2.
    rewrite (span_digits_app (String c ip) (String "." fp) Hi eq_refl).
    rewrite Ascii.eqb_refl.
    pose proof (span_digits_app fp "" Hf I) as Sp.
    assert (E0 : fp ++ "" = fp).
    { clear. induction fp as [|a s IH]; cbn [String.append]; [reflexivity|].
      rewrite IH. reflexivity. }
    rewrite E0 in Sp. rewrite Sp. cbn [String.eqb andb]. reflexivity.
Qed.

Lemma digits_are_decimal (s : string) :
  all_digits s = true ->
  all_chars (fun c => Py.isdigit c || Ascii.eqb c ".")%bool s = true.
Proof.
  apply all_digits_all_chars. intros c ->. reflexivity.
Qed.

Lemma decimal_text_all_chars (ip fp : string) :
  all_digits ip = true -> all_digits fp = true ->
  all_chars (fun c => Py.isdigit c || Ascii.eqb c ".")%bool (ip ++ String "." fp) = true.
Proof.
  intros Hi Hf. rewrite all_chars_app, (digits_are_decimal ip Hi).
  cbn [all_chars andb]. rewrite Ascii.eqb_refl, orb_true_r. cbn [andb].
  apply digits_are_decimal. exact Hf.
Qed.

Lemma of_string_decimal (ip fp : string) :
  all_digits ip = true -> ip <> "" -> all_digits fp = true ->
  Float.of_string ip = Some (Float.of_decimal false (Float.Z_of_digits 0 ip) 0)
  /\ Float.of_string (ip ++ String "." fp)
     = Some (Float.of_decimal false (Float.Z_of_digits 0 (ip ++ fp))
               (- Z.of_nat (String.length fp))).
Proof.
  intros Hi Hne Hf.
  destruct (parse_number_decimal ip fp Hi Hne Hf) as [P1 P2].
  pose proof (digits_are_decimal ip Hi) as A1.
  pose proof (decimal_text_all_chars ip fp Hi Hf) as A2.
  destruct (decimal_text_plain _ A1) as (_ & F1 & _ & U1).
  destruct (decimal_text_plain _ A2) as (_ & F2 & _ & U2).
  unfold Float.of_string.
  rewrite (U1 "000"%char eq_refl), (U2 "000"%char eq_refl), F1, F2. split; assumption.
Qed.

(** ** The normalizer on decimal texts *)

Lemma format_cipcode_of_decimal (val : value) (mant j : Z) :
  isna val = false ->
  Float.of_string (text_of val) = Some (Float.of_decimal false mant (- j)) ->
  0 <= mant -> 0 <= j <= 4 -> mant < 10 ^ j * 2 ^ 38 ->
  format_cipcode val =
    Ok (Some (Py.zfill 2 (Repr.digits (mant * 10 ^ (4 - j) / 10000))
              ++ "." ++ Float.four_digits (mant * 10 ^ (4 - j) mod 10000))).
Proof.
  intros Hna Hf Hm Hj Hb.
  assert (Hpow : 10 ^ (4 - j) * 10 ^ j = 10000).
  { rewrite <- Z.pow_add_r by lia. replace (4 - j + j) with 4 by lia. reflexivity. }
  assert (Hd : 0 < 10 ^ j) by (apply Z.pow_pos_nonneg; lia).
  assert (R : exists m e, Float.of_decimal false mant (- j) = Float.FFin false m e
                          /\ Float.ten_thousandths m e = mant * 10 ^ (4 - j)).
  { unfold Float.of_decimal. destruct (Z.leb_spec 0 (- j)) as [L|L].
    - assert (j = 0) by lia. subst j. change (10 ^ (- 0)) with 1.
      change (10 ^ 0) with 1 in *.
      apply of_ratio_ten_thousandths; lia.
    - replace (- - j) with j by lia.
      apply of_ratio_ten_thousandths; nia. }
  destruct R as (m & e & Em & En). rewrite Em in Hf.
  rewrite (format_cipcode_finite val false m e Hna Hf), En. reflexivity.
Qed.

Lemma append_empty (s : string) : s ++ "" = s.
Proof.
  induction s as [|a s IH]; cbn [String.append]; [reflexivity|]. rewrite IH. reflexivity.
Qed.

Ltac digit_values :=
  repeat match goal with
    | H : Py.isdigit ?c = true |- _ =>
        let D := fresh "D" in
        let B := fresh "B" in
        destruct (isdigit_facts c H) as (_ & _ & _ & _ & _ & _ & _ & _ & _ & D & B);
        clear H
    end.

(** A plain decimal text goes through [float] and [.4f] unchanged but for
    the padding. *)
Lemma format_cipcode_plain_decimal (ip fp : string) :
  all_digits ip = true -> ip <> "" ->
  all_digits fp = true -> (String.length fp <= 4)%nat ->
  Float.Z_of_digits 0 ip < 2 ^ 38 ->
  format_cipcode (VStr (ip ++ "." ++ fp))
  = Ok (Some (Py.zfill 2 (Repr.digits (Float.Z_of_digits 0 ip))
              ++ "." ++ Py.take 4 (fp ++ "0000")))
  /\ exists rest, Float.four_digits rest = Py.take 4 (fp ++ "0000").
Proof.
  intros Hi Hne Hf Hl Hb.
  change (ip ++ "." ++ fp) with (ip ++ String "." fp).
  destruct (of_string_decimal ip fp Hi Hne Hf) as [_ P].
  pose proof (decimal_text_all_chars ip fp Hi Hf) as A.
  destruct (decimal_text_plain _ A) as (St & _).
  pose proof (Z_of_digits_nonneg ip 0 Hi ltac:(lia)) as Hz.
  rewrite Z_of_digits_app in P.
  set (z := Float.Z_of_digits 0 ip) in *.
  assert (G : forall mant j rest,
             Float.of_string (ip ++ String "." fp)
               = Some (Float.of_decimal false mant (- j)) ->
             0 <= j <= 4 ->
             mant * 10 ^ (4 - j) = z * 10000 + rest -> 0 <= rest < 10000 ->
             Float.four_digits rest = Py.take 4 (fp ++ "0000") ->
             format_cipcode (VStr (ip ++ String "." fp))
             = Ok (Some (Py.zfill 2 (Repr.digits z) ++ "." ++ Py.take 4 (fp ++ "0000")))
             /\ exists rest', Float.four_digits rest' = Py.take 4 (fp ++ "0000")).
  { intros mant j rest Hp Hj Hn Hr H4. split; [|exists rest; exact H4].
    assert (Hpow : 10 ^ (4 - j) * 10 ^ j = 10000).
    { rewrite <- Z.pow_add_r by lia. replace (4 - j + j) with 4 by lia. reflexivity. }
    assert (Hd : 0 < 10 ^ j) by (apply Z.pow_pos_nonneg; lia).
    assert (Hd' : 0 < 10 ^ (4 - j)) by (apply Z.pow_pos_nonneg; lia).
    rewrite (format_cipcode_of_decimal (VStr (ip ++ String "." fp)) mant j).
    - rewrite Hn.
      replace ((z * 10000 + rest) / 10000) with z
        by (apply (Z.div_unique _ _ _ rest); lia).
      replace ((z * 10000 + rest) mod 10000) with rest
        by (apply (Z.mod_unique _ _ z); lia).
      rewrite H4. reflexivity.
    - reflexivity.
    - unfold text_of. cbn [str]. rewrite St. exact Hp.
    - nia.
    - exact Hj.
    - change (2 ^ 38) with 274877906944 in *. nia. }
  destruct fp as [|c1 [|c2 [|c3 [|c4 [|c5 fp]]]]];
    cbn [String.length] in Hl; try lia; clear Hl;
    cbn [all_digits] in Hf;
    repeat match goal with
      | H : (_ && _)%bool = true |- _ =>
          let H1 := fresh "Hc" in apply andb_prop in H as [H1 H]
      end; clear Hf;
    digit_values;
    cbn [Float.Z_of_digits String.length] in P.
  - apply (G z 0 0); try (exact P || lia || reflexivity).
  - set (v1 := Z.of_N (N_of_ascii c1) - 48) in *.
    apply (G (10 * z + v1) 1 (1000 * v1 + 100 * 0 + 10 * 0 + 0)); try (exact P || lia).
    rewrite four_digits_of_values by lia. rewrite D. reflexivity.
  - set (v1 := Z.of_N (N_of_ascii c1) - 48) in *.
    set (v2 := Z.of_N (N_of_ascii c2) - 48) in *.
    apply (G (10 * (10 * z + v1) + v2) 2 (1000 * v1 + 100 * v2 + 10 * 0 + 0)); try (exact P || lia).
    rewrite four_digits_of_values by lia. rewrite D, D0. reflexivity.
  - set (v1 := Z.of_N (N_of_ascii c1) - 48) in *.
    set (v2 := Z.of_N (N_of_ascii c2) - 48) in *.
    set (v3 := Z.of_N (N_of_ascii c3) - 48) in *.
    apply (G (10 * (10 * (10 * z + v1) + v2) + v3) 3 (1000 * v1 + 100 * v2 + 10 * v3 + 0)); try (exact P || lia).
    rewrite four_digits_of_values by lia. rewrite D, D0, D1. reflexivity.
  - set (v1 := Z.of_N (N_of_ascii c1) - 48) in *.
    set (v2 := Z.of_N (N_of_ascii c2) - 48) in *.
    set (v3 := Z.of_N (N_of_ascii c3) - 48) in *.
    set (v4 := Z.of_N (N_of_ascii c4) - 48) in *.
    apply (G (10 * (10 * (10 * (10 * z + v1) + v2) + v3) + v4) 4 (1000 * v1 + 100 * v2 + 10 * v3 + v4)); try (exact P || lia).
    rewrite four_digits_of_values by lia. rewrite D, D0, D1, D2. reflexivity.
Qed.

(** X1: a text of digits, a decimal point and at most four digits, with an
    integer part below [2^38], comes back as its integer part (without
    leading zeros, then zero-padded to two characters), a dot, and its
    fraction filled with zeros to four digits: reading the text as a float
    and printing it with [.4f] loses nothing.  The result is a true 6-digit
    code exactly when the integer part is below 100. *)
Theorem format_cipcode_decimal_text (ip fp : string) :
  all_digits ip = true -> ip <> "" ->
  all_digits fp = true -> (String.length fp <= 4)%nat ->
  Float.Z_of_digits 0 ip < 2 ^ 38 ->
  format_cipcode (VStr (ip ++ "." ++ fp))
  = Ok (Some (Py.zfill 2 (Repr.digits (Float.Z_of_digits 0 ip))
              ++ "." ++ Py.take 4 (fp ++ "0000")))
  /\ (fullmatch_cip6 (Some (Py.zfill 2 (Repr.digits (Float.Z_of_digits 0 ip))
                             ++ "." ++ Py.take 4 (fp ++ "0000"))) = true
      <-> Float.Z_of_digits 0 ip < 100).
Proof.
  intros Hi Hne Hf Hl Hb.
  destruct (format_cipcode_plain_decimal ip fp Hi Hne Hf Hl Hb) as [E [rest H4]].
  split; [exact E|].
  pose proof (Z_of_digits_nonneg ip 0 Hi ltac:(lia)) as Hz.
  set (z := Float.Z_of_digits 0 ip) in *.
  rewrite <- H4. cbn [fullmatch_cip6].
  change (Py.zfill 2 (Repr.digits z))
    with (Py.zfill 2 (Float.sign_text false ++ Repr.digits z)).
  rewrite (padded_number_cip6 false (Repr.digits z) rest
             (digits_all_digits z) (digits_nonempty z)).
  rewrite (digits_length_two z) by lia.
  split; [intros [_ H]; exact H|intros H; split; [reflexivity|exact H]].
Qed.

Lemma format_cipcode_decimal_text_witness :
  all_digits "3" = true /\ "3" <> "" /\ all_digits "01" = true
  /\ (String.length "01" <= 4)%nat /\ Float.Z_of_digits 0 "3" < 2 ^ 38
  /\ format_cipcode (VStr "3.01") = Ok (Some "03.0100")
  /\ (fullmatch_cip6 (Some "03.0100") = true <-> Float.Z_of_digits 0 "3" < 100).
Proof.
  assert (H1 : all_digits "3" = true) by reflexivity.
  assert (H2 : "3" <> "") by discriminate.
  assert (H3 : all_digits "01" = true) by reflexivity.
  assert (H4 : (String.length "01" <= 4)%nat) by (cbn; lia).
  assert (H5 : Float.Z_of_digits 0 "3" < 2 ^ 38) by reflexivity.
  split; [exact H1|]. split; [exact H2|]. split; [exact H3|]. split; [exact H4|].
  split; [exact H5|].
  exact (format_cipcode_decimal_text "3" "01" H1 H2 H3 H4 H5).
Defined.

Lemma digits_one_or_two (x : Z) :
  (0 <= x < 10 -> Repr.digits x = String (Repr.digit_char (x mod 10)) "")
  /\ (10 <= x < 100 ->
      Repr.digits x
      = String (Repr.digit_char (x / 10 mod 10)) (String (Repr.digit_char (x mod 10)) "")).
Proof.
  unfold Repr.digits. split; intros H.
  - cbn [Repr.digits_acc]. destruct (Z.ltb_spec x 10); [reflexivity|lia].
  - assert (L3 : 3 <= Z.log2 x) by (apply Z.log2_le_pow2; lia).
    destruct (Z.to_nat (Z.log2 x)) as [|k] eqn:Ek; [lia|].
    cbn [Repr.digits_acc].
    destruct (Z.ltb_spec x 10); [lia|].
    destruct (Z.ltb_spec (x / 10) 10) as [|G]; [reflexivity|].
    exfalso. assert (x / 10 < 10) by (apply Z.div_lt_upper_bound; lia). lia.
Qed.

(** X2: a code that already has the canonical form, two digits, a dot and
    four digits, is a fixed point of [format_cipcode]. *)
Theorem format_cipcode_canonical_fixed_point (code : string) :
  cip6_shape code -> format_cipcode (VStr code) = Ok (Some code).
Proof.
  intros (a & b & c & d & e & f & -> & Ha & Hb & Hc & Hd & He & Hf).
  assert (T := fun H1 H2 H3 H4 H5 =>
                 proj1 (format_cipcode_plain_decimal (String a (String b ""))
                          (String c (String d (String e (String f ""))))
                          H1 H2 H3 H4 H5)).
  cbn [all_digits String.length String.append Float.Z_of_digits] in T.
  rewrite Ha, Hb, Hc, Hd, He, Hf in T.
  destruct (isdigit_facts a Ha) as (_ & Pa & Ma & _ & _ & _ & _ & _ & _ & Da & Ba).
  destruct (isdigit_facts b Hb) as (_ & Pb & Mb & _ & _ & _ & _ & _ & _ & Db & Bb).
  set (va := Z.of_N (N_of_ascii a) - 48) in *.
  set (vb := Z.of_N (N_of_ascii b) - 48) in *.
  change (2 ^ 38) with 274877906944 in T.
  rewrite T; [|reflexivity|discriminate|reflexivity|lia|lia].
  replace (10 * (10 * 0 + va) + vb) with (10 * va + vb) by lia.
  assert (Z2 : Py.zfill 2 (Repr.digits (10 * va + vb)) = String a (String b "")).
  { destruct (digits_one_or_two (10 * va + vb)) as [S1 S2].
    destruct (Z.eq_dec va 0) as [E0|N0].
    - rewrite S1 by lia. rewrite E0 in *.
      replace ((10 * 0 + vb) mod 10) with vb by (rewrite Z.mod_small; lia).
      rewrite Db. rewrite <- Da. unfold Py.zfill. rewrite Pb, Mb. reflexivity.
    - rewrite S2 by lia.
      replace ((10 * va + vb) / 10) with va by (apply (Z.div_unique _ _ _ vb); lia).
      replace ((10 * va + vb) mod 10) with vb by (apply (Z.mod_unique _ _ va); lia).
      rewrite (Z.mod_small va) by lia. rewrite Da, Db.
      unfold Py.zfill. rewrite Pa, Ma. reflexivity. }
  rewrite Z2. reflexivity.
Qed.

Lemma format_cipcode_canonical_witness :
  cip6_shape "51.3801" /\ format_cipcode (VStr "51.3801") = Ok (Some "51.3801").
Proof.
  assert (S : cip6_shape "51.3801").
  { exists "5"%char, "1"%char, "3"%char, "8"%char, "0"%char, "1"%char.
    repeat split; reflexivity. }
  split; [exact S|]. exact (format_cipcode_canonical_fixed_point "51.3801" S).
Defined.

(** X3: an integer code from 0 to below [2^38] comes back as its decimal
    digits, zero-padded to two characters, followed by [.0000]; it is a
    true 6-digit code exactly when it is below 100. *)
Theorem format_cipcode_integer (z : Z) :
  0 <= z < 2 ^ 38 ->
  format_cipcode (VInt z) = Ok (Some (Py.zfill 2 (Repr.digits z) ++ ".0000"))
  /\ (fullmatch_cip6 (Some (Py.zfill 2 (Repr.digits z) ++ ".0000")) = true <-> z < 100).
Proof.
  intros Hz.
  assert (Hs : str (VInt z) = Repr.digits z).
  { cbn [str]. unfold Repr.int. destruct (Z.ltb_spec z 0); [lia|reflexivity]. }
  pose proof (digits_all_digits z) as Hd.
  pose proof (digits_nonempty z) as Hne.
  destruct (decimal_text_plain _ (digits_are_decimal _ Hd)) as (St & _).
  destruct (of_string_decimal (Repr.digits z) "" Hd Hne eq_refl) as [P _].
  rewrite digits_value in P by lia.
  assert (F : format_cipcode (VInt z)
              = Ok (Some (Py.zfill 2 (Repr.digits (z * 10 ^ (4 - 0) / 10000))
                          ++ "." ++ Float.four_digits (z * 10 ^ (4 - 0) mod 10000)))).
  { apply format_cipcode_of_decimal; try lia; try reflexivity.
    unfold text_of. rewrite Hs, St. exact P. }
  change (10 ^ (4 - 0)) with 10000 in F.
  rewrite Z.div_mul, Z.mod_mul in F by lia.
  split; [exact F|].
  change (Py.zfill 2 (Repr.digits z) ++ ".0000")
    with (Py.zfill 2 (Float.sign_text false ++ Repr.digits z) ++ "." ++ Float.four_digits 0).
  cbn [fullmatch_cip6].
  rewrite (padded_number_cip6 false (Repr.digits z) 0 Hd Hne).
  rewrite (digits_length_two z) by lia.
  split; [intros [_ H]; exact H|intros H; split; [reflexivity|exact H]].
Qed.

Lemma format_cipcode_integer_witness :
  0 <= 1 < 2 ^ 38 /\ format_cipcode (VInt 1) = Ok (Some "01.0000").
Proof.
  assert (H : 0 <= 1 < 2 ^ 38) by (cbn; lia).
  split; [exact H|]. exact (proj1 (format_cipcode_integer 1 H)).
Defined.

(** ** The shape of every normalized code *)

Lemma repeat_char_length (c : ascii) (n : nat) : String.length (Py.repeat_char c n) = n.
Proof. induction n as [|n IH]; cbn [Py.repeat_char String.length]; congruence. Qed.

Lemma append_length (s t : string) :
  String.length (s ++ t) = (String.length s + String.length t)%nat.
Proof.
  induction s as [|c s IH]; cbn [String.append String.length]; [reflexivity|].
  rewrite IH. reflexivity.
Qed.

Lemma zfill_length (width : nat) (s : string) :
  String.length (Py.zfill width s) = Nat.max width (String.length s).
Proof.
  unfold Py.zfill. destruct s as [|c t].
  - rewrite repeat_char_length. cbn [String.length]. lia.
  - destruct (Ascii.eqb c "+" || Ascii.eqb c "-")%bool; cbn [String.length];
      rewrite append_length, repeat_char_length; cbn [String.length]; lia.
Qed.

Lemma zfill_long (width : nat) (s : string) :
  (width <= String.length s)%nat -> Py.zfill width s = s.
Proof.
  intros H. unfold Py.zfill.
  replace (width - String.length s)%nat with 0%nat by lia. cbn [Py.repeat_char].
  destruct s as [|c t]; [reflexivity|].
  destruct (Ascii.eqb c "+" || Ascii.eqb c "-")%bool; reflexivity.
Qed.

Lemma zfill_dotless (width : nat) (s : string) :
  Py.contains_char "." s = false -> Py.contains_char "." (Py.zfill width s) = false.
Proof.
  intros H.
  assert (Hp : forall k, Py.contains_char "." (Py.repeat_char "0" k) = false).
  { induction k as [|k IH]; cbn [Py.repeat_char Py.contains_char]; [reflexivity|].
    rewrite IH. reflexivity. }
  unfold Py.zfill. destruct s as [|c t]; [apply Hp|].
  cbn [Py.contains_char] in H. apply orb_false_elim in H as [Hc Ht].
  destruct (Ascii.eqb c "+" || Ascii.eqb c "-")%bool;
    cbn [Py.contains_char]; rewrite ?contains_char_app; cbn [Py.contains_char];
    rewrite ?Hp, ?Hc, ?Ht; reflexivity.
Qed.

Lemma split_dot_fst_dotless (s : string) : Py.contains_char "." (fst (Py.split_dot s)) = false.
Proof.
  induction s as [|c t IH]; cbn [Py.split_dot]; [reflexivity|].
  destruct (Ascii.eqb c ".") eqn:E; [reflexivity|].
  destruct (Py.split_dot t) as [l r]. cbn [fst Py.contains_char] in *.
  rewrite E, IH. reflexivity.
Qed.

(** Every code that [format_cipcode] returns is a left part of at least two
    characters without a dot, alone or followed by a dot and exactly four
    characters. *)
Lemma format_cipcode_parts (val : value) (code : string) :
  format_cipcode val = Ok (Some code) ->
  exists l : string,
    Py.contains_char "." l = false /\ (2 <= String.length l)%nat
    /\ (code = l \/ exists r, code = l ++ String "." r /\ String.length r = 4%nat).
Proof.
  intros Hc.
  destruct (isna val) eqn:Hna.
  { rewrite format_cipcode_missing in Hc by (rewrite Hna; reflexivity). discriminate Hc. }
  destruct (String.eqb (text_of val) "") eqn:He.
  { rewrite format_cipcode_missing in Hc by (rewrite He, orb_true_r; reflexivity).
    discriminate Hc. }
  destruct (String.eqb (Py.lower (text_of val)) "nan") eqn:Hn.
  { rewrite format_cipcode_missing in Hc by (rewrite Hn; apply orb_true_r).
    discriminate Hc. }
  apply String.eqb_neq in He, Hn.
  rewrite (format_cipcode_text val Hna He Hn) in Hc. cbv zeta in Hc.
  set (s := match Float.of_string (text_of val) with
            | Some f => Float.format_4f f
            | None => text_of val
            end) in Hc.
  pose proof (split_dot_fst_dotless s) as Hd.
  destruct (Py.split_dot s) as [l r]. cbn [fst] in Hd.
  exists (Py.zfill 2 l).
  split; [apply zfill_dotless; exact Hd|].
  split; [rewrite zfill_length; lia|].
  destruct r as [r|]; injection Hc as <-.
  - right. exists (Py.take 4 (r ++ "0000")). split; [reflexivity|apply take_4_padded].
  - left. reflexivity.
Qed.

(** X4: whatever the input, a code returned by [format_cipcode] has at
    least two characters before its first dot, and, when it has a dot,
    exactly four characters after the first one. *)
Theorem format_cipcode_result_shape (val : value) (code : string) :
  format_cipcode val = Ok (Some code) ->
  (2 <= String.length (fst (Py.split_dot code)))%nat
  /\ (forall r, snd (Py.split_dot code) = Some r -> String.length r = 4%nat).
Proof.
  intros H. destruct (format_cipcode_parts val code H) as (l & Hd & Hl & [->|(r & -> & Hr)]).
  - rewrite (split_dot_none l Hd). cbn [fst snd]. split; [exact Hl|discriminate].
  - rewrite (split_dot_app l r Hd). cbn [fst snd]. split; [exact Hl|].
    intros r' E. injection E as <-. exact Hr.
Qed.

Lemma format_cipcode_result_shape_witness :
  format_cipcode (VStr "1.2.3") = Ok (Some "01.2.30")
  /\ (2 <= String.length (fst (Py.split_dot "01.2.30")))%nat
  /\ (forall r, snd (Py.split_dot "01.2.30") = Some r -> String.length r = 4%nat).
Proof.
  split; [reflexivity|].
  exact (format_cipcode_result_shape (VStr "1.2.3") "01.2.30" eq_refl).
Defined.

(** ** The de-wrapping utility on wrapped and on bare texts *)

Lemma rstrip_keeps_last (t : string) (c : ascii) :
  Py.isspace c = false -> Py.rstrip (t ++ String c "") = t ++ String c "".
Proof.
  intros Hc. induction t as [|a t IH]; cbn [String.append Py.rstrip].
  - rewrite Hc. reflexivity.
  - rewrite IH. destruct t; reflexivity.
Qed.

Lemma quote_then_text_not_eol (t : string) :
  Re.at_eol (t ++ String Py.dquote "") = false.
Proof. destruct t as [|a [|b t]]; reflexivity. Qed.

Lemma sub_from_match (r : Re.regex) (repl : string) (fuel pos : nat) (s : string)
    (p : nat) (t : string) (ws : list (nat * string)) :
  Re.matches r pos s = (p, t) :: ws -> Nat.ltb pos p = true ->
  Re.sub_from r repl (S fuel) pos s = repl ++ Re.sub_from r repl fuel p t.
Proof. intros Hm Hl. cbn [Re.sub_from]. rewrite Hm, Hl. reflexivity. Qed.

(** After the first character, the pattern removes the closing quote of
    the text and nothing else. *)
Lemma sub_wrapper_closing_quote (body : string) :
  forall fuel pos : nat,
    (0 < pos)%nat -> (String.length body + 1 < fuel)%nat ->
    Re.sub_from wrapper_pattern "" fuel pos (body ++ String Py.dquote "") = body.
Proof.
  induction body as [|a t IH]; intros fuel pos Hp Hf.
  - destruct fuel as [|fuel]; [cbn in Hf; lia|].
    cbn [String.append Re.sub_from].
    unfold wrapper_pattern.
    change (Re.matches (Re.Alt ?r1 ?r2) pos ?s)
      with (Re.matches r1 pos s ++ Re.matches r2 pos s)%list.
    rewrite wrapper_head_no_match by (intros E; lia).
    cbn [Re.matches app Ascii.eqb Bool.eqb Py.dquote flat_map fst snd Re.at_eol].
    assert (L : Nat.ltb pos (S pos) = true) by (apply Nat.ltb_lt; lia).
    rewrite L. destruct fuel; reflexivity.
  - destruct fuel as [|fuel]; [cbn in Hf; lia|].
    cbn [String.length] in Hf.
    cbn [String.append Re.sub_from].
    assert (N : Re.matches wrapper_pattern pos (String a (t ++ String Py.dquote "")) = []).
    { unfold wrapper_pattern.
      change (Re.matches (Re.Alt ?r1 ?r2) pos ?s)
        with (Re.matches r1 pos s ++ Re.matches r2 pos s)%list.
      rewrite wrapper_head_no_match by (intros E; lia).
      cbn [Re.matches app].
      destruct (Ascii.eqb a Py.dquote); [|reflexivity].
      cbn [flat_map fst snd app]. rewrite quote_then_text_not_eol. reflexivity. }
    rewrite N. f_equal. apply IH; lia.
Qed.

(** X5: a value written with the wrapper, [=], a quote, a text and a quote,
    is de-wrapped to that text, trimmed; quotes and [=] inside the text
    stay. *)
Theorem dewrap_wrapped (body : string) :
  dewrap (String "=" (String Py.dquote (body ++ String Py.dquote ""))) = Py.strip body.
Proof.
  unfold dewrap.
  assert (S1 : Py.strip (String "=" (String Py.dquote (body ++ String Py.dquote "")))
               = String "=" (String Py.dquote (body ++ String Py.dquote ""))).
  { unfold Py.strip. cbn [Py.lstrip].
    change (Py.isspace "=") with false. cbn iota.
    exact (rstrip_keeps_last (String "=" (String Py.dquote body)) Py.dquote eq_refl). }
  rewrite S1. unfold Re.sub.
  rewrite (sub_from_match wrapper_pattern "" _ 0
             (String "=" (String Py.dquote (body ++ String Py.dquote "")))
             2 (body ++ String Py.dquote "")
             [(1%nat, String Py.dquote (body ++ String Py.dquote ""))] eq_refl eq_refl).
  rewrite sub_wrapper_closing_quote; [reflexivity|lia|].
  cbn [String.length]. rewrite append_length. cbn [String.length]. lia.
Qed.

(** X6: a text that, once trimmed, neither starts with [=] nor ends with a
    double quote is only trimmed. *)
Theorem dewrap_bare (x : string) :
  starts_with "=" (Py.strip x) = false ->
  ends_with Py.dquote (Py.strip x) = false ->
  dewrap x = Py.strip x.
Proof.
  intros Hs Hq. unfold dewrap, Re.sub.
  rewrite sub_wrapper_fixed; auto using strip_idem, strip_no_trailing_newline.
Qed.

Lemma dewrap_bare_witness :
  starts_with "=" (Py.strip " 01.0101 ") = false
  /\ ends_with Py.dquote (Py.strip " 01.0101 ") = false
  /\ dewrap " 01.0101 " = "01.0101".
Proof.
  split; [reflexivity|]. split; [reflexivity|].
  exact (dewrap_bare " 01.0101 " eq_refl eq_refl).
Defined.

(** ** The pipeline, step by step *)

Lemma research_final_unfold (a : args) (w : fs)
    (df : list completion) (hd : list directory_entry) (cip_raw : list taxonomy_entry) :
  lookup (completions_path a) (files w) = Some (CompletionsCsv df) ->
  lookup (hd_path a) (files w) = Some (DirectoryCsv hd) ->
  lookup (cip_path a) (files w) = Some (TaxonomyCsv cip_raw) ->
  research_final a w =
    (bigten_unitids <- load_bigten_unitids (bigten_unitids_path a) ;;
     research <- lift (rmap research_of (df_bigten_of df hd bigten_unitids)) ;;
     ret (map final_row (joined_of cip_raw research)))%m w.
Proof.
  intros H1 H2 H3. unfold research_final.
  unfold bind at 1. unfold read_completions, bind at 1, open_file. rewrite H1.
  unfold ret at 1.
  unfold bind at 1. unfold read_directory, bind at 1, open_file. rewrite H2.
  unfold ret at 1.
  unfold bind at 1. unfold read_taxonomy, bind at 1, open_file. rewrite H3.
  reflexivity.
Qed.

Lemma open_file_ok (p : path) (w w1 : fs) (f : file) :
  open_file p w = (Ok f, w1) -> lookup p (files w) = Some f /\ w1 = w.
Proof.
  unfold open_file. destruct (lookup p (files w)) as [g|].
  - intros H. injection H as -> ->. auto.
  - destruct (is_dir w p); discriminate.
Qed.

(** What a successful [research_final] has read and computed. *)
Lemma research_final_inv (a : args) (w w1 : fs) (t : list research_row) :
  research_final a w = (Ok t, w1) ->
  exists df hd cip_raw ids base,
    lookup (completions_path a) (files w) = Some (CompletionsCsv df)
    /\ lookup (hd_path a) (files w) = Some (DirectoryCsv hd)
    /\ lookup (cip_path a) (files w) = Some (TaxonomyCsv cip_raw)
    /\ load_bigten_unitids (bigten_unitids_path a) w = (Ok ids, w)
    /\ rmap research_of (df_bigten_of df hd ids) = Ok base
    /\ t = map final_row (joined_of cip_raw base)
    /\ w1 = w.
Proof.
  intros H.
  pose proof (read_only_research_final a w) as Hw. rewrite H in Hw. cbn [snd] in Hw.
  subst w1.
  assert (R : exists df hd cip_raw,
             lookup (completions_path a) (files w) = Some (CompletionsCsv df)
             /\ lookup (hd_path a) (files w) = Some (DirectoryCsv hd)
             /\ lookup (cip_path a) (files w) = Some (TaxonomyCsv cip_raw)).
  { revert H. unfold research_final.
    unfold bind at 1. unfold read_completions, bind at 1.
    destruct (open_file (completions_path a) w) as [[f1|e1] w2] eqn:E1; [|discriminate].
    apply open_file_ok in E1 as [E1 ->].
    destruct f1 as [df| | | |]; try discriminate. unfold ret at 1.
    unfold bind at 1. unfold read_directory, bind at 1.
    destruct (open_file (hd_path a) w) as [[f2|e2] w2] eqn:E2; [|discriminate].
    apply open_file_ok in E2 as [E2 ->].
    destruct f2 as [|hd| | |]; try discriminate. unfold ret at 1.
    unfold bind at 1. unfold read_taxonomy, bind at 1.
    destruct (open_file (cip_path a) w) as [[f3|e3] w2] eqn:E3; [|discriminate].
    apply open_file_ok in E3 as [E3 ->].
    destruct f3 as [| |cip_raw| |]; try discriminate.
    intros _. exists df, hd, cip_raw. auto. }
  destruct R as (df & hd & cip_raw & H1 & H2 & H3).
  rewrite (research_final_unfold a w df hd cip_raw H1 H2 H3) in H.
  unfold bind, lift, ret in H.
  pose proof (read_only_load_bigten_unitids (bigten_unitids_path a) w) as Hl.
  destruct (load_bigten_unitids (bigten_unitids_path a) w) as [[ids|e] w2];
    cbn [snd] in Hl; subst w2; [|discriminate].
  destruct (rmap research_of (df_bigten_of df hd ids)) as [base|e] eqn:Eb; [|discriminate].
  injection H as <-.
  exists df, hd, cip_raw, ids, base. repeat split; auto.
Qed.

Lemma rmap_ok_in {A B : Type} (f : A -> result B) (xs : list A) (ys : list B) :
  rmap f xs = Ok ys ->
  (forall y, In y ys -> exists x, In x xs /\ f x = Ok y)
  /\ (forall x, In x xs -> exists y, In y ys /\ f x = Ok y)
  /\ List.length ys = List.length xs.
Proof.
  revert ys. induction xs as [|x xs IH]; intros ys; cbn [rmap rbind].
  - intros H. injection H as <-. repeat split; intros ? [].
  - destruct (f x) as [y|e] eqn:Ex; [|discriminate].
    destruct (rmap f xs) as [ys'|e] eqn:Er; [|discriminate].
    intros H. injection H as <-. destruct (IH ys' eq_refl) as (I1 & I2 & I3).
    split; [|split].
    + intros y0 [<-|Hy]; [exists x; split; [left; reflexivity|exact Ex]|].
      destruct (I1 y0 Hy) as (x0 & Hx & Hf). exists x0. split; [right; exact Hx|exact Hf].
    + intros x0 [<-|Hx]; [exists y; split; [left; reflexivity|exact Ex]|].
      destruct (I2 x0 Hx) as (y0 & Hy & Hf). exists y0. split; [right; exact Hy|exact Hf].
    + cbn [List.length]. rewrite I3. reflexivity.
Qed.

Lemma merge_left_complete {L R : Type} (same_key : L -> R -> bool)
    (lrows : list L) (rrows : list R) (l : L) :
  In l lrows -> exists o, In (l, o) (merge_left same_key lrows rrows).
Proof.
  intros Hl. unfold merge_left.
  destruct (filter (same_key l) rrows) as [|m ms] eqn:Ef.
  - exists None. apply in_flat_map. exists l. split; [exact Hl|]. rewrite Ef. left. reflexivity.
  - exists (Some m). apply in_flat_map. exists l. split; [exact Hl|]. rewrite Ef.
    left. reflexivity.
Qed.

Lemma existsb_Zeqb (x : Z) (xs : list Z) : existsb (Z.eqb x) xs = true <-> In x xs.
Proof.
  rewrite existsb_exists. split.
  - intros (y & Hy & E). apply Z.eqb_eq in E. subst. exact Hy.
  - intros H. exists x. split; [exact H|apply Z.eqb_refl].
Qed.

Lemma research_of_fields (row : completion * option directory_entry) (b : base_row) :
  research_of row = Ok b ->
  r_unitid b = UNITID (fst row)
  /\ format_cipcode (CIPCODE (fst row)) = Ok (r_cipcode b)
  /\ r_cip2 b = cip2_of (r_cipcode b)
  /\ r_major_number b = MAJORNUM (fst row)
  /\ r_award_level_code b = AWLEVEL (fst row)
  /\ r_award_count_total b = CTOTALT (fst row)
  /\ r_institution b = match snd row with Some d => INSTNM d | None => None end.
Proof.
  unfold research_of, rbind.
  destruct (format_cipcode (CIPCODE (fst row))) as [code|e]; [|discriminate].
  intros H. injection H as <-. cbn. repeat split; reflexivity.
Qed.

(** The rows of the table, as rows of the completions table that are on the
    allow-list. *)
Lemma research_final_row_origin (df : list completion) (hd : list directory_entry)
    (cip_raw : list taxonomy_entry) (ids : list Z) (base : list base_row) :
  rmap research_of (df_bigten_of df hd ids) = Ok base ->
  (forall r, In r (map final_row (joined_of cip_raw base)) ->
     exists c, In c df /\ In (UNITID c) ids /\ carried_over c r)
  /\ (forall c, In c df -> In (UNITID c) ids ->
        exists r, In r (map final_row (joined_of cip_raw base)) /\ carried_over c r).
Proof.
  intros Hb. destruct (rmap_ok_in _ _ _ Hb) as (B1 & B2 & _). split.
  - intros r Hr. apply in_map_iff in Hr as ([[b o2] o6] & <- & Hin).
    unfold joined_of in Hin.
    apply merge_left_in in Hin as (Hin & _). apply merge_left_in in Hin as (Hin & _).
    destruct (B1 b Hin) as (row & Hrow & Hf).
    unfold df_bigten_of in Hrow. apply filter_In in Hrow as [Hm Hid].
    destruct row as [c d]. apply merge_left_in in Hm as (Hc & _).
    apply existsb_Zeqb in Hid. cbn [fst] in Hid.
    destruct (research_of_fields _ _ Hf) as (F1 & F2 & _ & F4 & F5 & F6 & _).
    exists c. split; [exact Hc|]. split; [exact Hid|].
    unfold carried_over. cbn [final_row unitid cipcode major_number award_level_code
                               award_count_total fst snd]. auto.
  - intros c Hc Hid.
    destruct (merge_left_complete (fun c d => Z.eqb (UNITID c) (hd_UNITID d)) df
                (hd_names_of hd) c Hc) as (d & Hm).
    assert (Hrow : In (c, d) (df_bigten_of df hd ids)).
    { unfold df_bigten_of. apply filter_In. split; [exact Hm|].
      apply existsb_Zeqb. exact Hid. }
    destruct (B2 _ Hrow) as (b & Hbin & Hf).
    destruct (merge_left_complete (fun r row => key_matches (r_cip2 r) row) base
                (cip2_lookup_of cip_raw) b Hbin) as (o2 & H2).
    destruct (merge_left_complete (fun l row => key_matches (r_cipcode (fst l)) row) _
                (cip6_lookup_of cip_raw) (b, o2) H2) as (o6 & H6).
    exists (final_row (b, o2, o6)). split.
    + apply in_map_iff. exists (b, o2, o6). split; [reflexivity|exact H6].
    + destruct (research_of_fields _ _ Hf) as (F1 & F2 & _ & F4 & F5 & F6 & _).
      unfold carried_over. cbn [final_row unitid cipcode major_number award_level_code
                                 award_count_total fst snd]. auto.
Qed.

(** X7: every row of the table that [build] assembles comes from a row of
    the completions table whose institution is on the allow-list, with its
    identifier, major number, award level and award count unchanged and its
    code normalized by [format_cipcode]. *)
Theorem research_rows_come_from_allow_listed_completions
    (a : args) (w w1 : fs) (t : list research_row) (r : research_row) :
  research_final a w = (Ok t, w1) ->
  In r t ->
  exists df ids c,
    lookup (completions_path a) (files w) = Some (CompletionsCsv df)
    /\ load_bigten_unitids (bigten_unitids_path a) w = (Ok ids, w)
    /\ In c df /\ In (UNITID c) ids /\ carried_over c r.
Proof.
  intros Ht Hr.
  destruct (research_final_inv a w w1 t Ht)
    as (df & hd & cip_raw & ids & base & H1 & _ & _ & Hl & Hb & -> & _).
  destruct (research_final_row_origin df hd cip_raw ids base Hb) as [S _].
  destruct (S r Hr) as (c & Hc & Hid & Hco).
  exists df, ids, c. auto.
Qed.

(** X8: no allow-listed completion is lost: every row of the completions
    table whose institution is on the allow-list has a row in the table,
    whether or not the directory and the taxonomy know it. *)
Theorem allow_listed_completions_are_kept
    (a : args) (w w1 : fs) (t : list research_row)
    (df : list completion) (ids : list Z) (c : completion) :
  research_final a w = (Ok t, w1) ->
  lookup (completions_path a) (files w) = Some (CompletionsCsv df) ->
  load_bigten_unitids (bigten_unitids_path a) w = (Ok ids, w) ->
  In c df -> In (UNITID c) ids ->
  exists r, In r t /\ carried_over c r.
Proof.
  intros Ht H1 Hl Hc Hid.
  destruct (research_final_inv a w w1 t Ht)
    as (df' & hd & cip_raw & ids' & base & H1' & _ & _ & Hl' & Hb & -> & _).
  rewrite H1 in H1'. injection H1' as <-. rewrite Hl in Hl'. injection Hl' as <-.
  destruct (research_final_row_origin df hd cip_raw ids base Hb) as [_ C].
  exact (C c Hc Hid).
Qed.

Lemma rows_origin_witness :
  research_final default_args eighteen_fs = (Ok eighteen_rows, eighteen_fs)
  /\ In scenario_row eighteen_rows
  /\ lookup (completions_path default_args) (files eighteen_fs)
     = Some (CompletionsCsv eighteen_completions)
  /\ load_bigten_unitids (bigten_unitids_path default_args) eighteen_fs
     = (Ok BIGTEN_UNITIDS, eighteen_fs)
  /\ In scenario_completion eighteen_completions
  /\ In (UNITID scenario_completion) BIGTEN_UNITIDS
  /\ (exists df ids c,
         lookup (completions_path default_args) (files eighteen_fs)
         = Some (CompletionsCsv df)
         /\ load_bigten_unitids (bigten_unitids_path default_args) eighteen_fs
            = (Ok ids, eighteen_fs)
         /\ In c df /\ In (UNITID c) ids /\ carried_over c scenario_row).
Proof.
  assert (R : research_final default_args eighteen_fs = (Ok eighteen_rows, eighteen_fs))
    by (vm_compute; reflexivity).
  assert (I : In scenario_row eighteen_rows) by (left; reflexivity).
  split; [exact R|]. split; [exact I|]. split; [reflexivity|]. split; [reflexivity|].
  split; [left; reflexivity|]. split; [left; reflexivity|].
  exact (research_rows_come_from_allow_listed_completions
           default_args eighteen_fs eighteen_fs eighteen_rows scenario_row R I).
Defined.

Lemma completions_kept_witness :
  research_final default_args eighteen_fs = (Ok eighteen_rows, eighteen_fs)
  /\ lookup (completions_path default_args) (files eighteen_fs)
     = Some (CompletionsCsv eighteen_completions)
  /\ load_bigten_unitids (bigten_unitids_path default_args) eighteen_fs
     = (Ok BIGTEN_UNITIDS, eighteen_fs)
  /\ In scenario_completion eighteen_completions
  /\ In (UNITID scenario_completion) BIGTEN_UNITIDS
  /\ (exists r, In r eighteen_rows /\ carried_over scenario_completion r).
Proof.
  assert (R : research_final default_args eighteen_fs = (Ok eighteen_rows, eighteen_fs))
    by (vm_compute; reflexivity).
  assert (I1 : In scenario_completion eighteen_completions) by (left; reflexivity).
  assert (I2 : In (UNITID scenario_completion) BIGTEN_UNITIDS) by (left; reflexivity).
  split; [exact R|]. split; [reflexivity|]. split; [reflexivity|].
  split; [exact I1|]. split; [exact I2|].
  exact (allow_listed_completions_are_kept default_args eighteen_fs eighteen_fs
           eighteen_rows eighteen_completions BIGTEN_UNITIDS scenario_completion
           R eq_refl eq_refl I1 I2).
Defined.

(** ** Columns of the table *)

Lemma research_final_base_rows (a : args) (w w1 : fs) (t : list research_row)
    (r : research_row) :
  research_final a w = (Ok t, w1) ->
  In r t ->
  exists (b : base_row) (o2 o6 : option (string * string))
         (row : completion * option directory_entry),
    r = final_row (b, o2, o6) /\ research_of row = Ok b.
Proof.
  intros Ht Hr.
  destruct (research_final_inv a w w1 t Ht)
    as (df & hd & cip_raw & ids & base & _ & _ & _ & _ & Hb & -> & _).
  apply in_map_iff in Hr as ([[b o2] o6] & <- & Hin).
  unfold joined_of in Hin.
  apply merge_left_in in Hin as (Hin & _). apply merge_left_in in Hin as (Hin & _).
  destruct (rmap_ok_in _ _ _ Hb) as (B1 & _).
  destruct (B1 b Hin) as (row & _ & Hf).
  exists b, o2, o6, row. auto.
Qed.

(** X9: in every row of the table, [cip2] is the text of [cipcode] before
    its first dot, at least two characters long, and is missing exactly
    when [cipcode] is: the second zero-padding of [build] changes
    nothing. *)
Theorem cip2_is_left_part_of_cipcode
    (a : args) (w w1 : fs) (t : list research_row) (r : research_row) :
  research_final a w = (Ok t, w1) ->
  In r t ->
  cip2 r = option_map (fun c => fst (Py.split_dot c)) (cipcode r)
  /\ (forall c2, cip2 r = Some c2 -> (2 <= String.length c2)%nat).
Proof.
  intros Ht Hr.
  destruct (research_final_base_rows a w w1 t r Ht Hr) as (b & o2 & o6 & row & -> & Hf).
  destruct (research_of_fields _ _ Hf) as (_ & Hc & H2 & _).
  cbn [final_row cip2 cipcode fst snd]. rewrite H2.
  destruct (r_cipcode b) as [code|]; cbn [cip2_of option_map].
  2:{ split; [reflexivity|discriminate]. }
  destruct (format_cipcode_parts _ _ Hc) as (l & Hd & Hl & [->|(r' & -> & _)]).
  - rewrite (split_dot_none l Hd). cbn [fst]. rewrite zfill_long by exact Hl.
    split; [reflexivity|]. intros c2 E. injection E as <-. exact Hl.
  - rewrite (split_dot_app l r' Hd). cbn [fst]. rewrite zfill_long by exact Hl.
    split; [reflexivity|]. intros c2 E. injection E as <-. exact Hl.
Qed.

Lemma cip2_left_part_witness :
  research_final default_args eighteen_fs = (Ok eighteen_rows, eighteen_fs)
  /\ In scenario_row eighteen_rows
  /\ cip2 scenario_row
     = option_map (fun c => fst (Py.split_dot c)) (cipcode scenario_row).
Proof.
  assert (R : research_final default_args eighteen_fs = (Ok eighteen_rows, eighteen_fs))
    by (vm_compute; reflexivity).
  assert (I : In scenario_row eighteen_rows) by (left; reflexivity).
  split; [exact R|]. split; [exact I|].
  exact (proj1 (cip2_is_left_part_of_cipcode default_args eighteen_fs eighteen_fs
                  eighteen_rows scenario_row R I)).
Defined.

Ltac label_cases :=
  repeat match goal with
    | H : _ /\ _ |- _ => destruct H
    | H : _ \/ _ |- _ => destruct H
    end;
  try reflexivity; try discriminate; try congruence.

(** X10: in every row of the table the two label columns agree with the
    award level: [degree_group] is missing exactly when [award_level_name]
    is, which is for the levels other than 5, 7 and 17; level 5 is
    [Bachelors] in both, levels 7 and 17 are [Graduate]. *)
Theorem award_labels_agree
    (a : args) (w w1 : fs) (t : list research_row) (r : research_row) :
  research_final a w = (Ok t, w1) ->
  In r t ->
  (degree_group r = None <-> award_level_name r = None)
  /\ (award_level_name r = None
      <-> award_level_code r <> Some 5 /\ award_level_code r <> Some 7
          /\ award_level_code r <> Some 17)
  /\ (award_level_code r = Some 5
      -> award_level_name r = Some "Bachelors" /\ degree_group r = Some "Bachelors")
  /\ (award_level_code r = Some 7 \/ award_level_code r = Some 17
      -> degree_group r = Some "Graduate").
Proof.
  intros Ht Hr.
  destruct (research_final_base_rows a w w1 t r Ht Hr) as (b & o2 & o6 & row & -> & _).
  cbn [final_row degree_group award_level_name award_level_code fst snd].
  unfold degree_group_of, award_level_labels.
  destruct (r_award_level_code b) as [c|]; cbn [existsb orb].
  2:{ repeat split; intros; label_cases. }
  destruct (Z.eqb_spec c 5) as [->|N5]; cbn [Z.eqb orb];
    [repeat split; intros; label_cases|].
  destruct (Z.eqb_spec c 7) as [->|N7]; cbn [orb];
    [repeat split; intros; label_cases|].
  destruct (Z.eqb_spec c 17) as [->|N17]; cbn [orb];
    repeat split; intros; label_cases.
Qed.

Lemma award_labels_witness :
  research_final default_args eighteen_fs = (Ok eighteen_rows, eighteen_fs)
  /\ In codeless_row eighteen_rows
  /\ award_level_code codeless_row = Some 17
  /\ degree_group codeless_row = Some "Graduate".
Proof.
  assert (R : research_final default_args eighteen_fs = (Ok eighteen_rows, eighteen_fs))
    by (vm_compute; reflexivity).
  assert (I : In codeless_row eighteen_rows) by (do 19 right; left; reflexivity).
  split; [exact R|]. split; [exact I|]. split; [reflexivity|].
  destruct (award_labels_agree default_args eighteen_fs eighteen_fs eighteen_rows
              codeless_row R I) as (_ & _ & _ & H).
  apply H. right. reflexivity.
Defined.

(** ** Guardrails that cannot fail, and the empty table *)

Lemma count_none {A : Type} (p : A -> bool) (xs : list A) :
  (forall x, In x xs -> p x = false) -> count p xs = 0%nat.
Proof.
  intros H. unfold count. induction xs as [|x xs IH]; [reflexivity|].
  cbn [filter]. rewrite (H x (or_introl eq_refl)). apply IH.
  intros y Hy. apply H. right. exact Hy.
Qed.

(** X11: after the fills no title is missing, so on a table that [build]
    has assembled the second and third guardrail never fail: the guardrails
    pass exactly when the table holds 18 institutions, and otherwise [build]
    raises the institution-count error and writes nothing. *)
Theorem only_the_institution_guardrail_can_fail
    (a : args) (w w1 : fs) (t : list research_row) :
  research_final a w = (Ok t, w1) ->
  count (fun r => is_none (cip2_title r)) t = 0%nat
  /\ count (fun r => is_none (cip6_title r)) (filter is_cip6 t) = 0%nat
  /\ (guardrails t = Ok tt <-> nunique (map unitid t) = 18%nat)
  /\ (nunique (map unitid t) <> 18%nat ->
      build a w =
        (Raise (ValueError ("Expected 18 Big Ten institutions, got "
                              ++ Repr.int (Z.of_nat (nunique (map unitid t))))), w)).
Proof.
  intros Ht.
  assert (H2 : count (fun r => is_none (cip2_title r)) t = 0%nat).
  { apply count_none. intros r Hr.
    destruct (research_final_base_rows a w w1 t r Ht Hr) as (b & o2 & o6 & row & -> & _).
    cbn [final_row cip2_title fst snd]. destruct o2; reflexivity. }
  assert (H6 : count (fun r => is_none (cip6_title r)) (filter is_cip6 t) = 0%nat).
  { apply count_none. intros r Hr. apply filter_In in Hr as [Hr _].
    destruct (research_final_base_rows a w w1 t r Ht Hr) as (b & o2 & o6 & row & -> & _).
    cbn [final_row cip6_title fst snd]. destruct o6; reflexivity. }
  split; [exact H2|]. split; [exact H6|]. split.
  - rewrite guardrails_ok_iff. split; [intros (H & _); exact H|auto].
  - intros Hn.
    pose proof (read_only_research_final a w) as Hw. rewrite Ht in Hw. cbn [snd] in Hw.
    subst w1. apply (build_raise a w t _ Ht).
    unfold guardrails.
    destruct (Nat.eqb_spec (nunique (map unitid t)) 18); [contradiction|reflexivity].
Qed.

Lemma institution_guardrail_witness :
  research_final default_args scenario_fs = (Ok [scenario_row], scenario_fs)
  /\ nunique (map unitid [scenario_row]) <> 18%nat
  /\ build default_args scenario_fs
     = (Raise (ValueError "Expected 18 Big Ten institutions, got 1"), scenario_fs).
Proof.
  assert (R : research_final default_args scenario_fs = (Ok [scenario_row], scenario_fs))
    by (vm_compute; reflexivity).
  assert (N : nunique (map unitid [scenario_row]) <> 18%nat) by (vm_compute; discriminate).
  split; [exact R|]. split; [exact N|].
  destruct (only_the_institution_guardrail_can_fail default_args scenario_fs scenario_fs
              [scenario_row] R) as (_ & _ & _ & H).
  exact (H N).
Defined.

(** X12: when the three inputs are read and no row of the completions
    table belongs to an institution of the allow-list (an empty completions
    table included), the table is empty and [build] raises
    "Expected 18 Big Ten institutions, got 0" and writes nothing. *)
Theorem no_allow_listed_completion_aborts
    (a : args) (w : fs) (df : list completion) (hd : list directory_entry)
    (cip_raw : list taxonomy_entry) (ids : list Z) :
  lookup (completions_path a) (files w) = Some (CompletionsCsv df) ->
  lookup (hd_path a) (files w) = Some (DirectoryCsv hd) ->
  lookup (cip_path a) (files w) = Some (TaxonomyCsv cip_raw) ->
  load_bigten_unitids (bigten_unitids_path a) w = (Ok ids, w) ->
  (forall c, In c df -> ~ In (UNITID c) ids) ->
  research_final a w = (Ok [], w)
  /\ build a w = (Raise (ValueError "Expected 18 Big Ten institutions, got 0"), w).
Proof.
  intros H1 H2 H3 Hl Hno.
  assert (E : df_bigten_of df hd ids = []).
  { unfold df_bigten_of.
    destruct (filter _ _) as [|[c d] rows] eqn:Ef; [reflexivity|]. exfalso.
    assert (Hin : In (c, d) (filter
              (fun row => existsb (Z.eqb (UNITID (fst row))) ids)
              (merge_left (fun c d => Z.eqb (UNITID c) (hd_UNITID d)) df (hd_names_of hd))))
      by (rewrite Ef; left; reflexivity).
    apply filter_In in Hin as [Hm Hid]. apply merge_left_in in Hm as (Hc & _).
    apply existsb_Zeqb in Hid. exact (Hno c Hc Hid). }
  assert (R : research_final a w = (Ok [], w)).
  { rewrite (research_final_unfold a w df hd cip_raw H1 H2 H3).
    unfold bind at 1. rewrite Hl. unfold bind, lift, ret. rewrite E. reflexivity. }
  split; [exact R|]. apply (build_raise a w [] _ R). reflexivity.
Qed.

Lemma no_allow_listed_witness :
  lookup (completions_path default_args) (files outsider_fs)
  = Some (CompletionsCsv
            [ {| UNITID := 100654; CIPCODE := cip_3_0104;
                 MAJORNUM := Some 1; AWLEVEL := Some 5; CTOTALT := Some 40 |} ])
  /\ load_bigten_unitids (bigten_unitids_path default_args) outsider_fs
     = (Ok BIGTEN_UNITIDS, outsider_fs)
  /\ ~ In 100654 BIGTEN_UNITIDS
  /\ build default_args outsider_fs
     = (Raise (ValueError "Expected 18 Big Ten institutions, got 0"), outsider_fs).
Proof.
  assert (N : ~ In 100654 BIGTEN_UNITIDS).
  { intros H. cbn in H. repeat (destruct H as [H|H]; [discriminate H|]). exact H. }
  split; [reflexivity|]. split; [reflexivity|]. split; [exact N|].
  refine (proj2 (no_allow_listed_completion_aborts default_args outsider_fs _ _ _
                   BIGTEN_UNITIDS eq_refl eq_refl eq_refl eq_refl _)).
  intros c [<-|[]]. exact N.
Defined.

(** ** What [build] does to the files *)

Lemma path_eqb_eq (p q : path) : path_eqb p q = true <-> p = q.
Proof.
  unfold path_eqb. destruct (list_eq_dec string_dec p q); split; congruence.
Qed.

Lemma lookup_store_other {A : Type} (p q : path) (a : A) (xs : list (path * A)) :
  q <> p -> lookup q (store p a xs) = lookup q xs.
Proof.
  intros Hq. induction xs as [|[k b] t IH]; cbn [store lookup].
  - destruct (path_eqb q p) eqn:E; [apply path_eqb_eq in E; contradiction|reflexivity].
  - destruct (path_eqb p k) eqn:Epk; cbn [lookup].
    + apply path_eqb_eq in Epk. subst k.
      destruct (path_eqb q p) eqn:E; [apply path_eqb_eq in E; contradiction|reflexivity].
    + rewrite IH. reflexivity.
Qed.

Lemma store_store {A : Type} (p : path) (a : A) (xs : list (path * A)) :
  store p a (store p a xs) = store p a xs.
Proof.
  induction xs as [|[k b] t IH]; cbn [store].
  - rewrite path_eqb_refl. reflexivity.
  - destruct (path_eqb p k) eqn:E; cbn [store]; rewrite ?path_eqb_refl, ?E, ?IH; reflexivity.
Qed.

Lemma is_dir_grows (w : fs) (more : list path) (d : path) :
  is_dir {| files := files w; dirs := dirs w ++ more |} d
  = (is_dir w d || existsb (path_eqb d) more)%bool.
Proof.
  unfold is_dir. cbn [dirs]. destruct d; [reflexivity|]. apply existsb_app.
Qed.

(** The states that [check_and_write] can end in. *)
Lemma check_and_write_states (t : list research_row) (out : path) (w w' : fs)
    (r : result path) :
  check_and_write t out w = (r, w') ->
  let w1 := {| files := files w;
               dirs := dirs w ++ filter (fun d => negb (is_dir w d)) (ancestors (parent out)) |} in
  ((exists e, r = Raise e) /\ (w' = w \/ w' = w1))
  \/ (r = Ok out
      /\ guardrails t = Ok tt
      /\ lookup (parent out) (files w) = None
      /\ existsb (fun d => match lookup d (files w) with Some _ => true | None => false end)
           (ancestors (parent out)) = false
      /\ is_dir w1 out = false
      /\ w' = {| files := store out (ResearchCsv t) (files w); dirs := dirs w1 |}).
Proof.
  unfold check_and_write, bind, lift, mkdir_parents, to_csv, ret.
  destruct (guardrails t) as [[]|e]; [|intros H; injection H as <- <-; left; eauto].
  destruct (lookup (parent out) (files w)) as [f|] eqn:Ep;
    [intros H; injection H as <- <-; left; eauto|].
  destruct (existsb _ (ancestors (parent out))) eqn:Ea;
    [intros H; injection H as <- <-; left; eauto|].
  match goal with
  | |- context [is_dir ?w1 out] => destruct (is_dir w1 out) eqn:Eo
  end; [intros H; injection H as <- <-; left; eauto|].
  match goal with
  | |- context [is_dir ?w1 (parent out)] => destruct (is_dir w1 (parent out)) eqn:Epd
  end; cbn [negb]; [|intros H; injection H as <- <-; left; eauto].
  intros H. injection H as <- <-. right. repeat split; auto.
Qed.

(** X13: whatever its outcome, [build] leaves every file other than the
    output file as it was, removes no directory, and creates no directory
    but the parent of the output file and the directories above it; when it
    raises, the output file too is as it was. *)
Theorem build_touches_only_the_output (a : args) (w w' : fs) (r : result path) :
  build a w = (r, w') ->
  (forall q, q <> out_path a -> lookup q (files w') = lookup q (files w))
  /\ (forall d, is_dir w d = true -> is_dir w' d = true)
  /\ (forall d, In d (dirs w') ->
        In d (dirs w) \/ In d (ancestors (parent (out_path a))))
  /\ ((exists e, r = Raise e) ->
      lookup (out_path a) (files w') = lookup (out_path a) (files w)).
Proof.
  unfold build, bind.
  pose proof (read_only_research_final a w) as Hw.
  destruct (research_final a w) as [[t|e] w1]; cbn [snd] in Hw; subst w1.
  2:{ intros H. injection H as <- <-. repeat split; auto. }
  intros H. apply check_and_write_states in H. cbv zeta in H.
  assert (W1 : forall w1,
             w1 = {| files := files w;
                     dirs := dirs w ++ filter (fun d => negb (is_dir w d))
                                         (ancestors (parent (out_path a))) |} ->
             (forall d, is_dir w d = true -> is_dir w1 d = true)
             /\ (forall d, In d (dirs w1) ->
                   In d (dirs w) \/ In d (ancestors (parent (out_path a))))).
  { intros w1 ->. split.
    - intros d Hd. rewrite is_dir_grows, Hd. reflexivity.
    - intros d Hd. cbn [dirs] in Hd. apply in_app_iff in Hd as [Hd|Hd]; [left; exact Hd|].
      apply filter_In in Hd as [Hd _]. right. exact Hd. }
  destruct H as [[He [->| ->]]|(-> & _ & _ & _ & _ & ->)].
  - repeat split; auto.
  - destruct (W1 _ eq_refl) as [D1 D2]. repeat split; auto.
  - destruct (W1 _ eq_refl) as [D1 D2]. split; [|split; [|split]].
    + intros q Hq. cbn [files]. apply lookup_store_other. exact Hq.
    + intros d Hd. specialize (D1 d Hd). exact D1.
    + exact D2.
    + intros (e & E). discriminate E.
Qed.

Lemma build_touches_only_witness :
  build default_args eighteen_fs = (Ok (out_path default_args), eighteen_written)
  /\ lookup (completions_path default_args) (files eighteen_written)
     = lookup (completions_path default_args) (files eighteen_fs).
Proof.
  assert (B : build default_args eighteen_fs = (Ok (out_path default_args), eighteen_written))
    by (vm_compute; reflexivity).
  split; [exact B|].
  destruct (build_touches_only_the_output default_args eighteen_fs eighteen_written _ B)
    as (H & _).
  apply H. discriminate.
Defined.

(** ** Running [build] again *)

Lemma ancestors_spec (d a : path) :
  In a (ancestors d) -> a <> [] /\ (List.length a <= List.length d)%nat.
Proof.
  revert a. induction d as [|c d IH]; intros a; cbn [ancestors]; [intros []|].
  intros [<-|H].
  - split; [discriminate|]. cbn [List.length]. lia.
  - apply in_map_iff in H as (b & <- & Hb). destruct (IH b Hb) as [_ L].
    split; [discriminate|]. cbn [List.length]. lia.
Qed.

Lemma removelast_shorter {A : Type} (p : list A) :
  p <> [] -> (List.length (removelast p) < List.length p)%nat.
Proof.
  induction p as [|x p IH]; [congruence|]. intros _.
  destruct p as [|y p]; [cbn; lia|].
  change (removelast (x :: y :: p)) with (x :: removelast (y :: p)).
  cbn [List.length] in *. specialize (IH ltac:(discriminate)). lia.
Qed.

(** The loader looks at nothing but the file and the directory at its
    path. *)
Lemma load_bigten_unitids_same_view (p : option path) (w w' : fs) :
  match p with
  | None => True
  | Some q => lookup q (files w') = lookup q (files w) /\ is_dir w' q = is_dir w q
  end ->
  load_bigten_unitids p w' = (fst (load_bigten_unitids p w), w').
Proof.
  destruct p as [q|]; [|reflexivity]. intros [Hl Hd].
  destruct (lookup q (files w)) as [f|] eqn:E.
  - rewrite (load_existing_file q w f E), (load_existing_file q w' f Hl).
    unfold bind, ret, raise, lift.
    destruct (has_column "UNITID" (frame_of f));
      [|destruct (has_column "unitid" (frame_of f)); [|reflexivity]];
      (match goal with
       | |- context [get_column ?c ?d] => destruct (get_column c d) as [cells|]
       end; [|reflexivity]);
      (match goal with
       | |- context [rmap astype_int ?x] => destruct (rmap astype_int x) as [[|u us]|]
       end; reflexivity).
  - unfold load_bigten_unitids, bind, path_exists. rewrite Hl, E, Hd.
    destruct (is_dir w q) eqn:Ed; cbn [negb]; [|reflexivity].
    unfold read_csv, bind, open_file. rewrite Hl, E, Hd, Ed. reflexivity.
Qed.

Lemma existsb_agree {A : Type} (f g : A -> bool) (xs : list A) :
  (forall x, In x xs -> f x = g x) -> existsb f xs = existsb g xs.
Proof.
  induction xs as [|x xs IH]; intros H; [reflexivity|].
  change (existsb f (x :: xs)) with (f x || existsb f xs)%bool.
  change (existsb g (x :: xs)) with (g x || existsb g xs)%bool.
  rewrite (H x (or_introl eq_refl)), IH; [reflexivity|].
  intros y Hy. apply H. right. exact Hy.
Qed.

Lemma ancestors_self (d : path) : d <> [] -> In d (ancestors d).
Proof.
  induction d as [|c l IH]; [congruence|]. intros _. cbn [ancestors].
  destruct l as [|y l]; [left; reflexivity|].
  right. apply in_map. apply IH. discriminate.
Qed.

(** X14: a second run gives the same result: when [build] has succeeded,
    the output path is none of the three input paths, and the allow-list
    path (if any) is neither the output path nor one of the directories
    above it, running [build] again on the file system it left succeeds
    with the same path and leaves the file system as it is. *)
Theorem build_again_changes_nothing (a : args) (w w' : fs) (p : path) :
  build a w = (Ok p, w') ->
  out_path a <> completions_path a ->
  out_path a <> hd_path a ->
  out_path a <> cip_path a ->
  match bigten_unitids_path a with
  | None => True
  | Some q => q <> out_path a /\ ~ In q (ancestors (parent (out_path a)))
  end ->
  build a w' = (Ok p, w').
Proof.
  intros Hb N1 N2 N3 Hq.
  set (out := out_path a) in *.
  set (new := filter (fun d => negb (is_dir w d)) (ancestors (parent out))).
  assert (Hb' := Hb). unfold build, bind in Hb'.
  pose proof (read_only_research_final a w) as Hw.
  destruct (research_final a w) as [[t|e] w0] eqn:Ht; cbn [snd] in Hw; subst w0;
    [|discriminate].
  apply check_and_write_states in Hb'. cbv zeta in Hb'. fold out new in Hb'.
  destruct Hb' as [[(e & E) _]|(Ep & Hg & Hpar & Hanc & Hout & Ew)]; [discriminate E|].
  injection Ep as ->. cbn [dirs] in Ew.
  assert (Hne : out <> []).
  { intros E. rewrite E in Hout. discriminate Hout. }
  assert (Hfiles : forall q, q <> out -> lookup q (files w') = lookup q (files w)).
  { intros q Hn. rewrite Ew. cbn [files]. apply lookup_store_other. exact Hn. }
  assert (Hdirs : forall d, is_dir w' d = (is_dir w d || existsb (path_eqb d) new)%bool).
  { intros d. rewrite Ew. apply (is_dir_grows w new d). }
  assert (Hanc_ne : forall d, In d (ancestors (parent out)) -> d <> out).
  { intros d Hd E. subst d. apply ancestors_spec in Hd as [_ L].
    pose proof (removelast_shorter out Hne) as S. unfold parent in L. lia. }
  (* the table is the same *)
  destruct (research_final_inv a w w t Ht)
    as (df & hd & cip_raw & ids & base & H1 & H2 & H3 & Hl & Hbase & Et & _).
  assert (Hl' : load_bigten_unitids (bigten_unitids_path a) w' = (Ok ids, w')).
  { rewrite (load_bigten_unitids_same_view (bigten_unitids_path a) w w'), Hl; [reflexivity|].
    destruct (bigten_unitids_path a) as [q|]; [|exact I]. destruct Hq as [Q1 Q2].
    split; [apply Hfiles; exact Q1|].
    rewrite Hdirs.
    assert (F : existsb (path_eqb q) new = false).
    { destruct (existsb (path_eqb q) new) eqn:E; [|reflexivity]. exfalso.
      apply existsb_exists in E as (d & Hd & Ed). apply path_eqb_eq in Ed. subst d.
      apply filter_In in Hd as [Hd _]. exact (Q2 Hd). }
    rewrite F. apply orb_false_r. }
  assert (Ht' : research_final a w' = (Ok t, w')).
  { rewrite (research_final_unfold a w' df hd cip_raw).
    - unfold bind at 1. rewrite Hl'. unfold bind, lift, ret. rewrite Hbase, Et. reflexivity.
    - rewrite Hfiles by (intros E; apply N1; symmetry; exact E). exact H1.
    - rewrite Hfiles by (intros E; apply N2; symmetry; exact E). exact H2.
    - rewrite Hfiles by (intros E; apply N3; symmetry; exact E). exact H3. }
  (* the checks and the write are the same *)
  unfold build, bind. rewrite Ht'. fold out.
  unfold check_and_write, bind, lift, mkdir_parents, to_csv, ret. rewrite Hg.
  assert (Hpar_ne : parent out <> out).
  { intros E. pose proof (removelast_shorter out Hne) as S. unfold parent in E.
    rewrite E in S. lia. }
  rewrite (Hfiles (parent out) Hpar_ne), Hpar.
  assert (Hanc' : existsb (fun d => match lookup d (files w') with
                                    | Some _ => true | None => false end)
                    (ancestors (parent out)) = false).
  { rewrite (existsb_agree _ (fun d => match lookup d (files w) with
                                       | Some _ => true | None => false end));
      [exact Hanc|].
    intros d Hd. rewrite (Hfiles d (Hanc_ne d Hd)). reflexivity. }
  rewrite Hanc'.
  assert (Hnone : filter (fun d => negb (is_dir w' d)) (ancestors (parent out)) = []).
  { destruct (filter (fun d => negb (is_dir w' d)) (ancestors (parent out)))
      as [|d ds] eqn:Ef; [reflexivity|]. exfalso.
    assert (Hd : In d (filter (fun d => negb (is_dir w' d)) (ancestors (parent out))))
      by (rewrite Ef; left; reflexivity).
    apply filter_In in Hd as [Hd Hn]. rewrite Hdirs in Hn.
    destruct (is_dir w d) eqn:E; [discriminate Hn|]. cbn [orb] in Hn.
    assert (Hin : In d new) by (apply filter_In; rewrite E; auto).
    assert (Hex : existsb (path_eqb d) new = true).
    { apply existsb_exists. exists d. split; [exact Hin|apply path_eqb_refl]. }
    rewrite Hex in Hn. discriminate Hn. }
  rewrite Hnone, app_nil_r.
  assert (Hsame : {| files := files w'; dirs := dirs w' |} = w') by (destruct w'; reflexivity).
  rewrite Hsame.
  assert (Hout' : is_dir w' out = false).
  { rewrite <- Hout. rewrite Ew. reflexivity. }
  rewrite Hout'.
  assert (Hpd : is_dir w' (parent out) = true).
  { destruct (parent out) as [|c d] eqn:Epo; [reflexivity|].
    rewrite Hdirs. destruct (is_dir w (c :: d)) eqn:E; [reflexivity|]. cbn [orb].
    apply existsb_exists. exists (c :: d). split; [|apply path_eqb_refl].
    apply filter_In. rewrite E. split; [|reflexivity].
    apply ancestors_self. discriminate. }
  rewrite Hpd. cbn [negb].
  f_equal. rewrite Ew at 2. rewrite Ew. cbn [files dirs]. rewrite store_store. reflexivity.
Qed.

Lemma build_again_witness :
  build default_args eighteen_fs = (Ok (out_path default_args), eighteen_written)
  /\ out_path default_args <> completions_path default_args
  /\ out_path default_args <> hd_path default_args
  /\ out_path default_args <> cip_path default_args
  /\ build default_args eighteen_written = (Ok (out_path default_args), eighteen_written).
Proof.
  assert (B : build default_args eighteen_fs = (Ok (out_path default_args), eighteen_written))
    by (vm_compute; reflexivity).
  split; [exact B|]. split; [discriminate|]. split; [discriminate|]. split; [discriminate|].
  apply (build_again_changes_nothing default_args eighteen_fs eighteen_written _ B).
  - discriminate.
  - discriminate.
  - discriminate.
  - cbn [bigten_unitids_path default_args]. split; [discriminate|].
    vm_compute. intros H. repeat (destruct H as [H|H]; [discriminate H|]). exact H.
Defined.

(** ** The allow-list loader on a column of integers *)




(** ** Frame operations *)

Section DropDuplicates.
Context {A : Type}.
Variable eqb : A -> A -> bool.
Hypothesis eqb_eq : forall x y, eqb x y = true <-> x = y.

Lemma existsb_eqb_in (x : A) (xs : list A) : existsb (eqb x) xs = true <-> In x xs.
Proof.
  rewrite existsb_exists. split.
  - intros (y & Hy & E). apply eqb_eq in E. subst. exact Hy.
  - intros H. exists x. split; [exact H|apply eqb_eq; reflexivity].
Qed.

Lemma drop_duplicates_from_in (seen xs : list A) (x : A) :
  In x (drop_duplicates_from eqb seen xs) <-> In x xs /\ ~ In x seen.
Proof.
  revert seen. induction xs as [|y xs IH]; intros seen; cbn [drop_duplicates_from].
  - split; [intros []|intros [[] _]].
  - destruct (existsb (eqb y) seen) eqn:E.
    + apply existsb_eqb_in in E. rewrite IH. split.
      * intros [H1 H2]. split; [right; exact H1|exact H2].
      * intros [[<-|H1] H2]; [contradiction|auto].
    + assert (Hy : ~ In y seen).
      { intros H. apply existsb_eqb_in in H. congruence. }
      cbn [In]. rewrite IH. cbn [In]. split.
      * intros [<-|[H1 H2]]; [auto|]. split; [right; exact H1|tauto].
      * intros [[<-|H1] H2]; [left; reflexivity|].
        destruct (eqb y x) eqn:Eyx; [apply eqb_eq in Eyx; left; exact Eyx|].
        right. split; [exact H1|]. intros [<-|H]; [|contradiction].
        assert (eqb y y = true) by (apply eqb_eq; reflexivity). congruence.
Qed.

Lemma drop_duplicates_from_nodup (seen xs : list A) :
  NoDup (drop_duplicates_from eqb seen xs).
Proof.
  revert seen. induction xs as [|y xs IH]; intros seen; cbn [drop_duplicates_from].
  - constructor.
  - destruct (existsb (eqb y) seen); [apply IH|].
    constructor; [|apply IH].
    rewrite drop_duplicates_from_in. intros [_ H]. apply H. left. reflexivity.
Qed.

Lemma drop_duplicates_in (xs : list A) (x : A) :
  In x (drop_duplicates eqb xs) <-> In x xs.
Proof.
  unfold drop_duplicates. rewrite drop_duplicates_from_in. cbn [In]. tauto.
Qed.

Lemma drop_duplicates_nodup (xs : list A) : NoDup (drop_duplicates eqb xs).
Proof. apply drop_duplicates_from_nodup. Qed.
End DropDuplicates.

Lemma dropna_in {A : Type} (xs : list (option A)) (a : A) :
In a (dropna xs) <-> In (Some a) xs.
Proof.
induction xs as [|[b|] xs IH]; cbn [dropna In].
- tauto.
- rewrite IH. split; [intros [->|H]; auto|intros [E|H]; [injection E; auto|auto]].
- rewrite IH. split; [auto|intros [E|H]; [discriminate E|exact H]].
Qed.

Lemma string_order (s t : string) :
(String.ltb s t = true -> String.leb s t = true)
/\ (String.ltb s t = false -> String.leb t s = true).
Proof.
unfold String.ltb, String.leb. rewrite (String.compare_antisym t s).
destruct (String.compare s t); cbn; split; congruence.
Qed.

Section SortValues.
Context {A : Type}.
Variable key : A -> string.

Lemma insert_sorted_in (x y : A) (xs : list A) :
  In y (insert_sorted key x xs) <-> y = x \/ In y xs.
Proof.
  induction xs as [|z xs IH]; cbn [insert_sorted In].
  - split; [intros [<-|[]]; auto|intros [->|[]]; auto].
  - destruct (String.ltb (key x) (key z)); cbn [In]; [|rewrite IH];
      intuition congruence.
Qed.

Lemma insert_sorted_nodup (x : A) (xs : list A) :
  NoDup xs -> ~ In x xs -> NoDup (insert_sorted key x xs).
Proof.
  induction xs as [|z xs IH]; cbn [insert_sorted]; intros Hn Hx.
  - constructor; [intros []|constructor].
  - destruct (String.ltb (key x) (key z)); [constructor; assumption|].
    inversion Hn as [|? ? Hz Hn']; subst.
    constructor.
    + rewrite insert_sorted_in. intros [->|H]; [apply Hx; left; reflexivity|contradiction].
    + apply IH; [exact Hn'|]. intros H. apply Hx. right. exact H.
Qed.

Lemma insert_sorted_ascending (x : A) (xs : list A) :
  ascending (map key xs) = true -> ascending (map key (insert_sorted key x xs)) = true.
Proof.
  induction xs as [|z xs IH]; [reflexivity|].
  cbn [insert_sorted]. destruct (String.ltb (key x) (key z)) eqn:E.
  - intros H. change (ascending (key x :: key z :: map key xs) = true).
    cbn [ascending]. rewrite (proj1 (string_order _ _) E).
    exact H.
  - intros H. specialize (proj2 (string_order _ _) E) as Hzx.
    assert (Hxs : ascending (map key xs) = true).
    { destruct xs as [|u xs]; [reflexivity|]. cbn [map ascending] in H.
      apply andb_prop in H as [_ H]. exact H. }
    specialize (IH Hxs).
    destruct xs as [|u xs].
    + cbn [insert_sorted map ascending]. rewrite Hzx. reflexivity.
    + cbn [insert_sorted] in IH |- *.
      destruct (String.ltb (key x) (key u)) eqn:E2.
      * cbn [map ascending] in IH |- *. rewrite Hzx. exact IH.
      * cbn [map ascending] in H. apply andb_prop in H as [Hzu _].
        change (ascending (key z :: map key (u :: insert_sorted key x xs)) = true).
        cbn [map ascending]. rewrite Hzu. exact IH.
Qed.

Lemma insert_sorted_nodup_app (x : A) (xs acc : list A) :
  NoDup (xs ++ acc) -> ~ In x (xs ++ acc) -> NoDup (xs ++ insert_sorted key x acc).
Proof.
  induction xs as [|u xs IH]; cbn [app]; intros Hn Hx.
  - apply insert_sorted_nodup; assumption.
  - inversion Hn as [|? ? Hu Hn']; subst. constructor.
    + rewrite in_app_iff, insert_sorted_in. rewrite in_app_iff in Hu.
      intros [H|[->|H]]; [tauto| |tauto]. apply Hx. left. reflexivity.
    + apply IH; [exact Hn'|]. intros H. apply Hx. right. exact H.
Qed.

Lemma sort_values_acc (xs acc : list A) :
  (forall y, In y (fold_left (fun acc x => insert_sorted key x acc) xs acc)
             <-> In y xs \/ In y acc)
  /\ (NoDup (xs ++ acc) ->
      NoDup (fold_left (fun acc x => insert_sorted key x acc) xs acc))
  /\ (ascending (map key acc) = true ->
      ascending (map key (fold_left (fun acc x => insert_sorted key x acc) xs acc)) = true).
Proof.
  revert acc. induction xs as [|x xs IH]; intros acc; cbn [fold_left app].
  - split; [intros y; cbn [In]; tauto|]. split; auto.
  - destruct (IH (insert_sorted key x acc)) as (I1 & I2 & I3). split; [|split].
    + intros y. rewrite I1, insert_sorted_in. cbn [In]. intuition congruence.
    + intros Hn. apply I2. inversion Hn as [|? ? Hx Hn']; subst.
      apply insert_sorted_nodup_app; assumption.
    + intros Ha. apply I3. apply insert_sorted_ascending. exact Ha.
Qed.

Lemma sort_values_in (xs : list A) (y : A) : In y (sort_values key xs) <-> In y xs.
Proof.
  unfold sort_values. rewrite (proj1 (sort_values_acc xs [])). cbn [In]. tauto.
Qed.

Lemma sort_values_nodup (xs : list A) : NoDup xs -> NoDup (sort_values key xs).
Proof.
  intros H. apply (proj1 (proj2 (sort_values_acc xs []))). rewrite app_nil_r. exact H.
Qed.

Lemma sort_values_ascending (xs : list A) :
  ascending (map key (sort_values key xs)) = true.
Proof. apply (proj2 (proj2 (sort_values_acc xs []))). reflexivity. Qed.
End SortValues.

(** ** The lookup tables *)

Lemma pair_eqb_eq (x y : string * string) : pair_eqb x y = true <-> x = y.
Proof.
  destruct x as [a b], y as [c d]. unfold pair_eqb. cbn [fst snd].
  rewrite andb_true_iff, !String.eqb_eq. split.
  - intros [-> ->]. reflexivity.
  - intros E. injection E as -> ->. auto.
Qed.

Lemma lookup_rows_in {A : Type} (f g : A -> option string) (xs : list A) (k t : string) :
  In (k, t) (dropna (map (fun e => pair_of_options (f e) (g e)) xs))
  <-> exists e, In e xs /\ f e = Some k /\ g e = Some t.
Proof.
  rewrite dropna_in, in_map_iff. split.
  - intros (e & E & He). exists e. split; [exact He|].
    destruct (f e), (g e); cbn in E; try discriminate. injection E as -> ->. auto.
  - intros (e & He & Hf & Hg). exists e. rewrite Hf, Hg. auto.
Qed.

Lemma cip6_lookup_in (cip_raw : list taxonomy_entry) (k t : string) :
  In (k, t) (cip6_lookup_of cip_raw)
  <-> cip6_shape k
      /\ exists e, In e cip_raw
                   /\ option_map dewrap (CIPCode e) = Some k
                   /\ option_map Py.strip (CIPTitle e) = Some t.
Proof.
  unfold cip6_lookup_of.
  rewrite filter_In, (drop_duplicates_in pair_eqb pair_eqb_eq).
  rewrite (lookup_rows_in (fun e => option_map dewrap (CIPCode e))
                          (fun e => option_map Py.strip (CIPTitle e))).
  cbn [fst fullmatch_cip6]. rewrite fullmatch_cip6_iff. tauto.
Qed.

Lemma cip2_lookup_in (cip_raw : list taxonomy_entry) (k t : string) :
  In (k, t) (cip2_lookup_of cip_raw)
  <-> exists e, In e cip_raw
                /\ cip2_of (option_map dewrap (CIPCode e)) = Some k
                /\ option_map Py.strip (CIPFamily e) = Some t.
Proof.
  unfold cip2_lookup_of.
  rewrite sort_values_in, (drop_duplicates_in pair_eqb pair_eqb_eq).
  apply (lookup_rows_in (fun e => cip2_of (option_map dewrap (CIPCode e)))
                        (fun e => option_map Py.strip (CIPFamily e))).
Qed.

Lemma cip6_lookup_nodup (cip_raw : list taxonomy_entry) : NoDup (cip6_lookup_of cip_raw).
Proof.
  unfold cip6_lookup_of. apply NoDup_filter.
  apply (drop_duplicates_nodup pair_eqb pair_eqb_eq).
Qed.

Lemma cip2_lookup_nodup (cip_raw : list taxonomy_entry) : NoDup (cip2_lookup_of cip_raw).
Proof.
  unfold cip2_lookup_of. apply sort_values_nodup.
  apply (drop_duplicates_nodup pair_eqb pair_eqb_eq).
Qed.

(** X16: the table [cip6_lookup] of [build] holds exactly the pairs of a
    code of the shape NN.NNNN and a title that some taxonomy row gives, the
    code with its spreadsheet wrapper removed and the title stripped, where
    both cells are present; and it holds no pair twice. *)
Theorem cip6_lookup_rows (cip_raw : list taxonomy_entry) :
  (forall k t,
      In (k, t) (cip6_lookup_of cip_raw)
      <-> cip6_shape k
          /\ exists e, In e cip_raw
                       /\ option_map dewrap (CIPCode e) = Some k
                       /\ option_map Py.strip (CIPTitle e) = Some t)
  /\ NoDup (cip6_lookup_of cip_raw).
Proof.
  split; [intros k t; apply cip6_lookup_in|apply cip6_lookup_nodup].
Qed.

(** X17: the table [cip2_lookup] of [build] holds exactly the pairs of a
    two-digit family key and a family text that some taxonomy row gives
    where both cells are present; it holds no pair twice and its keys are in
    ascending order. *)
Theorem cip2_lookup_rows (cip_raw : list taxonomy_entry) :
  (forall k t,
      In (k, t) (cip2_lookup_of cip_raw)
      <-> exists e, In e cip_raw
                    /\ cip2_of (option_map dewrap (CIPCode e)) = Some k
                    /\ option_map Py.strip (CIPFamily e) = Some t)
  /\ NoDup (cip2_lookup_of cip_raw)
  /\ ascending (map fst (cip2_lookup_of cip_raw)) = true.
Proof.
  split; [intros k t; apply cip2_lookup_in|].
  split; [apply cip2_lookup_nodup|].
  unfold cip2_lookup_of. apply sort_values_ascending.
Qed.

(** ** Where the joined columns come from *)

Lemma directory_entry_eqb_eq (x y : directory_entry) :
  (Z.eqb (hd_UNITID x) (hd_UNITID y) && option_eqb String.eqb (INSTNM x) (INSTNM y))%bool = true
  <-> x = y.
Proof.
  destruct x as [u n], y as [u' n']. cbn [hd_UNITID INSTNM].
  rewrite andb_true_iff, Z.eqb_eq. split.
  - intros [-> E]. destruct n as [s|], n' as [s'|]; cbn in E; try discriminate.
    + apply String.eqb_eq in E. subst. reflexivity.
    + reflexivity.
  - intros E. injection E as -> ->. split; [reflexivity|].
    destruct n' as [s|]; cbn; [apply String.eqb_refl|reflexivity].
Qed.

Lemma hd_names_of_in (hd : list directory_entry) (d : directory_entry) :
  In d (hd_names_of hd) <-> In d hd.
Proof. apply (drop_duplicates_in _ directory_entry_eqb_eq). Qed.

Lemma key_matches_in (key : option string) (rows : list (string * string))
    (o : option (string * string)) :
  match o with
  | Some row => In row rows /\ key_matches key row = true
  | None => forall row, In row rows -> key_matches key row = false
  end ->
  match o with
  | Some row => In row rows /\ key = Some (fst row)
  | None => forall row, In row rows -> key <> Some (fst row)
  end.
Proof.
  destruct o as [row|].
  - intros [H K]. split; [exact H|].
    unfold key_matches in K. destruct key as [k|]; [|discriminate].
    apply String.eqb_eq in K. congruence.
  - intros H row Hrow E. specialize (H row Hrow). unfold key_matches in H.
    rewrite E in H. rewrite String.eqb_refl in H. discriminate.
Qed.

(** Every row of the table, with the rows of the three joins it was made of. *)
Lemma research_final_row_parts (a : args) (w w1 : fs) (t : list research_row)
    (r : research_row) :
  research_final a w = (Ok t, w1) ->
  In r t ->
  exists hd cip_raw b o2 o6 c d,
    lookup (hd_path a) (files w) = Some (DirectoryCsv hd)
    /\ lookup (cip_path a) (files w) = Some (TaxonomyCsv cip_raw)
    /\ r = final_row (b, o2, o6)
    /\ research_of (c, d) = Ok b
    /\ match d with
       | Some e => In e hd /\ hd_UNITID e = UNITID c
       | None => forall e, In e hd -> hd_UNITID e <> UNITID c
       end
    /\ match o2 with
       | Some row => In row (cip2_lookup_of cip_raw) /\ r_cip2 b = Some (fst row)
       | None => forall row, In row (cip2_lookup_of cip_raw) -> r_cip2 b <> Some (fst row)
       end
    /\ match o6 with
       | Some row => In row (cip6_lookup_of cip_raw) /\ r_cipcode b = Some (fst row)
       | None => forall row, In row (cip6_lookup_of cip_raw) -> r_cipcode b <> Some (fst row)
       end.
Proof.
  intros Ht Hr.
  destruct (research_final_inv a w w1 t Ht)
    as (df & hd & cip_raw & ids & base & L1 & L2 & L3 & L4 & Hb & -> & _).
  apply in_map_iff in Hr as ([[b o2] o6] & <- & Hin).
  unfold joined_of in Hin.
  apply merge_left_in in Hin as (Hin & H6). cbn [fst] in H6.
  apply merge_left_in in Hin as (Hin & H2).
  destruct (rmap_ok_in _ _ _ Hb) as (B1 & _).
  destruct (B1 b Hin) as ([c d] & Hrow & Hf).
  unfold df_bigten_of in Hrow. apply filter_In in Hrow as [Hm _].
  apply merge_left_in in Hm as (_ & Hd).
  exists hd, cip_raw, b, o2, o6, c, d.
  split; [exact L2|]. split; [exact L3|]. split; [reflexivity|]. split; [exact Hf|].
  split; [|split].
  - destruct d as [e|].
    + destruct Hd as [He K]. apply (proj1 (hd_names_of_in _ _)) in He. apply Z.eqb_eq in K.
      cbn [fst] in K. split; [exact He|symmetry; exact K].
    + intros e He E. specialize (Hd e (proj2 (hd_names_of_in _ _) He)).
      cbn [fst] in Hd. apply Z.eqb_neq in Hd. congruence.
  - apply key_matches_in. exact H2.
  - apply key_matches_in. exact H6.
Qed.

(** X18: the institution name of a row of the table is the name that some
    row of the directory gives for the row's UNITID; when the directory has
    no row for that UNITID the name is missing. *)
Theorem institution_comes_from_the_directory (a : args) (w w1 : fs)
    (t : list research_row) (r : research_row) :
  research_final a w = (Ok t, w1) ->
  In r t ->
  exists hd,
    lookup (hd_path a) (files w) = Some (DirectoryCsv hd)
    /\ ((exists d, In d hd /\ hd_UNITID d = unitid r /\ INSTNM d = institution r)
        \/ (institution r = None /\ forall d, In d hd -> hd_UNITID d <> unitid r)).
Proof.
  intros Ht Hr.
  destruct (research_final_row_parts a w w1 t r Ht Hr)
    as (hd & cip_raw & b & o2 & o6 & c & d & L2 & _ & -> & Hf & Hd & _).
  exists hd. split; [exact L2|].
  destruct (research_of_fields _ _ Hf) as (F1 & _ & _ & _ & _ & _ & F7).
  cbn [fst snd] in F1, F7. cbn [final_row unitid institution fst].
  rewrite F1, F7. destruct d as [e|].
  - left. exists e. destruct Hd as [He E]. auto.
  - right. split; [reflexivity|exact Hd].
Qed.

Lemma institution_witness :
  research_final default_args eighteen_fs = (Ok eighteen_rows, eighteen_fs)
  /\ In scenario_row eighteen_rows
  /\ (exists hd,
         lookup (hd_path default_args) (files eighteen_fs) = Some (DirectoryCsv hd)
         /\ ((exists d, In d hd /\ hd_UNITID d = unitid scenario_row
                         /\ INSTNM d = institution scenario_row)
             \/ (institution scenario_row = None
                 /\ forall d, In d hd -> hd_UNITID d <> unitid scenario_row))).
Proof.
  assert (R : research_final default_args eighteen_fs = (Ok eighteen_rows, eighteen_fs))
    by (vm_compute; reflexivity).
  assert (I : In scenario_row eighteen_rows) by (left; reflexivity).
  split; [exact R|]. split; [exact I|].
  exact (institution_comes_from_the_directory
           default_args eighteen_fs eighteen_fs eighteen_rows scenario_row R I).
Defined.

(** X19: the CIP6 title of a row of the table is the stripped title that
    some taxonomy row gives for the row's code, and then the code has the
    shape NN.NNNN; otherwise it is the text for codes that are no CIP6
    program, and then the code has not that shape or no taxonomy row gives
    a title for it. *)
Theorem cip6_title_comes_from_the_taxonomy (a : args) (w w1 : fs)
    (t : list research_row) (r : research_row) :
  research_final a w = (Ok t, w1) ->
  In r t ->
  exists cip_raw,
    lookup (cip_path a) (files w) = Some (TaxonomyCsv cip_raw)
    /\ ((exists e k title,
            In e cip_raw
            /\ cipcode r = Some k /\ option_map dewrap (CIPCode e) = Some k
            /\ cip6_title r = Some title /\ option_map Py.strip (CIPTitle e) = Some title
            /\ is_cip6 r = true)
        \/ (cip6_title r = Some "Not a CIP6 program (aggregate / unclassified)"
            /\ (is_cip6 r = false
                \/ forall e, In e cip_raw ->
                             option_map dewrap (CIPCode e) = cipcode r ->
                             CIPTitle e = None))).
Proof.
  intros Ht Hr.
  destruct (research_final_row_parts a w w1 t r Ht Hr)
    as (hd & cip_raw & b & o2 & o6 & c & d & _ & L3 & -> & _ & _ & _ & H6).
  exists cip_raw. split; [exact L3|].
  pose proof (cip6_lookup_in cip_raw) as Hrows.
  cbn [final_row cipcode cip6_title is_cip6 fst snd].
  destruct o6 as [[k title]|].
  - left. destruct H6 as [Hin Hk]. cbn [fst] in Hk.
    apply Hrows in Hin as (Hs & e & He & E1 & E2).
    exists e, k, title. rewrite Hk. cbn [option_map snd fillna fullmatch_cip6].
    repeat (split; [assumption || reflexivity|]).
    apply fullmatch_cip6_iff. exact Hs.
  - right. split; [reflexivity|].
    destruct (fullmatch_cip6 (r_cipcode b)) eqn:Ef; [right|left; reflexivity].
    destruct (r_cipcode b) as [k|]; [|discriminate]. cbn [fullmatch_cip6] in Ef.
    apply fullmatch_cip6_iff in Ef.
    intros e He E. destruct (CIPTitle e) as [title|] eqn:Et; [exfalso|reflexivity].
    apply (H6 (k, Py.strip title)); [|reflexivity].
    apply Hrows. split; [exact Ef|]. exists e. rewrite Et. auto.
Qed.

Lemma cip6_title_witness :
  research_final default_args eighteen_fs = (Ok eighteen_rows, eighteen_fs)
  /\ In scenario_row eighteen_rows
  /\ (exists cip_raw,
         lookup (cip_path default_args) (files eighteen_fs) = Some (TaxonomyCsv cip_raw)
         /\ ((exists e k title,
                 In e cip_raw
                 /\ cipcode scenario_row = Some k /\ option_map dewrap (CIPCode e) = Some k
                 /\ cip6_title scenario_row = Some title
                 /\ option_map Py.strip (CIPTitle e) = Some title
                 /\ is_cip6 scenario_row = true)
             \/ (cip6_title scenario_row = Some "Not a CIP6 program (aggregate / unclassified)"
                 /\ (is_cip6 scenario_row = false
                     \/ forall e, In e cip_raw ->
                                  option_map dewrap (CIPCode e) = cipcode scenario_row ->
                                  CIPTitle e = None)))).
Proof.
  assert (R : research_final default_args eighteen_fs = (Ok eighteen_rows, eighteen_fs))
    by (vm_compute; reflexivity).
  assert (I : In scenario_row eighteen_rows) by (left; reflexivity).
  split; [exact R|]. split; [exact I|].
  exact (cip6_title_comes_from_the_taxonomy
           default_args eighteen_fs eighteen_fs eighteen_rows scenario_row R I).
Defined.

(** X20: the CIP2 title of a row of the table is the stripped family text
    that some taxonomy row of the same two-digit family gives; otherwise it
    is the text written for family 99, whatever the family of the row is,
    and then no taxonomy row of that family has a family text. *)
Theorem cip2_title_comes_from_the_taxonomy (a : args) (w w1 : fs)
    (t : list research_row) (r : research_row) :
  research_final a w = (Ok t, w1) ->
  In r t ->
  exists cip_raw,
    lookup (cip_path a) (files w) = Some (TaxonomyCsv cip_raw)
    /\ ((exists e k title,
            In e cip_raw
            /\ cip2 r = Some k /\ cip2_of (option_map dewrap (CIPCode e)) = Some k
            /\ cip2_title r = Some title
            /\ option_map Py.strip (CIPFamily e) = Some title)
        \/ (cip2_title r = Some "99 - Unclassified / Not in CIP taxonomy"
            /\ forall e k, In e cip_raw ->
                           cip2 r = Some k ->
                           cip2_of (option_map dewrap (CIPCode e)) = Some k ->
                           CIPFamily e = None)).
Proof.
  intros Ht Hr.
  destruct (research_final_row_parts a w w1 t r Ht Hr)
    as (hd & cip_raw & b & o2 & o6 & c & d & _ & L3 & -> & _ & _ & H2 & _).
  exists cip_raw. split; [exact L3|].
  pose proof (cip2_lookup_in cip_raw) as Hrows.
  cbn [final_row cip2 cip2_title fst snd].
  destruct o2 as [[k title]|].
  - left. destruct H2 as [Hin Hk]. cbn [fst] in Hk.
    apply Hrows in Hin as (e & He & E1 & E2).
    exists e, k, title. rewrite Hk. cbn [option_map snd fillna].
    repeat (split; [assumption || reflexivity|]). exact E2.
  - right. split; [reflexivity|].
    intros e k He Ek E. destruct (CIPFamily e) as [title|] eqn:Et; [exfalso|reflexivity].
    apply (H2 (k, Py.strip title)); [|exact Ek].
    apply Hrows. exists e. rewrite Et. auto.
Qed.

Lemma cip2_title_witness :
  research_final default_args eighteen_fs = (Ok eighteen_rows, eighteen_fs)
  /\ In scenario_row eighteen_rows
  /\ (exists cip_raw,
         lookup (cip_path default_args) (files eighteen_fs) = Some (TaxonomyCsv cip_raw)
         /\ ((exists e k title,
                 In e cip_raw
                 /\ cip2 scenario_row = Some k
                 /\ cip2_of (option_map dewrap (CIPCode e)) = Some k
                 /\ cip2_title scenario_row = Some title
                 /\ option_map Py.strip (CIPFamily e) = Some title)
             \/ (cip2_title scenario_row = Some "99 - Unclassified / Not in CIP taxonomy"
                 /\ forall e k, In e cip_raw ->
                                cip2 scenario_row = Some k ->
                                cip2_of (option_map dewrap (CIPCode e)) = Some k ->
                                CIPFamily e = None))).
Proof.
  assert (R : research_final default_args eighteen_fs = (Ok eighteen_rows, eighteen_fs))
    by (vm_compute; reflexivity).
  assert (I : In scenario_row eighteen_rows) by (left; reflexivity).
  split; [exact R|]. split; [exact I|].
  exact (cip2_title_comes_from_the_taxonomy
           default_args eighteen_fs eighteen_fs eighteen_rows scenario_row R I).
Defined.

(** ** One row for each completion *)

Lemma merge_left_chunk {L R : Type} (same_key : L -> R -> bool) (l : L) (rrows : list R) :
  let chunk := match filter (same_key l) rrows with
               | [] => [(l, None)]
               | ms => map (fun r => (l, Some r)) ms
               end in
  chunk <> [] /\ forall row, In row chunk -> fst row = l.
Proof.
  destruct (filter (same_key l) rrows) as [|m ms]; cbn zeta.
  - split; [discriminate|]. intros row [<-|[]]. reflexivity.
  - split; [discriminate|]. intros row Hrow.
    apply in_map_iff in Hrow as (r & <- & _). reflexivity.
Qed.

Lemma filter_all {A : Type} (p : A -> bool) (xs : list A) :
  (forall x, In x xs -> p x = true) -> filter p xs = xs.
Proof.
  induction xs as [|x xs IH]; intros H; cbn [filter]; [reflexivity|].
  rewrite (H x (or_introl eq_refl)). f_equal. apply IH. intros y Hy. apply H. right. exact Hy.
Qed.

Lemma merge_left_filter_length {L R : Type} (same_key : L -> R -> bool) (p : L -> bool)
    (lrows : list L) (rrows : list R) :
  (List.length (filter p lrows)
   <= List.length (filter (fun row => p (fst row)) (merge_left same_key lrows rrows)))%nat.
Proof.
  unfold merge_left. induction lrows as [|l ls IH]; cbn [flat_map filter]; [apply le_n|].
  rewrite filter_app, length_app.
  destruct (merge_left_chunk same_key l rrows) as [Hne Hfst]. cbn zeta in Hne, Hfst.
  destruct (match filter (same_key l) rrows with
            | [] => [(l, None)]
            | m :: ms => map (fun r => (l, Some r)) (m :: ms)
            end) as [|c cs]; [congruence|].
  destruct (p l) eqn:Ep.
  - rewrite (filter_all (fun row => p (fst row)) (c :: cs)).
    + cbn [List.length]. lia.
    + intros row Hrow. rewrite (Hfst row Hrow). exact Ep.
  - lia.
Qed.

Lemma merge_left_length {L R : Type} (same_key : L -> R -> bool)
    (lrows : list L) (rrows : list R) :
  (List.length lrows <= List.length (merge_left same_key lrows rrows))%nat.
Proof.
  pose proof (merge_left_filter_length same_key (fun _ => true) lrows rrows) as H.
  rewrite !filter_all in H by reflexivity. exact H.
Qed.

(** A key that occurs once in the right table has at most one partner. *)
Lemma filter_unique_key {R K : Type} (key : R -> K) (p : R -> bool) (rrows : list R) :
  NoDup (map key rrows) ->
  (forall r r', In r rrows -> In r' rrows -> p r = true -> p r' = true -> key r = key r') ->
  filter p rrows = [] \/ exists r, filter p rrows = [r].
Proof.
  induction rrows as [|x xs IH]; intros Hn Hk; cbn [filter]; [left; reflexivity|].
  cbn [map] in Hn. inversion Hn as [|? ? Hx Hn']; subst.
  destruct (p x) eqn:Ep.
  - right. exists x. f_equal.
    destruct (filter p xs) as [|y ys] eqn:Ef; [reflexivity|exfalso].
    assert (Hy : In y (filter p xs)) by (rewrite Ef; left; reflexivity).
    apply filter_In in Hy as [Hy Py].
    apply Hx. rewrite (Hk x y); [apply in_map; exact Hy|left; reflexivity|right; exact Hy
                                |exact Ep|exact Py].
  - apply IH; [exact Hn'|]. intros r r' Hr Hr'. apply Hk; right; assumption.
Qed.

Lemma merge_left_unique_key {L R K : Type} (same_key : L -> R -> bool) (key : R -> K)
    (lrows : list L) (rrows : list R) :
  NoDup (map key rrows) ->
  (forall l r r', same_key l r = true -> same_key l r' = true -> key r = key r') ->
  map fst (merge_left same_key lrows rrows) = lrows.
Proof.
  intros Hn Hk. unfold merge_left.
  induction lrows as [|l ls IH]; [reflexivity|].
  cbn [flat_map]. rewrite map_app, IH.
  destruct (filter_unique_key key (same_key l) rrows Hn) as [E|[r E]].
  - intros r r' _ _. apply Hk.
  - rewrite E. reflexivity.
  - rewrite E. reflexivity.
Qed.

Lemma filter_map_fst {A B : Type} (p : A -> bool) (xs : list (A * B)) :
  map fst (filter (fun row => p (fst row)) xs) = filter p (map fst xs).
Proof.
  induction xs as [|x xs IH]; cbn [filter map]; [reflexivity|].
  destruct (p (fst x)); cbn [map]; rewrite IH; reflexivity.
Qed.

Lemma rmap_Forall2 {A B : Type} (f : A -> result B) (xs : list A) (ys : list B) :
  rmap f xs = Ok ys -> Forall2 (fun x y => f x = Ok y) xs ys.
Proof.
  revert ys. induction xs as [|x xs IH]; intros ys; cbn [rmap rbind].
  - intros H. injection H as <-. constructor.
  - destruct (f x) as [y|e] eqn:Ex; [|discriminate].
    destruct (rmap f xs) as [ys'|e] eqn:Er; [|discriminate].
    intros H. injection H as <-. constructor; [exact Ex|apply IH; reflexivity].
Qed.

Lemma Forall2_maps {A B C D : Type} (P : C -> D -> Prop) (f : A -> C) (g : B -> D)
    (xs : list A) (ys : list B) :
  Forall2 (fun x y => P (f x) (g y)) xs ys <-> Forall2 P (map f xs) (map g ys).
Proof.
  split.
  - induction 1; cbn [map]; constructor; assumption.
  - revert ys. induction xs as [|x xs IH]; intros [|y ys] H; cbn [map] in H;
      inversion H; subst; constructor; [assumption|apply IH; assumption].
Qed.

Lemma Forall2_weaken {A B : Type} (P Q : A -> B -> Prop) (xs : list A) (ys : list B) :
  (forall x y, P x y -> Q x y) -> Forall2 P xs ys -> Forall2 Q xs ys.
Proof. intros H. induction 1; constructor; auto. Qed.

Lemma key_matches_same_key (key : option string) (r r' : string * string) :
  key_matches key r = true -> key_matches key r' = true -> fst r = fst r'.
Proof.
  unfold key_matches. destruct key as [k|]; [|discriminate].
  rewrite !String.eqb_eq. congruence.
Qed.

(** X21: when no key occurs twice in the right-hand table of each of the
    three joins (one name for each UNITID of the directory, one family text
    for each CIP2 key, one title for each CIP6 code), the table has exactly
    one row for each completions row of an allow-listed institution, in the
    order of the completions table, and that row carries the completion. *)
Theorem one_row_for_each_allow_listed_completion (a : args) (w w1 : fs)
    (t : list research_row) (df : list completion) (hd : list directory_entry)
    (cip_raw : list taxonomy_entry) (ids : list Z) :
  research_final a w = (Ok t, w1) ->
  lookup (completions_path a) (files w) = Some (CompletionsCsv df) ->
  lookup (hd_path a) (files w) = Some (DirectoryCsv hd) ->
  lookup (cip_path a) (files w) = Some (TaxonomyCsv cip_raw) ->
  load_bigten_unitids (bigten_unitids_path a) w = (Ok ids, w) ->
  NoDup (map hd_UNITID (hd_names_of hd)) ->
  NoDup (map fst (cip2_lookup_of cip_raw)) ->
  NoDup (map fst (cip6_lookup_of cip_raw)) ->
  Forall2 carried_over (filter (fun c => existsb (Z.eqb (UNITID c)) ids) df) t.
Proof.
  intros Ht L1 L2 L3 L4 N1 N2 N6.
  destruct (research_final_inv a w w1 t Ht)
    as (df' & hd' & cip' & ids' & base & L1' & L2' & L3' & L4' & Hb & -> & _).
  rewrite L1 in L1'. rewrite L2 in L2'. rewrite L3 in L3'. rewrite L4 in L4'.
  injection L1' as <-. injection L2' as <-. injection L3' as <-. injection L4' as <-.
  assert (Ebase : map fst (map fst (joined_of cip_raw base)) = base).
  { unfold joined_of.
    rewrite (merge_left_unique_key _ fst _ _ N6).
    - apply (merge_left_unique_key _ fst _ _ N2).
      intros l r r'. apply key_matches_same_key.
    - intros l r r'. apply key_matches_same_key. }
  assert (Erows : map fst (df_bigten_of df hd ids)
                  = filter (fun c => existsb (Z.eqb (UNITID c)) ids) df).
  { unfold df_bigten_of.
    rewrite (filter_map_fst (fun c => existsb (Z.eqb (UNITID c)) ids)).
    rewrite (merge_left_unique_key _ hd_UNITID _ _ N1); [reflexivity|].
    intros l r r' E E'. apply Z.eqb_eq in E, E'. congruence. }
  rewrite <- Erows. apply (proj1 (Forall2_maps carried_over fst final_row _ _)).
  apply rmap_Forall2 in Hb.
  assert (Hb' : Forall2 (fun x y => research_of x = Ok y)
                  (map (fun row => row) (df_bigten_of df hd ids))
                  (map (fun j => fst (fst j)) (joined_of cip_raw base))).
  { rewrite map_id, <- (map_map fst fst), Ebase. exact Hb. }
  apply (proj2 (Forall2_maps (fun x y => research_of x = Ok y) (fun row => row)
                  (fun j => fst (fst j)) _ _)) in Hb'.
  eapply Forall2_weaken; [|exact Hb']. cbv beta.
  intros row [[b o2] o6] Hf. cbn [fst] in Hf.
  destruct (research_of_fields _ _ Hf) as (F1 & F2 & _ & F4 & F5 & F6 & _).
  unfold carried_over, final_row. cbn. auto.
Qed.

Lemma one_row_witness :
  research_final default_args eighteen_fs = (Ok eighteen_rows, eighteen_fs)
  /\ lookup (completions_path default_args) (files eighteen_fs)
     = Some (CompletionsCsv eighteen_completions)
  /\ lookup (hd_path default_args) (files eighteen_fs)
     = Some (DirectoryCsv [ {| hd_UNITID := 151351;
                               INSTNM := Some "Indiana University-Bloomington" |} ])
  /\ lookup (cip_path default_args) (files eighteen_fs) = Some (TaxonomyCsv sample_taxonomy)
  /\ load_bigten_unitids (bigten_unitids_path default_args) eighteen_fs
     = (Ok BIGTEN_UNITIDS, eighteen_fs)
  /\ NoDup (map hd_UNITID
              (hd_names_of [ {| hd_UNITID := 151351;
                                INSTNM := Some "Indiana University-Bloomington" |} ]))
  /\ NoDup (map fst (cip2_lookup_of sample_taxonomy))
  /\ NoDup (map fst (cip6_lookup_of sample_taxonomy))
  /\ Forall2 carried_over
       (filter (fun c => existsb (Z.eqb (UNITID c)) BIGTEN_UNITIDS) eighteen_completions)
       eighteen_rows.
Proof.
  assert (R : research_final default_args eighteen_fs = (Ok eighteen_rows, eighteen_fs))
    by (vm_compute; reflexivity).
  assert (N1 : NoDup (map hd_UNITID
                        (hd_names_of [ {| hd_UNITID := 151351;
                                          INSTNM := Some "Indiana University-Bloomington" |} ])))
    by (vm_compute; constructor; [intros []|constructor]).
  assert (N2 : NoDup (map fst (cip2_lookup_of sample_taxonomy)))
    by (vm_compute; constructor; [intros []|constructor]).
  assert (N6 : NoDup (map fst (cip6_lookup_of sample_taxonomy)))
    by (vm_compute; constructor; [intros []|constructor]).
  split; [exact R|]. split; [reflexivity|]. split; [reflexivity|]. split; [reflexivity|].
  split; [reflexivity|]. split; [exact N1|]. split; [exact N2|]. split; [exact N6|].
  exact (one_row_for_each_allow_listed_completion
           default_args eighteen_fs eighteen_fs eighteen_rows eighteen_completions _
           sample_taxonomy BIGTEN_UNITIDS R eq_refl eq_refl eq_refl eq_refl N1 N2 N6).
Defined.

(** X22: whatever the directory and the taxonomy hold, the table has at
    least as many rows as the completions table has rows of allow-listed
    institutions: a join can repeat a completion, it cannot drop one. *)
Theorem no_allow_listed_completion_is_dropped (a : args) (w w1 : fs)
    (t : list research_row) (df : list completion) (ids : list Z) :
  research_final a w = (Ok t, w1) ->
  lookup (completions_path a) (files w) = Some (CompletionsCsv df) ->
  load_bigten_unitids (bigten_unitids_path a) w = (Ok ids, w) ->
  (List.length (filter (fun c => existsb (Z.eqb (UNITID c)) ids) df) <= List.length t)%nat.
Proof.
  intros Ht L1 L4.
  destruct (research_final_inv a w w1 t Ht)
    as (df' & hd & cip_raw & ids' & base & L1' & _ & _ & L4' & Hb & -> & _).
  rewrite L1 in L1'. rewrite L4 in L4'. injection L1' as <-. injection L4' as <-.
  destruct (rmap_ok_in _ _ _ Hb) as (_ & _ & Hlen).
  rewrite length_map. unfold joined_of.
  eapply Nat.le_trans; [|apply merge_left_length].
  eapply Nat.le_trans; [|apply merge_left_length].
  rewrite Hlen. unfold df_bigten_of.
  apply (merge_left_filter_length _ (fun c => existsb (Z.eqb (UNITID c)) ids)).
Qed.

Lemma none_dropped_witness :
  research_final default_args eighteen_fs = (Ok eighteen_rows, eighteen_fs)
  /\ lookup (completions_path default_args) (files eighteen_fs)
     = Some (CompletionsCsv eighteen_completions)
  /\ load_bigten_unitids (bigten_unitids_path default_args) eighteen_fs
     = (Ok BIGTEN_UNITIDS, eighteen_fs)
  /\ (List.length (filter (fun c => existsb (Z.eqb (UNITID c)) BIGTEN_UNITIDS)
                     eighteen_completions)
      <= List.length eighteen_rows)%nat.
Proof.
  assert (R : research_final default_args eighteen_fs = (Ok eighteen_rows, eighteen_fs))
    by (vm_compute; reflexivity).
  split; [exact R|]. split; [reflexivity|]. split; [reflexivity|].
  exact (no_allow_listed_completion_is_dropped
           default_args eighteen_fs eighteen_fs eighteen_rows eighteen_completions
           BIGTEN_UNITIDS R eq_refl eq_refl).
Defined.

(** ** The institution count and the allow-list *)

(** X23: when the allow-list in use has at most 18 entries, a run of
    [build] that writes its table has a row for every institution of the
    list and for no other institution, and the list names 18 different
    institutions. *)
Theorem written_table_covers_the_allow_list (a : args) (w w' : fs) (p : path)
    (ids : list Z) :
  build a w = (Ok p, w') ->
  load_bigten_unitids (bigten_unitids_path a) w = (Ok ids, w) ->
  (List.length ids <= 18)%nat ->
  exists t,
    lookup (out_path a) (files w') = Some (ResearchCsv t)
    /\ (forall u, In u ids <-> exists r, In r t /\ unitid r = u)
    /\ NoDup ids
    /\ List.length ids = 18%nat.
Proof.
  intros Hb Hl Hlen.
  destruct (build_ok a w w' p Hb) as (t & Ht & Hg & _ & Hout).
  exists t. split; [exact Hout|].
  apply guardrails_ok_iff in Hg as (H18 & _). unfold nunique in H18.
  pose proof (drop_duplicates_nodup Z.eqb Z.eqb_eq (map unitid t)) as Hnd.
  pose proof (drop_duplicates_in Z.eqb Z.eqb_eq (map unitid t)) as Hin.
  destruct (research_final_inv a w w t Ht)
    as (df & hd & cip_raw & ids' & base & _ & _ & _ & Hl' & Hbase & Et & _).
  rewrite Hl in Hl'. injection Hl' as <-.
  destruct (research_final_row_origin df hd cip_raw ids base Hbase) as [Horigin _].
  rewrite <- Et in Horigin.
  assert (Hincl : incl (drop_duplicates Z.eqb (map unitid t)) ids).
  { intros u Hu. apply Hin in Hu. apply in_map_iff in Hu as (r & <- & Hr).
    destruct (Horigin r Hr) as (c & _ & Hc & Hcarry).
    destruct Hcarry as [-> _]. exact Hc. }
  assert (Hlen' : (List.length ids <= List.length (drop_duplicates Z.eqb (map unitid t)))%nat)
    by (rewrite H18; exact Hlen).
  split; [|split].
  - intros u. split.
    + intros Hu. apply (NoDup_length_incl Hnd Hlen' Hincl) in Hu.
      apply Hin in Hu. apply in_map_iff in Hu as (r & E & Hr). exists r. auto.
    + intros (r & Hr & <-). apply Hincl. apply Hin. apply in_map. exact Hr.
  - exact (NoDup_incl_NoDup Hnd Hlen' Hincl).
  - apply Nat.le_antisymm; [exact Hlen|].
    rewrite <- H18. apply (NoDup_incl_length Hnd Hincl).
Qed.

Lemma covers_allow_list_witness :
  build default_args eighteen_fs = (Ok (out_path default_args), eighteen_written)
  /\ load_bigten_unitids (bigten_unitids_path default_args) eighteen_fs
     = (Ok BIGTEN_UNITIDS, eighteen_fs)
  /\ (List.length BIGTEN_UNITIDS <= 18)%nat
  /\ (exists t,
         lookup (out_path default_args) (files eighteen_written) = Some (ResearchCsv t)
         /\ (forall u, In u BIGTEN_UNITIDS <-> exists r, In r t /\ unitid r = u)
         /\ NoDup BIGTEN_UNITIDS
         /\ List.length BIGTEN_UNITIDS = 18%nat).
Proof.
  assert (B : build default_args eighteen_fs
              = (Ok (out_path default_args), eighteen_written))
    by (vm_compute; reflexivity).
  assert (Hlen : (List.length BIGTEN_UNITIDS <= 18)%nat) by (cbn; lia).
  split; [exact B|]. split; [reflexivity|]. split; [exact Hlen|].
  exact (written_table_covers_the_allow_list
           default_args eighteen_fs eighteen_written (out_path default_args)
           BIGTEN_UNITIDS B eq_refl Hlen).
Defined.
